(** * The integration-test harness of the OpenBB terminal

    A shallow embedding of [openbb_terminal/integration_testing.py]:
    script discovery ([build_test_path_list], [collect_test_files]),
    template resolution and command translation ([run_scripts]), the
    batch runner ([run_test_files]), the two reporters
    ([display_failures], [display_summary]) and the session around them
    ([run_test_list], [parse_args_and_run], the handling of the command
    line), followed by the properties the specification states about
    them and by further properties of the code.

    Conventions of the embedding.
    - A Python [str] is a [string]; characters are the code points below
      256, which covers every literal the module itself uses.
    - Python library functions keep their Python names and are written
      out with the behaviour CPython documents ([str.replace],
      [str.split], [str.rstrip], [re.sub], [pathlib.PurePosixPath], ...).
    - The collaborators the module imports but does not define (the
      command interpreter, the file system, the clock, the helpers of
      [terminal_helper] and [terminal_controller]) are the fields of the
      class [Host].
    - Statements that can raise live in the monad [Py], which threads the
      state of the outside world, collects what is printed on the console
      and propagates a raised exception together with its traceback.
    - A query of the file system ([Path.exists], [Path.is_file],
      [Path.is_dir], [os.walk]) is the value the call returns; a query
      that raises has no counterpart, and what is stated of discovery is
      stated of the runs in which the queries return. *)

From Stdlib Require Import Ascii DecimalString Decimal ZArith Lia.
From Stdlib Require String DecimalNat.
From stdpp Require Import base list strings gmap sorting.

Local Open Scope Z_scope.
Local Open Scope nat_scope.

(** Let [simpl] compute the concatenation of strings. *)
#[local] Arguments String.append !_ _ / : simpl nomatch.

(** ** Python strings *)

Module PyStr.

(** [str.isspace] on one character: the Unicode white space below 256. *)
Definition isspace (c : ascii) : bool :=
  let n := nat_of_ascii c in
  ((9 <=? n) && (n <=? 13)) || ((28 <=? n) && (n <=? 32))
  || (n =? 133) || (n =? 160).

Definition len (s : string) : nat := String.length s.

(** [s.startswith(p)] *)
Definition startswith (p s : string) : bool := String.prefix p s.

(** [sub in s] *)
Fixpoint contains (sub s : string) : bool :=
  startswith sub s ||
  match s with
  | EmptyString => false
  | String _ s' => contains sub s'
  end.

(** [s.endswith(suf)] *)
Fixpoint endswith (suf s : string) : bool :=
  String.eqb suf s ||
  match s with
  | EmptyString => false
  | String _ s' => endswith suf s'
  end.

(** [s[1:]] *)
Definition slice_from_1 (s : string) : string :=
  match s with
  | EmptyString => EmptyString
  | String _ s' => s'
  end.

(** [s[:n]] *)
Fixpoint slice_to (n : nat) (s : string) : string :=
  match n, s with
  | S k, String c s' => String c (slice_to k s')
  | _, _ => EmptyString
  end.

(** [s * n] *)
Fixpoint repeat (s : string) (n : nat) : string :=
  match n with
  | O => EmptyString
  | S k => s +:+ repeat s k
  end.

(** [s * z] for a Python integer: nothing when [z] is not positive. *)
Definition repeatZ (s : string) (z : Z) : string := repeat s (Z.to_nat z).

(** The scan of [str.replace] for a non-empty [old]: left to right,
    leftmost match first, matches do not overlap.  [skip] counts the
    characters of the current match still to be passed over. *)
Fixpoint replace_from (old new : string) (skip : nat) (s : string) : string :=
  match s with
  | EmptyString => EmptyString
  | String c s' =>
      match skip with
      | S k => replace_from old new k s'
      | O =>
          if startswith old s
          then new +:+ replace_from old new (len old - 1) s'
          else String c (replace_from old new 0 s')
      end
  end.

(** [s.replace("", new)] puts [new] before every character and at the end. *)
Fixpoint interleave (new s : string) : string :=
  match s with
  | EmptyString => new
  | String c s' => new +:+ String c (interleave new s')
  end.

(** [s.replace(old, new)] *)
Definition replace (old new s : string) : string :=
  match old with
  | EmptyString => interleave new s
  | String _ _ => replace_from old new 0 s
  end.

(** Put [c] in front of the first piece of a split in progress. *)
Definition cons_head (c : ascii) (pieces : list string) : list string :=
  match pieces with
  | [] => [String c EmptyString]
  | h :: t => String c h :: t
  end.

(** The scan of [str.split(sep)] for a non-empty [sep]. *)
Fixpoint split_from (sep : string) (skip : nat) (s : string) : list string :=
  match s with
  | EmptyString => [EmptyString]
  | String c s' =>
      match skip with
      | S k => split_from sep k s'
      | O =>
          if startswith sep s
          then EmptyString :: split_from sep (len sep - 1) s'
          else cons_head c (split_from sep 0 s')
      end
  end.

(** [s.split(sep)]; every call in the module passes a non-empty literal
    (Python raises [ValueError] on an empty separator). *)
Definition split (sep s : string) : list string := split_from sep 0 s.

(** Cut at every white-space character, keeping the empty pieces. *)
Fixpoint ws_pieces (s : string) : list string :=
  match s with
  | EmptyString => [EmptyString]
  | String c s' =>
      if isspace c then EmptyString :: ws_pieces s'
      else cons_head c (ws_pieces s')
  end.

Definition nonempty (s : string) : bool := negb (String.eqb s EmptyString).

(** [s.split()]: the maximal runs of characters that are not white space. *)
Definition split_ws (s : string) : list string :=
  List.filter nonempty (ws_pieces s).

(** [sep.join(l)] *)
Fixpoint join (sep : string) (l : list string) : string :=
  match l with
  | [] => EmptyString
  | [x] => x
  | x :: t => x +:+ sep +:+ join sep t
  end.

(** Strip the characters satisfying [p] from the right end. *)
Fixpoint rstrip_by (p : ascii → bool) (s : string) : string :=
  match s with
  | EmptyString => EmptyString
  | String c s' =>
      match rstrip_by p s' with
      | EmptyString => if p c then EmptyString else String c EmptyString
      | String _ _ as r => String c r
      end
  end.

(** Strip the characters satisfying [p] from the left end. *)
Fixpoint lstrip_by (p : ascii → bool) (s : string) : string :=
  match s with
  | EmptyString => EmptyString
  | String c s' => if p c then lstrip_by p s' else s
  end.

(** [s.rstrip()] *)
Definition rstrip (s : string) : string := rstrip_by isspace s.

Definition is_newline (c : ascii) : bool := Ascii.eqb c "010"%char.

(** [s.strip("\n")] *)
Definition strip_newlines (s : string) : string :=
  rstrip_by is_newline (lstrip_by is_newline s).

(** [str(i)] for a non-negative integer. *)
Definition of_nat (i : nat) : string :=
  NilEmpty.string_of_uint (Nat.to_uint i).

(** [str(z)] for an integer. *)
Definition of_Z (z : Z) : string :=
  NilEmpty.string_of_int (Z.to_int z).

(** Truth value of a string: non-empty. *)
Definition truthy (s : string) : bool := nonempty s.

(** [list(enumerate(l))] *)
Definition enumerate {A} (l : list A) : list (nat * A) :=
  imap (λ i x, (i, x)) l.

End PyStr.

(** ** Regular expressions: the one pattern the module uses *)

Module Re.

(** The pattern language [re.sub] is called with: a literal character,
    or the greedy repetition [[^c]+] of a negated one-character class. *)
Inductive item : Type :=
| Lit (c : ascii)
| PlusNot (c : ascii).

(** Backtracking match of a pattern at the start of a string; the result
    is the length of the match.  A repetition first tries to take one
    more character and only then hands over to the rest of the pattern,
    which is the order in which CPython's engine explores a greedy
    quantifier. *)
Fixpoint match_here (p : list item) : string → option nat :=
  match p with
  | [] => λ _, Some 0
  | Lit c :: p' => λ s,
      match s with
      | String a s' => if Ascii.eqb a c then S <$> match_here p' s' else None
      | EmptyString => None
      end
  | PlusNot c :: p' =>
      fix more (s : string) : option nat :=
        match s with
        | String a s' =>
            if Ascii.eqb a c then None
            else match more s' with
                 | Some n => Some (S n)
                 | None => S <$> match_here p' s'
                 end
        | EmptyString => None
        end
  end.

(** [r"\${[^{]+=[^{]+}"] *)
Definition placeholder : list item :=
  [Lit "$"; Lit "{"; PlusNot "{"; Lit "="; PlusNot "{"; Lit "}"]%char.

(** The scan of [re.sub(pattern, repl, s)] with a callable [repl], for a
    pattern that matches no empty string: leftmost match first, matches
    do not overlap, the text of each match is handed to [repl]. *)
Fixpoint sub_from (p : list item) (repl : string → string)
         (skip : nat) (s : string) : string :=
  match s with
  | EmptyString => EmptyString
  | String c s' =>
      match skip with
      | S k => sub_from p repl k s'
      | O =>
          match match_here p s with
          | Some (S n) => repl (PyStr.slice_to (S n) s) +:+ sub_from p repl n s'
          | _ => String c (sub_from p repl 0 s')
          end
      end
  end.

Definition sub (p : list item) (repl : string → string) (s : string) : string :=
  sub_from p repl 0 s.

End Re.

(** ** pathlib: pure POSIX paths *)

Module Pathlib.

(** A [PurePosixPath] is its tuple of [parts]; an absolute path has its
    root, ["/"] or ["//"], as first part. *)
Definition PosixPath : Type := list string.

Fixpoint leading_slashes (s : string) : nat :=
  match s with
  | String "/" s' => S (leading_slashes s')
  | _ => 0
  end.

(** The root [splitroot] finds: exactly two leading slashes are kept,
    any other positive number collapses to one. *)
Definition splitroot (s : string) : string :=
  match leading_slashes s with
  | 0 => ""
  | 2 => "//"
  | _ => "/"
  end.

(** Empty components and ["."] are dropped when a path is parsed. *)
Definition keep_part (x : string) : bool :=
  PyStr.nonempty x && negb (String.eqb x ".").

(** [Path(s)] *)
Definition Path (s : string) : PosixPath :=
  let comps := List.filter keep_part (PyStr.split "/" s) in
  match splitroot s with
  | EmptyString => comps
  | String _ _ as root => root :: comps
  end.

Definition is_root (x : string) : bool :=
  String.eqb x "/" || String.eqb x "//".

Definition is_absolute (p : PosixPath) : bool :=
  match p with
  | r :: _ => is_root r
  | [] => false
  end.

(** [p / s]: an absolute right operand replaces the left one. *)
Definition joinpath (p : PosixPath) (s : string) : PosixPath :=
  let q := Path s in
  if is_absolute q then q else p ++ q.

(** [str(p)] *)
Definition str (p : PosixPath) : string :=
  match p with
  | [] => "."
  | r :: rest =>
      if is_root r then r +:+ PyStr.join "/" rest else PyStr.join "/" p
  end.

(** [not (q < p)] on the tuples of parts: Python compares tuples
    lexicographically and strings by code point. *)
Fixpoint parts_leb (p q : list string) : bool :=
  match p, q with
  | [], _ => true
  | _ :: _, [] => false
  | a :: p', b :: q' =>
      if String.eqb a b then parts_leb p' q' else String.leb a b
  end.

Definition le (p q : PosixPath) : Prop := parts_leb p q = true.

#[global] Instance le_dec : RelDecision le.
Proof. intros p q. unfold le. apply _. Defined.

(** The comparison is a total order on paths. *)
#[global] Instance le_total : Total le.
Proof.
  unfold le. intros p. induction p as [|a p IH]; intros [|b q]; simpl; auto.
  rewrite (String.eqb_sym b a). destruct (String.eqb a b); [apply IH|].
  apply String.leb_total.
Qed.

#[global] Instance le_antisym : AntiSymm (=) le.
Proof.
  unfold le. intros p. induction p as [|a p IH]; intros [|b q]; simpl; try done.
  rewrite (String.eqb_sym b a).
  destruct (String.eqb_spec a b) as [->|Hne].
  - intros ??. f_equal. by apply IH.
  - intros H1 H2. destruct Hne. by apply String.leb_antisym.
Qed.

#[global] Instance le_trans : Transitive le.
Proof.
  unfold le. intros p. induction p as [|a p IH]; intros [|b q] [|c r]; simpl;
    try done.
  destruct (String.eqb_spec a b) as [->|Hab].
  - destruct (String.eqb b c); [apply IH|done].
  - destruct (String.eqb_spec b c) as [->|Hbc].
    + intros Hle _. by rewrite (proj2 (String.eqb_neq a c)).
    + intros H1 H2.
      assert (String.le a c) as Hac.
      { transitivity b; unfold String.le; by apply Is_true_true. }
      destruct (String.eqb_spec a c) as [->|Hne].
      * destruct Hab. by apply String.leb_antisym.
      * by apply Is_true_true in Hac.
Qed.

(** [sorted(l)] for a list of paths. *)
Definition sorted (l : list PosixPath) : list PosixPath := merge_sort le l.

End Pathlib.

Export Pathlib(PosixPath).

(** ** Exceptions, tracebacks and console output *)

(** A [traceback.FrameSummary], with the attributes the module reads. *)
Record FrameSummary : Type := mkFrame {
  filename : string;
  lineno : nat;
  name : string
}.

(** An instance of [Exception]: the name of its class and its [str()].
    The handler of the batch runner is [except Exception]; what is not an
    [Exception] ([KeyboardInterrupt], [SystemExit]) ends the host process
    and has no value here. *)
Record PyException : Type := mkExc {
  exc_class : string;
  exc_str : string
}.

Definition IndexError : PyException :=
  {| exc_class := "IndexError"; exc_str := "list index out of range" |}.

(** What a statement does: it completes with a value, or raises.  The
    traceback lists the frames from the outermost one to the one that
    raised, as [traceback.extract_tb] returns them. *)
Inductive PyResult (A : Type) : Type :=
| Ok (a : A)
| Raised (e : PyException) (tb : list FrameSummary).
Arguments Ok {A} a.
Arguments Raised {A} e tb.

Definition raised {A} (r : PyResult A) : bool :=
  match r with Ok _ => false | Raised _ _ => true end.

(** One call of [console.print(text, end=..., style=...)]. *)
Record Print : Type := mkPrint {
  p_text : string;
  p_end : string;
  p_style : option string
}.

Definition nl : string := String "010" EmptyString.

(** Where the interpreter's standard output goes during a call. *)
Inductive Sink : Type :=
| Visible
| Suppressed
| Captured (file : PosixPath).

(** ** The collaborators of the module *)

Class Host : Type := {
  (** the state of everything outside the module: file system, clock,
      environment variables, the interpreter's own state *)
  World : Type;
  (** the float type of the clock *)
  float : Type;

  (** [terminal_helper.is_reset] *)
  is_reset : string → bool;
  (** [terminal_controller.insert_start_slash] *)
  insert_start_slash : list string → list string;
  (** [terminal_controller.terminal(jobs_cmds, test_mode)], with the place
      its standard output is directed to *)
  terminal : option (list string) → bool → Sink → World → PyResult unit * World;

  (** [core.config.paths] *)
  MISCELLANEOUS_DIRECTORY : PosixPath;
  REPOSITORY_DIRECTORY : PosixPath;
  (** [__file__] of the module, as it shows in its own frames *)
  module_file : string;

  (** [Path.exists], [Path.is_file], [Path.is_dir]: the value the call
      returns.  [pathlib] reads a missing file and a few more errors of
      [stat] as absence and lets any other [OSError] pass (a name that is
      too long, a directory that may not be searched); a call that
      raises has no value here, and what is stated of the check at line
      162 and of discovery is stated of the runs in which these calls
      return. *)
  path_exists : World → PosixPath → bool;
  path_is_file : World → PosixPath → bool;
  path_is_dir : World → PosixPath → bool;
  (** [os.walk(top)]: the triples [(root, dirs, files)] in walk order *)
  os_walk : World → string → list (string * list string * list string);
  (** [Path.open()] followed by reading every line *)
  path_open : World → PosixPath → PyResult (list string);
  (** [Path.mkdir(parents=True, exist_ok=True)] *)
  path_mkdir : PosixPath → World → PyResult unit * World;
  (** [open(file, "w")] *)
  open_write : PosixPath → World → PyResult unit * World;

  (** [str(datetime.now().timestamp())] *)
  timestamp_str : World → string;
  (** [time.time()] *)
  time_time : World → float;
  float_sub : float → float → float;
  (** [f"{x:.2f}"] *)
  format_2f : float → string;
  (** [f"{a / b:.0%}"] for two integers *)
  format_percent : nat → nat → string;
  (** [os.environ["DEBUG_MODE"] = "true"] *)
  set_debug_mode : World → World;
  (** the string [traceback.format_list] makes of one frame *)
  format_frame : FrameSummary → string
}.

(** ** The monad of statements *)

Record Res (W A : Type) : Type := mkRes {
  result : PyResult A;
  world_after : W;
  printed : list Print
}.
Arguments mkRes {W A} result world_after printed.
Arguments result {W A} r.
Arguments world_after {W A} r.
Arguments printed {W A} r.

Section Monad.
Context `{Host}.

Definition Py (A : Type) : Type := World → Res World A.

Definition ret {A} (a : A) : Py A := λ w, mkRes (Ok a) w [].

(** Sequencing: the second statement runs in the world the first one
    left, unless the first one raised. *)
Definition bind {A B} (k : A → Py B) (m : Py A) : Py B := λ w,
  let r := m w in
  match result r with
  | Ok a =>
      let r' := k a (world_after r) in
      mkRes (result r') (world_after r') (printed r ++ printed r')
  | Raised e tb => mkRes (Raised e tb) (world_after r) (printed r)
  end.

#[global] Instance Py_ret : MRet Py := @ret.
#[global] Instance Py_bind : MBind Py := @bind.

(** A value that is there or raises, with no effect. *)
Definition lift {A} (r : PyResult A) : Py A := λ w, mkRes r w [].

(** Read the world. *)
Definition gets {A} (f : World → A) : Py A := λ w, mkRes (Ok (f w)) w [].

(** Act on the world. *)
Definition act {A} (f : World → PyResult A * World) : Py A := λ w,
  let '(r, w') := f w in mkRes r w' [].

Definition console_print (text : string) (end_ : string)
           (style : option string) : Py unit := λ w,
  mkRes (Ok tt) w [mkPrint text end_ style].

(** The statement at line [n] of function [fn]: an exception leaving it
    has the frame of that line on top of its traceback. *)
Definition at_line {A} (n : nat) (fn : string) (m : Py A) : Py A := λ w,
  let r := m w in
  match result r with
  | Ok a => r
  | Raised e tb =>
      mkRes (Raised e (mkFrame module_file n fn :: tb)) (world_after r) (printed r)
  end.

(** [try: m  except Exception as e: ...]: the outcome as a value. *)
Definition try {A} (m : Py A) : Py (PyResult A) := λ w,
  let r := m w in mkRes (Ok (result r)) (world_after r) (printed r).

End Monad.

(** ** Template resolution and command translation *)

(** The helpers [run_scripts] imports from [terminal_controller] and
    [terminal_helper].  Neither module is among the sources; the functions
    are written from what the specification says of them.  The resolver
    calls [replace_dynamic] directly; [is_reset] and [insert_start_slash]
    are fields of [Host], and these definitions are their instance in the
    host [Mem.demo] below. *)
Module TerminalController.

Fixpoint drop_last (s : string) : string :=
  match s with
  | EmptyString => EmptyString
  | String c EmptyString => EmptyString
  | String c s' => String c (drop_last s')
  end.

(** Text before and after the first [=]. *)
Fixpoint cut_eq (s : string) : string * string :=
  match s with
  | EmptyString => (EmptyString, EmptyString)
  | String c s' =>
      if Ascii.eqb c "="%char then (EmptyString, s')
      else let '(k, d) := cut_eq s' in (String c k, d)
  end.

(** The key and the default of a matched [${key=default}]. *)
Definition key_default (matched : string) : string * string :=
  cut_eq (drop_last (PyStr.slice_from_1 (PyStr.slice_from_1 matched))).

(** Modelled from the spec: [terminal_controller.replace_dynamic], called
    on every match of the placeholder pattern.  "Replace it with the
    SpecialArguments value for [key] if present and non-empty, otherwise
    with [default]." *)
Definition replace_dynamic (matched : string)
           (special_arguments : gmap string string) : string :=
  let '(key, default) := key_default matched in
  match special_arguments !! key with
  | Some value => if PyStr.truthy value then value else default
  | None => default
  end.

(** Modelled from the spec: [terminal_controller.insert_start_slash].
    "Ensure the path begins with a leading separator token." *)
Definition insert_start_slash (cmds : list string) : list string :=
  match cmds with
  | [] => []
  | c :: rest => if PyStr.startswith "/" c then cmds else ("/" +:+ c) :: rest
  end.

End TerminalController.

Module TerminalHelper.

(** Modelled from the spec: [terminal_helper.is_reset].  "A reset
    directive line is stripped": a line that holds the directive
    [reset]. *)
Definition is_reset (command : string) : bool := PyStr.contains "reset" command.

End TerminalHelper.

(** Truth value of an optional list and of an optional dictionary. *)
Definition list_truthy {A} (l : option (list A)) : bool :=
  match l with
  | Some (_ :: _) => true
  | _ => false
  end.

Definition dict_truthy (d : option (gmap string string)) : bool :=
  match d with
  | Some m => negb (bool_decide (m = ∅))
  | None => false
  end.

(** [lines[i]] *)
Definition index {A} (l : list A) (i : nat) : PyResult A :=
  match l !! i with
  | Some x => Ok x
  | None => Raised IndexError []
  end.

(** [lines[-1]] *)
Definition index_last {A} (l : list A) : PyResult A :=
  match last l with
  | Some x => Ok x
  | None => Raised IndexError []
  end.

Section Resolver.
Context `{Host}.

(** Lines 168-171: the two comprehensions over the lines of the file. *)
Definition keep_raw (x : string) : bool :=
  negb (is_reset x) && negb (PyStr.contains "#" x) && PyStr.truthy x.

Definition preprocess (fp : list string) : list string :=
  let raw_lines := List.filter keep_raw fp in
  PyStr.strip_newlines <$>
    List.filter (λ raw_line, PyStr.truthy (PyStr.strip_newlines raw_line)) raw_lines.

(** [f"$ARGV[{i}]"] *)
Definition argv_token (i : nat) : string := "$ARGV[" +:+ PyStr.of_nat i +:+ "]".

(** Lines 176-178: one pass of [str.replace] per argument, in order. *)
Definition substitute_argv (routines_args : list string) (rawline : string) : string :=
  foldl (λ templine '(i, arg), PyStr.replace (argv_token i) arg templine)
        rawline (PyStr.enumerate routines_args).

(** Lines 184-188 *)
Definition substitute_dynamic (special_arguments : gmap string string)
           (line : string) : string :=
  Re.sub Re.placeholder
         (λ x, TerminalController.replace_dynamic x special_arguments) line.

(** Lines 173-192 *)
Definition resolve (routines_args : option (list string))
           (special_arguments : option (gmap string string))
           (raw_lines : list string) : list string :=
  if list_truthy routines_args then
    substitute_argv (default [] routines_args) <$> raw_lines
  else if dict_truthy special_arguments then
    substitute_dynamic (default ∅ special_arguments) <$> raw_lines
  else raw_lines.

(** Lines 194-195 *)
Definition append_exit (test_mode : bool) (lines : list string)
  : PyResult (list string) :=
  if test_mode then
    match index_last lines with
    | Ok final => if PyStr.contains "exit" final then Ok lines
                  else Ok (lines ++ ["exit"])
    | Raised e tb => Raised e tb
    end
  else Ok lines.

(** Lines 197-200: the folder named by a leading export line, and the
    lines that remain. *)
Definition extract_export (lines : list string)
  : PyResult (string * list string) :=
  match index lines 0 with
  | Ok first =>
      if PyStr.contains "export" first then
        match index (PyStr.split "export " first) 1 with
        | Ok folder => Ok (PyStr.rstrip folder, List.tl lines)
        | Raised e tb => Raised e tb
        end
      else Ok (EmptyString, lines)
  | Raised e tb => Raised e tb
  end.

(** Lines 202-204: the command path of the remaining lines. *)
Definition simulate_argv (lines : list string) : string :=
  "/" +:+ PyStr.join "/" (PyStr.rstrip <$> lines).

Definition command_tokens (lines : list string) : list string :=
  let file_cmds := PyStr.split_ws (PyStr.replace "//" "/home/" (simulate_argv lines)) in
  match file_cmds with
  | [] => file_cmds
  | _ :: _ => insert_start_slash file_cmds
  end.

(** Lines 205-208 *)
Definition to_file_cmds (export_folder : string) (lines : list string) : list string :=
  if PyStr.truthy export_folder then
    ["export " +:+ export_folder +:+ PyStr.join " " (command_tokens lines)]
  else [PyStr.join " " (command_tokens lines)].

(** Lines 197-208 together. *)
Definition translate (lines : list string) : PyResult (list string) :=
  match extract_export lines with
  | Ok (export_folder, lines') => Ok (to_file_cmds export_folder lines')
  | Raised e tb => Raised e tb
  end.

End Resolver.

(** ** Replaying one script *)

Section Replay.
Context `{Host}.

Definition open_lines (path : PosixPath) : Py (list string) :=
  λ w, mkRes (path_open w path) w [].

(** Lines 136-227 *)
Definition run_scripts (path : PosixPath) (test_mode verbose : bool)
           (routines_args : option (list string))
           (special_arguments : option (gmap string string))
           (output : bool) : Py unit :=
  present ← gets (λ w, path_exists w path);
  (if negb present then
     console_print
       ("File '" +:+ Pathlib.str path +:+ "' doesn't exist. Launching base terminal." +:+ nl)
       nl None;;
     if negb test_mode
     then at_line 165 "run_scripts" (act (terminal None false Visible))
     else mret tt
   else mret tt);;
  fp ← at_line 167 "run_scripts" (open_lines path);
  let raw_lines := preprocess fp in
  let lines := resolve routines_args special_arguments raw_lines in
  lines ← at_line 194 "run_scripts" (lift (append_exit test_mode lines));
  (* line 198 reads [lines[0]], line 199 the folder after the directive *)
  at_line 198 "run_scripts" (lift (index lines 0));;
  file_cmds ← at_line 199 "run_scripts" (lift (translate lines));
  if negb test_mode || verbose then
    at_line 211 "run_scripts" (act (terminal (Some file_cmds) true Visible))
  else if output then
    (* line 214 prints under [suppress_stdout]: nothing is shown *)
    stamp ← gets timestamp_str;
    let stamp_str := PyStr.replace "." "" stamp in
    let whole_path := Pathlib.joinpath REPOSITORY_DIRECTORY "integration_test_output" in
    at_line 219 "run_scripts" (act (path_mkdir whole_path));;
    first ← at_line 220 "run_scripts" (lift (index file_cmds 0));
    first_cmd ← at_line 220 "run_scripts" (lift (index (PyStr.split "/" first) 1));
    let file := Pathlib.joinpath whole_path
                  (stamp_str +:+ "_" +:+ first_cmd +:+ "_output.txt") in
    at_line 221 "run_scripts" (act (open_write file));;
    at_line 225 "run_scripts" (act (terminal (Some file_cmds) true (Captured file)))
  else
    at_line 227 "run_scripts" (act (terminal (Some file_cmds) true Suppressed)).

End Replay.

(** ** The batch runner *)

Definition LENGTH : nat := 90.
Definition GRAY : string := "rgb(128,128,128)".
Definition YELLOW : string := "yellow".
Definition STYLES : list string :=
  ["[bold]"; "[/bold]"; "[red]"; "[/red]"; "[green]"; "[/green]";
   "[bold red]"; "[/bold red]"].

(** One value of the [fails] dictionary. *)
Record Failure : Type := mkFailure {
  exception : PyException;
  traceback : list FrameSummary
}.

(** A [dict] with string keys, in insertion order. *)
Definition Dict (V : Type) : Type := list (string * V).

(** [d[k] = v]: a key already there keeps its place. *)
Fixpoint dict_set {V} (k : string) (v : V) (d : Dict V) : Dict V :=
  match d with
  | [] => [(k, v)]
  | (k', v') :: d' =>
      if String.eqb k' k then (k, v) :: d' else (k', v') :: dict_set k v d'
  end.

Definition dict_keys {V} (d : Dict V) : list string := fst <$> d.

Fixpoint dict_get {V} (k : string) (d : Dict V) : option V :=
  match d with
  | [] => None
  | (k', v) :: d' => if String.eqb k' k then Some v else dict_get k d'
  end.

(** The three accumulators of the loop. *)
Record Tally : Type := mkTally {
  SUCCESSES : nat;
  FAILURES : nat;
  fails : Dict Failure
}.

Section Batch.
Context `{Host}.

(** Lines 258-259 *)
Definition file_short_name (file : PosixPath) : string :=
  PyStr.slice_from_1
    (PyStr.replace (Pathlib.str MISCELLANEOUS_DIRECTORY) "" (Pathlib.str file)).

(** Lines 279-283: the text of the progress line of script number [i]. *)
Definition progress_line (file_short_name : string) (i n_files : nat) : string :=
  let percentage := format_percent (i + 1) n_files in
  let percentage_with_spaces :=
    "[" +:+ PyStr.repeatZ " " (4 - Z.of_nat (PyStr.len percentage))
        +:+ percentage +:+ "]" in
  let spacing := (Z.of_nat LENGTH - Z.of_nat (PyStr.len file_short_name)
                  - Z.of_nat (PyStr.len percentage_with_spaces))%Z in
  file_short_name +:+ PyStr.repeatZ " " spacing +:+ percentage_with_spaces.

(** Lines 269-276: what the outcome of one replay does to the counters. *)
Definition record_outcome (file_short_name : string) (outcome : PyResult unit)
           (t : Tally) : Tally :=
  match outcome with
  | Ok _ => mkTally (SUCCESSES t + 1) (FAILURES t) (fails t)
  | Raised e tb =>
      mkTally (SUCCESSES t) (FAILURES t + 1)
              (dict_set file_short_name (mkFailure e tb) (fails t))
  end.

(** Lines 256-285: the loop, from script number [i] on. *)
Fixpoint batch_from (verbose : bool) (special_arguments : gmap string string)
         (n_files i : nat) (test_files : list PosixPath) (t : Tally) : Py Tally :=
  match test_files with
  | [] => mret t
  | file :: rest =>
      let short := file_short_name file in
      outcome ← try (at_line 262 "run_test_files"
                       (run_scripts file true verbose None (Some special_arguments) true));
      let t' := record_outcome short outcome t in
      console_print (progress_line short i n_files) nl
                    (Some (if FAILURES t' =? 0 then "green" else "red"));;
      batch_from verbose special_arguments n_files (S i) rest t'
  end.

(** Lines 230-290 *)
Definition run_test_files (test_files : list PosixPath) (verbose : bool)
           (special_arguments : gmap string string)
  : Py (nat * nat * Dict Failure * float) :=
  start ← gets time_time;
  act (λ w, (Ok tt, set_debug_mode w));;
  t ← batch_from verbose special_arguments (length test_files) 0 test_files
                 (mkTally 0 0 []);
  end_ ← gets time_time;
  mret (SUCCESSES t, FAILURES t, fails t, float_sub end_ start).

End Batch.

(** ** The reporters *)

(** [traceback._RECURSIVE_CUTOFF] *)
Definition RECURSIVE_CUTOFF : nat := 3.

(** The line that stands for the frames of a run that are not shown. *)
Definition repeated_line (count : nat) : string :=
  "  [Previous line repeated " +:+ PyStr.of_nat count +:+ " more time"
  +:+ (if 1 <? count then "s" else "") +:+ "]" +:+ nl.

(** Two frames of the same file, line and function. *)
Definition same_frame (a b : FrameSummary) : bool :=
  String.eqb (filename a) (filename b) && (lineno a =? lineno b)
  && String.eqb (name a) (name b).

(** What ends a run of [count] equal frames. *)
Definition close_run (count : nat) : list string :=
  if RECURSIVE_CUTOFF <? count then [repeated_line (count - RECURSIVE_CUTOFF)]
  else [].

Section Report.
Context `{Host}.

(** [traceback.format_list], the loop of [StackSummary.format]: one
    string per frame, except that of a run of frames with the same file,
    line and function only the first three are formatted; a line that
    counts the others follows the run.  [last] is the frame before and
    [count] the length of the run so far. *)
Fixpoint format_from (last : option FrameSummary) (count : nat)
         (tb : list FrameSummary) : list string :=
  match tb with
  | [] => close_run count
  | frame_summary :: rest =>
      let fresh := match last with
                   | Some frame => negb (same_frame frame frame_summary)
                   | None => true
                   end in
      let closed := if fresh then close_run count else [] in
      let count := S (if fresh then 0 else count) in
      closed
      ++ (if RECURSIVE_CUTOFF <? count then [] else [format_frame frame_summary])
      ++ format_from (Some frame_summary) count rest
  end.

Definition format_list (extracted_list : list FrameSummary) : list string :=
  format_from None 0 extracted_list.

(** Lines 56-82 *)
Definition to_title (title : string) (char : string) : string :=
  let title := " " +:+ title +:+ " " in
  let len_styles :=
    foldl (λ acc style, if PyStr.contains style title
                        then acc + PyStr.len style else acc) 0 STYLES in
  let n := Z.quot (Z.of_nat LENGTH - Z.of_nat (PyStr.len title)
                   + Z.of_nat len_styles) 2 in
  let formatted_title := PyStr.repeatZ char n +:+ title +:+ PyStr.repeatZ char n in
  formatted_title +:+
    PyStr.repeatZ char (Z.of_nat LENGTH - Z.of_nat (PyStr.len formatted_title)
                        + Z.of_nat len_styles).

(** Lines 311-320: the lines of a formatted traceback, each printed in
    the style chosen for it; a line that keeps the style says so by
    leaving the variable as the previous line set it. *)
Fixpoint print_traceback (style : string) (formatted_tb : list string) : Py unit :=
  match formatted_tb with
  | [] => mret tt
  | line :: rest =>
      let style :=
        if negb (PyStr.contains "openbb_terminal" line) then GRAY
        else match rest with
             | [] => YELLOW
             | next :: _ =>
                 if negb (PyStr.contains "openbb_terminal" next) then YELLOW
                 else style
             end in
      console_print line "" (Some style);;
      print_traceback style rest
  end.

(** Lines 306-326: the section of one failed script. *)
Definition display_failure (file : string) (failure : Failure) : Py unit :=
  let title := "[bold red]" +:+ file +:+ "[/bold red]" in
  console_print (to_title title "-") nl (Some "red");;
  console_print ("[bold red]" +:+ nl +:+ "Traceback:[/bold red]") nl None;;
  print_traceback "" (format_list (traceback failure));;
  console_print ("[bold red]Exception type:[/bold red] "
                 +:+ exc_class (exception failure)) nl None;;
  console_print ("[bold red]Detail:[/bold red] "
                 +:+ exc_str (exception failure)) nl None;;
  console_print (PyStr.repeat "- " (LENGTH / 2)) nl None.

(** A [for] loop over the items of a dictionary. *)
Fixpoint for_items {V} (d : Dict V) (body : string → V → Py unit) : Py unit :=
  match d with
  | [] => mret tt
  | (k, v) :: d' => body k v;; for_items d' body
  end.

(** Lines 293-326 *)
Definition display_failures (fails : Dict Failure) : Py unit :=
  match fails with
  | [] => mret tt
  | _ :: _ =>
      console_print (nl +:+ to_title "FAILURES" "=") nl None;;
      for_items fails display_failure
  end.

(** Lines 354-358: the command a traceback is blamed on, found from the
    innermost frame outwards. *)
Definition is_dispatch_frame (frame : FrameSummary) : bool :=
  PyStr.contains "_controller.py" (filename frame)
  && PyStr.contains "call_" (name frame).

Definition broken_cmd (tb : list FrameSummary) : PyResult string :=
  match List.find is_dispatch_frame (rev tb) with
  | Some frame => index (PyStr.split "_" (name frame)) 1
  | None => Ok "unknown"
  end.

Definition summary_line (file : string) (failure : Failure) : Py unit :=
  cmd ← at_line 357 "display_summary" (lift (broken_cmd (traceback failure)));
  console_print ("FAILED " +:+ file +:+ " -> command: " +:+ cmd) nl None.

(** Lines 329-369 *)
Definition display_summary (fails : Dict Failure) (n_successes n_failures : Z)
           (seconds : float) : Py unit :=
  match fails with
  | [] => mret tt
  | _ :: _ =>
      console_print (nl +:+ to_title "integration test summary" "=") nl None;;
      for_items fails summary_line
  end;;
  let failures :=
    if (0 <? n_failures)%Z
    then "[bold][red]" +:+ PyStr.of_Z n_failures +:+ " failed, [/red][/bold]"
    else "" in
  let successes :=
    if (0 <? n_successes)%Z
    then "[green]" +:+ PyStr.of_Z n_successes +:+ " passed[/green]"
    else "" in
  console_print
    (to_title (failures +:+ successes +:+ " in " +:+ format_2f seconds +:+ " s") "=")
    nl (Some (if (n_failures =? 0)%Z then "green" else "red")).

End Report.

(** ** Script discovery *)

(** What [set(l)] may be when it is iterated: the elements of [l], each
    once, in an order the interpreter chooses. *)
Definition SetOrder (set_iter : list string → list string) : Prop :=
  ∀ l, NoDup (set_iter l) ∧ ∀ x, x ∈ set_iter l ↔ x ∈ l.

Section Locator.
Context `{Host}.

(** Lines 105-110 *)
Definition walk_scripts (w : World) (top : string) : list string :=
  concat
    ((λ '(root, _, files),
        (λ name, root +:+ "/" +:+ name) <$>
          List.filter (PyStr.endswith ".openbb") files)
       <$> os_walk w top).

(** Lines 94-110: what one fragment adds to [test_files]. *)
Definition collect_fragment (path : string) : Py (list string) :=
  let script_path :=
    Pathlib.joinpath (Pathlib.joinpath MISCELLANEOUS_DIRECTORY "scripts") path in
  present ← gets (λ w, path_exists w script_path);
  if (present : bool) then
    is_file ← gets (λ w, path_is_file w script_path);
    if is_file && PyStr.endswith ".openbb" (Pathlib.str script_path) then
      mret [Pathlib.str script_path]
    else
      is_dir ← gets (λ w, path_is_dir w script_path);
      if (is_dir : bool) then gets (λ w, walk_scripts w (Pathlib.str script_path))
      else mret []
  else
    console_print (nl +:+ "[red]Can't find the file: " +:+ Pathlib.str script_path
                   +:+ "[/red]" +:+ nl) nl None;;
    mret [].

(** Lines 93-110 *)
Fixpoint collect (path_list : list string) (test_files : list string)
  : Py (list string) :=
  match path_list with
  | [] => mret test_files
  | path :: rest =>
      found ← collect_fragment path;
      collect rest (test_files ++ found)
  end.

(** Lines 85-114.  The guard of line 87 compares the argument with the
    empty string; it is false for every list, and an empty string would
    run the loop over no fragment and return the same empty list. *)
Definition build_test_path_list (set_iter : list string → list string)
           (path_list : list string) : Py (list PosixPath) :=
  test_files ← collect path_list [];
  let test_files_unique := set_iter test_files in
  let final_path_list := Pathlib.Path <$> test_files_unique in
  mret (Pathlib.sorted final_path_list).

End Locator.

(** ** The test session *)

(** What [parser.parse_known_args()] returns at line 440: one attribute
    for each argument the parser declares at lines 410-438.  The path
    option takes one fragment or more ([nargs="+"]); without it the
    attribute is the declared default, the empty string, which is falsy
    like the empty list that stands for it here. *)
Module Argparse.

Record Namespace : Type := mkNamespace {
  path : list string;
  verbose : bool;
  ticker : string;
  currency : string;
  crypto : string;
  country : string;
  repo : string;
  crypto_vs : string;
  crypto_full : string;
  currency_vs : string
}.

Definition AttributeError (x : string) : PyException :=
  {| exc_class := "AttributeError";
     exc_str := "'Namespace' object has no attribute '" +:+ x +:+ "'" |}.

(** [getattr(ns_parser, x)] *)
Definition getattr (ns : Namespace) (x : string) : PyResult string :=
  if String.eqb x "ticker" then Ok (ticker ns)
  else if String.eqb x "currency" then Ok (currency ns)
  else if String.eqb x "crypto" then Ok (crypto ns)
  else if String.eqb x "country" then Ok (country ns)
  else if String.eqb x "repo" then Ok (repo ns)
  else if String.eqb x "crypto_vs" then Ok (crypto_vs ns)
  else if String.eqb x "crypto_full" then Ok (crypto_full ns)
  else if String.eqb x "currency_vs" then Ok (currency_vs ns)
  else Raised (AttributeError x) [].

End Argparse.

(** Lines 30-39 *)
Definition special_arguments_values : list string :=
  ["ticker"; "currency"; "crypto"; "country"; "repo"; "crypto_vs";
   "crypto_full"; "currency_vs"].

(** Line 441: [{x: getattr(ns_parser, x) for x in keys}], built key by
    key; a key met again takes the later value. *)
Fixpoint dict_comprehension (ns : Argparse.Namespace) (keys : list string)
         (d : gmap string string) : PyResult (gmap string string) :=
  match keys with
  | [] => Ok d
  | x :: rest =>
      match Argparse.getattr ns x with
      | Ok v => dict_comprehension ns rest (<[x := v]> d)
      | Raised e tb => Raised e tb
      end
  end.

(** [s[0]] raises on the empty string. *)
Definition StringIndexError : PyException :=
  {| exc_class := "IndexError"; exc_str := "string index out of range" |}.

(** Lines 450-452: what the module does to [sys.argv] before it parses
    it. *)
Definition main_argv (argv : list string) : PyResult (list string) :=
  if 1 <? length argv then
    match index argv 1 with
    | Ok first =>
        match first with
        | EmptyString => Raised StringIndexError []
        | String c _ =>
            if negb (PyStr.contains "-" (String c EmptyString))
            then Ok (take 1 argv ++ "-p" :: drop 1 argv)
            else Ok argv
        end
    | Raised e tb => Raised e tb
    end
  else Ok argv.

Section Session.
Context `{Host}.

(** Lines 117-133.  An empty selector is any falsy argument: the empty
    list, or the empty string the parser gives when no path is named. *)
Definition collect_test_files (set_iter : list string → list string)
           (path_list : list string) : Py (list PosixPath) :=
  let path_list := match path_list with [] => [""] | _ :: _ => path_list end in
  test_files ← at_line 128 "collect_test_files"
                 (build_test_path_list set_iter path_list);
  let scripts_location := Pathlib.joinpath MISCELLANEOUS_DIRECTORY "scripts" in
  console_print ("Collecting scripts from: " +:+ Pathlib.str scripts_location +:+ nl)
                nl None;;
  console_print ("collected " +:+ PyStr.of_nat (length test_files) +:+ " scripts" +:+ nl)
                nl (Some "bold");;
  mret test_files.

(** Lines 372-400 *)
Definition run_test_list (set_iter : list string → list string)
           (path_list : list string) (verbose : bool)
           (special_arguments : gmap string string) : Py unit :=
  console_print (to_title "integration test session starts" "=") nl (Some "bold");;
  test_files ← at_line 395 "run_test_list" (collect_test_files set_iter path_list);
  outcome ← at_line 396 "run_test_list"
              (run_test_files test_files verbose special_arguments);
  let '(SUCCESSES, FAILURES, fails, seconds) := outcome in
  at_line 399 "run_test_list" (display_failures fails);;
  at_line 400 "run_test_list"
    (display_summary fails (Z.of_nat SUCCESSES) (Z.of_nat FAILURES) seconds).

(** Lines 441-446: what [parse_args_and_run] does with the parsed
    arguments. *)
Definition parse_args_and_run (set_iter : list string → list string)
           (ns_parser : Argparse.Namespace) : Py unit :=
  special_args_dict ← at_line 441 "parse_args_and_run"
                        (lift (dict_comprehension ns_parser special_arguments_values ∅));
  at_line 442 "parse_args_and_run"
    (run_test_list set_iter (Argparse.path ns_parser) (Argparse.verbose ns_parser)
                   special_args_dict).

End Session.

(** ** A host in memory

    A file system given by a table of text files and a table of directory
    walks, and an interpreter that logs the command sequences it is
    handed and raises on a command line containing [crash].  It serves to
    run the harness on concrete scripts. *)

Module Mem.

Definition RuntimeError : PyException :=
  {| exc_class := "RuntimeError"; exc_str := "crash requested" |}.

Definition FileNotFoundError : PyException :=
  {| exc_class := "FileNotFoundError"; exc_str := "No such file or directory" |}.

Definition crash_frames : list FrameSummary :=
  [mkFrame "/repo/openbb_terminal/terminal_controller.py" 800 "terminal";
   mkFrame "/repo/openbb_terminal/stocks/stocks_controller.py" 120 "call_load";
   mkFrame "/repo/site-packages/pandas/core/frame.py" 33 "__getitem__"].

(** The world is the log of the command sequences replayed so far. *)
Definition interpreter (jobs_cmds : option (list string)) (test_mode : bool)
           (sink : Sink) (w : list (list string))
  : PyResult unit * list (list string) :=
  match jobs_cmds with
  | None => (Ok tt, w)
  | Some cmds =>
      if existsb (PyStr.contains "crash") cmds
      then (Raised RuntimeError crash_frames, w ++ [cmds])
      else (Ok tt, w ++ [cmds])
  end.

Definition lookup_table {V} (k : string) (t : list (string * V)) : option V :=
  snd <$> List.find (λ kv, String.eqb (fst kv) k) t.

Definition quote : string := String "034" EmptyString.

Definition host (misc : string)
           (files : list (string * list string))
           (walks : list (string * list (string * list string * list string)))
  : Host :=
  {| World := list (list string);
     float := nat;
     is_reset := TerminalHelper.is_reset;
     insert_start_slash := TerminalController.insert_start_slash;
     terminal := interpreter;
     MISCELLANEOUS_DIRECTORY := Pathlib.Path misc;
     REPOSITORY_DIRECTORY := Pathlib.Path "/repo";
     module_file := "/repo/openbb_terminal/integration_testing.py";
     path_exists := λ _ p,
       bool_decide (is_Some (lookup_table (Pathlib.str p) files))
       || bool_decide (is_Some (lookup_table (Pathlib.str p) walks));
     path_is_file := λ _ p,
       bool_decide (is_Some (lookup_table (Pathlib.str p) files));
     path_is_dir := λ _ p,
       bool_decide (is_Some (lookup_table (Pathlib.str p) walks));
     os_walk := λ _ top, default [] (lookup_table top walks);
     path_open := λ _ p,
       match lookup_table (Pathlib.str p) files with
       | Some lines => Ok lines
       | None => Raised FileNotFoundError []
       end;
     path_mkdir := λ _ w, (Ok tt, w);
     open_write := λ _ w, (Ok tt, w);
     timestamp_str := λ _, "1667481600.25";
     time_time := λ w, length w;
     float_sub := Nat.sub;
     format_2f := λ x, PyStr.of_nat x +:+ ".00";
     format_percent := λ a b, PyStr.of_nat (a * 100 / b) +:+ "%";
     set_debug_mode := λ w, w;
     format_frame := λ f,
       "  File " +:+ quote +:+ filename f +:+ quote +:+ ", line "
       +:+ PyStr.of_nat (lineno f) +:+ ", in " +:+ name f +:+ nl |}.

Definition line (s : string) : string := s +:+ nl.

(** Three scripts under the scripts root; the second one holds nothing
    but a comment and a blank line. *)
Definition misc : string := "/repo/openbb_terminal/miscellaneous".
Definition scripts : string := "/repo/openbb_terminal/miscellaneous/scripts".

Definition files : list (string * list string) :=
  [(scripts +:+ "/alpha.openbb",
    [line "stocks"; line "load ${ticker=GME}"; line "# candle"; line "exit"]);
   (scripts +:+ "/beta.openbb",
    [line "# only a comment"; nl]);
   (scripts +:+ "/stocks/gamma.openbb",
    [line "export reports/"; line "stocks"; line "load $ARGV[0]"]);
   (scripts +:+ "/stocks/notes.txt", [line "not a script"])].

Definition walks : list (string * list (string * list string * list string)) :=
  [(scripts,
    [(scripts, ["stocks"], ["alpha.openbb"; "beta.openbb"]);
     (scripts +:+ "/stocks", [], ["gamma.openbb"; "notes.txt"])]);
   (scripts +:+ "/stocks",
    [(scripts +:+ "/stocks", [], ["gamma.openbb"; "notes.txt"])])].

Definition demo : Host := host misc files walks.

(** A file system with a script directly under the root directory,
    and the walk [os.walk] makes of the root when it is named [//]:
    the top directory is yielded as it was given. *)
Definition root_files : list (string * list string) :=
  [("/a.openbb", [line "stocks"])].

Definition root_walks : list (string * list (string * list string * list string)) :=
  [("//", [("//", [], ["a.openbb"])]);
   ("/", [("/", [], ["a.openbb"])])].

Definition at_root : Host := host misc root_files root_walks.

End Mem.

(** ** Notions the statements below are written with *)

(** A script line read as literal text interleaved with indexed tokens
    [$ARGV[i]]. *)
Inductive ArgvSegment : Type :=
| Literal (s : string)
| Argv (i : nat).

Definition render_segment (seg : ArgvSegment) : string :=
  match seg with
  | Literal s => s
  | Argv i => argv_token i
  end.

Definition render_argv (segs : list ArgvSegment) : string :=
  foldr (λ seg acc, render_segment seg +:+ acc) "" segs.

(** Token number [i] gives way to the text [arg]. *)
Definition substitute_one (i : nat) (arg : string) (seg : ArgvSegment) : ArgvSegment :=
  match seg with
  | Literal s => Literal s
  | Argv j => if decide (j = i) then Literal arg else Argv j
  end.

(** Every token with an argument gives way to its argument; a token
    whose index is not below the number of arguments stays. *)
Definition fill_segment (args : list string) (seg : ArgvSegment) : ArgvSegment :=
  match seg with
  | Literal s => Literal s
  | Argv j => match args !! j with
              | Some arg => Literal arg
              | None => Argv j
              end
  end.

Definition fill_argv (args : list string) (segs : list ArgvSegment) : string :=
  render_argv (fill_segment args <$> segs).

(** Every dollar sign of the line starts a token. *)
Definition dollar_free (segs : list ArgvSegment) : Prop :=
  ∀ s, Literal s ∈ segs → PyStr.contains "$" s = false.








(** The same outcome in the same world, with [ps] printed first. *)
Definition prepend {W A} (ps : list Print) (r : Res W A) : Res W A :=
  mkRes (result r) (world_after r) (ps ++ printed r).

Definition count_ok {A} (outcomes : list (PyResult A)) : nat :=
  length (List.filter (λ o, negb (raised o)) outcomes).

Definition count_raised {A} (outcomes : list (PyResult A)) : nat :=
  length (List.filter raised outcomes).

Section ReplaySequence.
Context `{Host}.

(** The replay of one script as the batch runner calls it at line 262. *)
Definition replay (verbose : bool) (special_arguments : gmap string string)
           (file : PosixPath) : Py unit :=
  at_line 262 "run_test_files"
    (run_scripts file true verbose None (Some special_arguments) true).

(** Replaying the scripts of a list one after another, each once, each
    in the world the previous one left: the outcomes in order, and the
    world at the end. *)
Fixpoint replay_all (verbose : bool) (special_arguments : gmap string string)
         (files : list PosixPath) (w : World) : list (PyResult unit) * World :=
  match files with
  | [] => ([], w)
  | file :: rest =>
      let r := replay verbose special_arguments file w in
      let '(outcomes, w') :=
        replay_all verbose special_arguments rest (world_after r) in
      (result r :: outcomes, w')
  end.

(** What the loop has recorded once the scripts of [files] have had the
    outcomes [outcomes]. *)
Definition record_all (files : list PosixPath) (outcomes : list (PyResult unit))
           (t : Tally) : Tally :=
  foldl (λ t fo, record_outcome (file_short_name fo.1) fo.2 t) t
        (zip files outcomes).

End ReplaySequence.

(** The markup [to_title] leaves out of the width: the total length of
    the tags of [STYLES] that occur in the padded title. *)
Definition len_styles (title : string) : nat :=
  foldl (λ acc style, if PyStr.contains style title
                      then acc + PyStr.len style else acc) 0 STYLES.


(** A text without white space. *)
Fixpoint no_space (s : string) : bool :=
  match s with
  | EmptyString => true
  | String c s' => negb (PyStr.isspace c) && no_space s'
  end.

(** A word of a command line: not empty, no white space. *)
Definition is_word (s : string) : bool := PyStr.nonempty s && no_space s.

(** The console lines that were printed with a style. *)
Definition styled (ps : list Print) : list Print :=
  List.filter (λ p, bool_decide (is_Some (p_style p))) ps.

Section Outcomes.
Context `{Host}.

(** A statement that only prints and never raises. *)
Definition prints_ok {A} (m : Py A) : Prop :=
  ∃ (a : A) (out : list Print), ∀ w, m w = mkRes (Ok a) w out.

(** A statement none of whose console lines carries a style. *)
Definition unstyled {A} (m : Py A) : Prop :=
  ∀ w, styled (printed (m w)) = [].

(** A statement whose exceptions all leave from a line of function
    [fn]: the traceback starts with a frame of that function. *)
Definition raises_in {A} (fn : string) (m : Py A) : Prop :=
  ∀ w e tb, result (m w) = Raised e tb →
            ∃ n tb', tb = mkFrame module_file n fn :: tb'.

(** The records of the scripts that failed, in the order of the
    scripts. *)
Definition failure_records (files : list PosixPath)
           (outcomes : list (PyResult unit)) : Dict Failure :=
  omap (λ fo : PosixPath * PyResult unit,
          match fo.2 with
          | Raised e tb => Some (file_short_name fo.1, mkFailure e tb)
          | Ok _ => None
          end)
       (zip files outcomes).

End Outcomes.

(** * Properties *)

(** ** Facts about Python strings *)

Module PyStrFacts.
Import PyStr.

Lemma app_nil_r (s : string) : s +:+ "" = s.
Proof. induction s as [|c s IH]; simpl; [done|]. by rewrite IH. Qed.

Lemma app_assoc (s t u : string) : (s +:+ t) +:+ u = s +:+ (t +:+ u).
Proof. induction s as [|c s IH]; simpl; [done|]. by rewrite IH. Qed.

Lemma len_app (s t : string) : len (s +:+ t) = len s + len t.
Proof. induction s as [|c s IH]; simpl; [done|]. unfold len in *. simpl. lia. Qed.

Lemma startswith_cons (a b : ascii) (p s : string) :
  startswith (String a p) (String b s) = bool_decide (a = b) && startswith p s.
Proof.
  unfold startswith. simpl. destruct (ascii_dec a b) as [->|Hne].
  - by rewrite bool_decide_eq_true_2.
  - by rewrite bool_decide_eq_false_2.
Qed.

Lemma startswith_nil (s : string) : startswith "" s = true.
Proof. by destruct s. Qed.

Lemma startswith_spec (p s : string) :
  startswith p s = true ↔ ∃ t, s = p +:+ t.
Proof.
  revert s. induction p as [|a p IH]; intros s.
  - rewrite startswith_nil. split; [eauto|done].
  - destruct s as [|b s].
    + split; [done|]. by intros [t Ht].
    + rewrite startswith_cons, andb_true_iff, bool_decide_eq_true, IH.
      split.
      * intros [-> [t ->]]. by exists t.
      * intros [t Ht]. simpl in Ht. injection Ht as -> ->. eauto.
Qed.

Lemma startswith_app (p s : string) : startswith p (p +:+ s) = true.
Proof. apply startswith_spec. eauto. Qed.

(** [sub in s] holds exactly when [s] is some text, then [sub], then
    some text. *)
Lemma contains_spec (sub s : string) :
  contains sub s = true ↔ ∃ a b, s = a +:+ sub +:+ b.
Proof.
  induction s as [|c s IH]; cbn [contains].
  - rewrite orb_false_r, startswith_spec. split.
    + intros [t Ht]. by exists "", t.
    + intros ([|x a] & b & Hab); [eauto|done].
  - rewrite orb_true_iff, startswith_spec, IH. split.
    + intros [[t Ht]|(a & b & ->)].
      * by exists "", t.
      * by exists (String c a), b.
    + intros ([|x a] & b & Hab).
      * left. by exists b.
      * right. simpl in Hab. injection Hab as -> ->. eauto.
Qed.

Lemma contains_false_cons (sub : string) (c : ascii) (s : string) :
  contains sub (String c s) = false →
  startswith sub (String c s) = false ∧ contains sub s = false.
Proof. simpl. by intros [??]%orb_false_iff. Qed.

Lemma contains_app_r (sub a s : string) :
  contains sub s = true → contains sub (a +:+ s) = true.
Proof.
  rewrite !contains_spec. intros (x & y & ->).
  exists (a +:+ x), y. by rewrite app_assoc.
Qed.

Lemma contains_self (s : string) : contains s s = true.
Proof. apply contains_spec. exists "", "". simpl. by rewrite app_nil_r. Qed.

Lemma contains_char_cons (c a : ascii) (s : string) :
  contains (String c "") (String a s)
  = bool_decide (c = a) || contains (String c "") s.
Proof.
  cbn [contains]. rewrite startswith_cons, startswith_nil.
  by rewrite andb_true_r.
Qed.

Lemma contains_char_app (c : ascii) (s t : string) :
  contains (String c "") (s +:+ t)
  = contains (String c "") s || contains (String c "") t.
Proof.
  induction s as [|a s IH].
  - simpl. by destruct t.
  - change (String a s +:+ t) with (String a (s +:+ t)).
    rewrite !contains_char_cons, IH. by rewrite orb_assoc.
Qed.


(** Passing over the rest of a match. *)
Lemma replace_from_skip (old new m s : string) :
  replace_from old new (len m) (m +:+ s) = replace_from old new 0 s.
Proof.
  induction m as [|c m IH]; simpl; [|done].
  destruct s; done.
Qed.

(** A match at the front is replaced and the scan goes on behind it. *)
Lemma replace_from_match (old new s : string) :
  old ≠ "" →
  replace_from old new 0 (old +:+ s) = new +:+ replace_from old new 0 s.
Proof.
  destruct old as [|c old]; [done|intros _].
  change (String c old +:+ s) with (String c (old +:+ s)).
  cbn [replace_from].
  replace (startswith (String c old) (String c (old +:+ s))) with true
    by (symmetry; exact (startswith_app (String c old) s)).
  f_equal.
  replace (len (String c old) - 1) with (len old) by (unfold len; simpl; lia).
  apply (replace_from_skip (String c old) new old s).
Qed.

(** No match at the front: the first character is copied. *)
Lemma replace_from_nomatch (old new : string) (c : ascii) (s : string) :
  startswith old (String c s) = false →
  replace_from old new 0 (String c s) = String c (replace_from old new 0 s).
Proof. intros Hp. cbn [replace_from]. by rewrite Hp. Qed.

(** A text in which [old] does not occur is left as it is. *)
Lemma replace_from_absent (old new s : string) :
  contains old s = false → replace_from old new 0 s = s.
Proof.
  induction s as [|c s IH]; [done|].
  intros [Hp Hc]%contains_false_cons.
  rewrite replace_from_nomatch by done. by rewrite IH.
Qed.

Lemma split_from_skip (sep m s : string) :
  split_from sep (len m) (m +:+ s) = split_from sep 0 s.
Proof.
  induction m as [|c m IH]; simpl; [|done].
  destruct s; done.
Qed.

Lemma split_match (sep s : string) :
  sep ≠ "" → split sep (sep +:+ s) = "" :: split sep s.
Proof.
  destruct sep as [|c sep]; [done|intros _]. unfold split.
  change (String c sep +:+ s) with (String c (sep +:+ s)).
  cbn [split_from].
  replace (startswith (String c sep) (String c (sep +:+ s))) with true
    by (symmetry; exact (startswith_app (String c sep) s)).
  f_equal.
  replace (len (String c sep) - 1) with (len sep) by (unfold len; simpl; lia).
  apply (split_from_skip (String c sep) sep s).
Qed.

Lemma split_absent (sep s : string) :
  contains sep s = false → split sep s = [s].
Proof.
  unfold split. induction s as [|c s IH]; [done|].
  intros [Hp Hc]%contains_false_cons.
  cbn [split_from]. rewrite Hp, IH by done. done.
Qed.

End PyStrFacts.

(** ** The monad *)

Section MonadFacts.
Context `{Host}.

Lemma bind_unfold {A B} (m : Py A) (k : A → Py B) (w : World) :
  (m ≫= k) w =
  match result (m w) with
  | Ok a => prepend (printed (m w)) (k a (world_after (m w)))
  | Raised e tb => mkRes (Raised e tb) (world_after (m w)) (printed (m w))
  end.
Proof. reflexivity. Qed.

Lemma at_line_ok {A} (n : nat) (fn : string) (m : Py A) (w : World) (a : A) :
  result (m w) = Ok a → at_line n fn m w = m w.
Proof. unfold at_line. by intros ->. Qed.

Lemma at_line_raised {A} (n : nat) (fn : string) (m : Py A) (w : World)
      (e : PyException) (tb : list FrameSummary) :
  result (m w) = Raised e tb →
  at_line n fn m w
  = mkRes (Raised e (mkFrame module_file n fn :: tb))
          (world_after (m w)) (printed (m w)).
Proof. unfold at_line. by intros ->. Qed.

Lemma prepend_nil {A} (r : Res World A) : prepend [] r = r.
Proof. by destruct r. Qed.

Lemma prepend_prepend {A} (ps qs : list Print) (r : Res World A) :
  prepend ps (prepend qs r) = prepend (ps ++ qs) r.
Proof. unfold prepend. simpl. by rewrite List.app_assoc. Qed.

End MonadFacts.

(** ** pathlib and script discovery *)

Module PathlibFacts.
Import PyStr PyStrFacts Pathlib.

Lemma parts_leb_refl (p : list string) : parts_leb p p = true.
Proof. induction p as [|a p IH]; [done|]. simpl. by rewrite String.eqb_refl. Qed.

(** [sorted] returns its argument in order, whatever order it came in. *)
Lemma sorted_Sorted (l : list PosixPath) : Sorted le (sorted l).
Proof. apply Sorted_merge_sort, _. Qed.

Lemma sorted_Permutation (l : list PosixPath) : sorted l ≡ₚ l.
Proof. apply merge_sort_Permutation. Qed.

(** There is one sorted arrangement of a list of paths: any sort that
    orders by [le] returns what [sorted] returns. *)
Lemma sorted_unique (l l' : list PosixPath) :
  Sorted le l' → l' ≡ₚ l → l' = sorted l.
Proof.
  intros Hsorted Hperm. apply (Sorted_unique le); [done|apply sorted_Sorted|].
  by rewrite sorted_Permutation.
Qed.

Lemma sorted_order_irrelevant (l1 l2 : list PosixPath) :
  l1 ≡ₚ l2 → sorted l1 = sorted l2.
Proof.
  intros Hperm. apply (Sorted_unique le); [apply sorted_Sorted..|].
  by rewrite !sorted_Permutation.
Qed.

Lemma endswith_spec (suf s : string) :
  endswith suf s = true ↔ ∃ t, s = t +:+ suf.
Proof.
  induction s as [|c s IH]; cbn [endswith].
  - rewrite orb_false_r, String.eqb_eq. split.
    + intros ->. by exists "".
    + intros ([|a t] & Ht); [done|]. by destruct t.
  - rewrite orb_true_iff, String.eqb_eq, IH. split.
    + intros [->|[t ->]]; [by exists ""|by exists (String c t)].
    + intros ([|a t] & Ht); [by left|]. simpl in Ht. injection Ht as -> ->. eauto.
Qed.

Lemma endswith_app (suf t s : string) :
  endswith suf s = true → endswith suf (t +:+ s) = true.
Proof.
  rewrite !endswith_spec. intros [u ->]. exists (t +:+ u). by rewrite app_assoc.
Qed.

(** The last component of a string that ends with a slash-free suffix
    ends with that suffix. *)
Lemma split_last_suffix (suf x : string) :
  suf ≠ "" → contains "/" suf = false → endswith suf x = true →
  ∃ pieces final, split "/" x = pieces ++ [final] ∧ endswith suf final = true.
Proof.
  intros Hsuf Hslash. unfold split.
  induction x as [|c x IH]; cbn [endswith].
  - rewrite orb_false_r, String.eqb_eq. done.
  - intros Hend. cbn [split_from]. rewrite startswith_cons, startswith_nil, andb_true_r.
    destruct (decide ("/"%char = c)) as [<-|Hc].
    + rewrite bool_decide_eq_true_2 by done. cbn [len String.length Nat.sub].
      apply orb_true_iff in Hend as [Heq|Hend].
      { apply String.eqb_eq in Heq. subst suf.
        by rewrite contains_char_cons, bool_decide_eq_true_2 in Hslash. }
      destruct (IH Hend) as (pieces & final & -> & Hfinal).
      by exists ("" :: pieces), final.
    + rewrite bool_decide_eq_false_2 by done.
      apply orb_true_iff in Hend as [Heq|Hend].
      * apply String.eqb_eq in Heq. subst suf.
        exists [], (String c x). split.
        -- apply contains_false_cons in Hslash as [_ Hx].
           pose proof (split_absent "/" x Hx) as Hsplit. unfold split in Hsplit.
           by rewrite Hsplit.
        -- cbn [endswith]. by rewrite String.eqb_refl.
      * destruct (IH Hend) as (pieces & final & -> & Hfinal).
        destruct pieces as [|h pieces].
        -- exists [], (String c final). split; [done|].
           cbn [endswith]. rewrite Hfinal. by rewrite orb_true_r.
        -- by exists (String c h :: pieces), final.
Qed.

Lemma join_snoc (sep : string) (l : list string) (z : string) :
  ∃ t, join sep (l ++ [z]) = t +:+ z.
Proof.
  induction l as [|a l [t IH]].
  - by exists "".
  - cbn [app]. destruct (l ++ [z]) as [|b k] eqn:Hl.
    { by destruct l. }
    cbn [join]. cbn [join] in IH. rewrite IH.
    exists (a +:+ sep +:+ t). by rewrite !app_assoc.
Qed.

(** Parsing and printing a path keeps the extension. *)
Lemma Path_keeps_extension (x : string) :
  endswith ".openbb" x = true → endswith ".openbb" (str (Path x)) = true.
Proof.
  intros Hend.
  destruct (split_last_suffix ".openbb" x) as (pieces & final & Hsplit & Hfinal);
    [done..|].
  assert (keep_part final = true) as Hkeep.
  { apply endswith_spec in Hfinal as [t ->].
    unfold keep_part, nonempty.
    rewrite !(proj2 (String.eqb_neq _ _)); [done|..];
      intros Heq; apply (f_equal len) in Heq; rewrite len_app in Heq;
      unfold len in Heq; simpl in Heq; lia. }
  unfold Path. rewrite Hsplit, List.filter_app. cbn [List.filter].
  rewrite Hkeep. set (comps := List.filter keep_part pieces).
  assert (∀ l : list string, ∃ t, join "/" (l ++ [final]) = t +:+ final)
    as Hjoin by (intros l; apply join_snoc).
  assert (∀ (r : string) (l : list string),
            endswith ".openbb" (str (r :: l ++ [final])) = true) as Hroot.
  { intros r l. unfold str. destruct (is_root r).
    - destruct (Hjoin l) as [t ->]. by apply endswith_app, endswith_app.
    - destruct (Hjoin (r :: l)) as [t Ht]. cbn [app] in Ht. rewrite Ht.
      by apply endswith_app. }
  destruct (splitroot x) as [|c root]; [|apply Hroot].
  destruct comps as [|r l]; [|apply Hroot].
  cbn [app]. unfold str. destruct (is_root final) eqn:Hr; [|done].
  unfold is_root in Hr. apply orb_true_iff in Hr as [Hr|Hr];
    apply String.eqb_eq in Hr; by subst.
Qed.

End PathlibFacts.

Section LocatorFacts.
Context `{Host}.
Import PyStr PyStrFacts PathlibFacts.

Lemma walk_scripts_extension (w : World) (top x : string) :
  x ∈ walk_scripts w top → endswith ".openbb" x = true.
Proof.
  unfold walk_scripts. intros Hx.
  apply list_elem_of_In, List.in_concat in Hx as (names & Hnames & Hx).
  apply list_elem_of_In in Hnames, Hx.
  apply list_elem_of_fmap in Hnames as ([[root dirs] files] & -> & _).
  apply list_elem_of_fmap in Hx as (name & -> & Hname).
  apply list_elem_of_In, List.filter_In in Hname as [_ Hname].
  by apply endswith_app, endswith_app.
Qed.

(** A fragment adds strings that end with the extension, prints at most
    a warning and changes nothing. *)
Lemma collect_fragment_run (path : string) (w : World) :
  ∃ found prints,
    collect_fragment path w = mkRes (Ok found) w prints
    ∧ ∀ x, x ∈ found → endswith ".openbb" x = true.
Proof.
  unfold collect_fragment.
  set (script_path := Pathlib.joinpath _ path).
  rewrite bind_unfold. cbn [gets result world_after printed].
  destruct (path_exists w script_path).
  - rewrite bind_unfold. cbn [gets result world_after printed].
    destruct (path_is_file w script_path
              && endswith ".openbb" (Pathlib.str script_path)) eqn:Hfile.
    + eexists _, _. split; [reflexivity|].
      intros x ->%list_elem_of_singleton.
      by apply andb_true_iff in Hfile as [_ ?].
    + rewrite bind_unfold. cbn [gets result world_after printed].
      destruct (path_is_dir w script_path).
      * eexists _, _. split; [reflexivity|].
        intros x. apply walk_scripts_extension.
      * eexists _, _. split; [reflexivity|]. by intros x ?%elem_of_nil.
  - rewrite bind_unfold. cbn [console_print result world_after printed].
    eexists _, _. split; [reflexivity|]. by intros x ?%elem_of_nil.
Qed.

Lemma collect_run (path_list : list string) :
  ∀ (test_files : list string) (w : World),
    ∃ found prints,
      collect path_list test_files w = mkRes (Ok (test_files ++ found)) w prints
      ∧ ∀ x, x ∈ found → endswith ".openbb" x = true.
Proof.
  induction path_list as [|path rest IH]; intros test_files w.
  - exists [], []. split; [|by intros x ?%elem_of_nil].
    cbn [collect]. by rewrite List.app_nil_r.
  - cbn [collect]. rewrite bind_unfold.
    destruct (collect_fragment_run path w) as (found & prints & -> & Hfound).
    cbn [result world_after printed].
    destruct (IH (test_files ++ found) w) as (found' & prints' & -> & Hfound').
    exists (found ++ found'), (prints ++ prints'). split.
    + unfold prepend. cbn [result world_after printed]. by rewrite List.app_assoc.
    + intros x [?|?]%elem_of_app; auto.
Qed.

(** X19: what discovery guarantees of the list it returns.  Whenever
    [build_test_path_list] returns a list, the list is sorted and every
    path in it ends with the extension; the call has left the world as
    it was, and it returns the same list and prints the same lines in
    whichever order the set of collected strings is iterated.  The
    paths of the list are pairwise distinct when the collected strings
    are in pathlib's normal form, which [pathlib] itself ensures for a
    file named by a fragment and [os.walk] for the files it finds,
    except under a top directory spelled [//]. *)
Lemma discovery_postcondition (set_iter set_iter' : list string → list string)
      (path_list : list string) (w : World) (found : list PosixPath) :
  SetOrder set_iter → SetOrder set_iter' →
  result (build_test_path_list set_iter path_list w) = Ok found →
  ∃ test_files,
    result (collect path_list [] w) = Ok test_files
    ∧ found = Pathlib.sorted (Pathlib.Path <$> set_iter test_files)
    ∧ build_test_path_list set_iter' path_list w
      = build_test_path_list set_iter path_list w
    ∧ world_after (build_test_path_list set_iter path_list w) = w
    ∧ Sorted Pathlib.le found
    ∧ (∀ p, p ∈ found → endswith ".openbb" (Pathlib.str p) = true)
    ∧ ((∀ x, x ∈ test_files → Pathlib.str (Pathlib.Path x) = x) → NoDup found).
Proof.
  intros Hset Hset' Hfound.
  destruct (collect_run path_list [] w) as (test_files & prints & Hcollect & Hext).
  cbn [app] in Hcollect.
  assert (∀ f, build_test_path_list f path_list w
               = mkRes (Ok (Pathlib.sorted (Pathlib.Path <$> f test_files))) w prints)
    as Hbuild.
  { intros f. unfold build_test_path_list. rewrite bind_unfold, Hcollect.
    unfold prepend. cbn [result world_after printed mret Py_ret ret].
    by rewrite List.app_nil_r. }
  rewrite Hbuild in Hfound. injection Hfound as <-.
  assert (set_iter' test_files ≡ₚ set_iter test_files) as Hperm.
  { destruct (Hset test_files) as [Hnd Hin], (Hset' test_files) as [Hnd' Hin'].
    apply NoDup_Permutation; [done..|]. intros x. by rewrite Hin, Hin'. }
  exists test_files.
  split; [by rewrite Hcollect|]. split; [done|]. split.
  { rewrite !Hbuild. do 2 f_equal.
    apply sorted_order_irrelevant. by rewrite Hperm. }
  split; [by rewrite Hbuild|].
  split; [apply sorted_Sorted|]. split.
  - intros p. rewrite sorted_Permutation.
    intros (x & -> & Hx)%list_elem_of_fmap.
    apply Path_keeps_extension, Hext. by apply (Hset test_files).
  - intros Hnormal. rewrite sorted_Permutation.
    apply NoDup_fmap_2_strong; [|apply (Hset test_files)].
    intros x y Hx%(Hset test_files) Hy%(Hset test_files) Heq.
    by rewrite <- (Hnormal x Hx), <- (Hnormal y Hy), Heq.
Qed.

End LocatorFacts.

(** C7: script discovery run on the fragments [//] and [/a.openbb], with a
    script [a.openbb] in the root directory.  The walk under [//] adds the
    string [///a.openbb], the second fragment adds [/a.openbb]; the set
    keeps both strings, and both parse to the path [/a.openbb].  The list
    returned holds that path twice, in whichever order the set is
    iterated. *)
Theorem discovery_repeats_a_path (set_iter : list string → list string) :
  SetOrder set_iter →
  result (@build_test_path_list Mem.at_root set_iter ["//"; "/a.openbb"] [])
  = Ok [["/"; "a.openbb"]; ["/"; "a.openbb"]]
  ∧ ¬ NoDup [["/"; "a.openbb"]; ["/"; "a.openbb"]].
Proof.
  intros Hset. split.
  - destruct (Hset ["///a.openbb"; "/a.openbb"]) as [Hnd Hin].
    assert (set_iter ["///a.openbb"; "/a.openbb"] ≡ₚ ["///a.openbb"; "/a.openbb"])
      as Hperm.
    { apply NoDup_Permutation; [done| |done].
      apply NoDup_cons. split; [|apply NoDup_singleton].
      by intros ?%list_elem_of_singleton. }
    symmetry in Hperm.
    change (result (@build_test_path_list Mem.at_root set_iter ["//"; "/a.openbb"] []))
      with (Ok (A:=list PosixPath)
              (Pathlib.sorted (Pathlib.Path <$> set_iter ["///a.openbb"; "/a.openbb"]))).
    apply Permutation.Permutation_length_2_inv in Hperm as [->| ->]; reflexivity.
  - intros Hnd. apply NoDup_cons in Hnd as [Hnotin _].
    apply Hnotin. by left.
Qed.

(** ** Input preprocessing and exit appension *)

Section ResolverFacts.
Context `{Host}.
Import PyStr PyStrFacts.

Lemma preprocess_app (fp1 fp2 : list string) :
  preprocess (fp1 ++ fp2) = preprocess fp1 ++ preprocess fp2.
Proof. unfold preprocess. by rewrite !List.filter_app, fmap_app. Qed.

Lemma preprocess_one (x : string) :
  preprocess [x] =
  if keep_raw x && truthy (strip_newlines x) then [strip_newlines x] else [].
Proof.
  unfold preprocess. cbn [List.filter].
  destruct (keep_raw x); cbn [List.filter andb]; [|done].
  by destruct (truthy (strip_newlines x)).
Qed.

Lemma preprocess_insert (before after : list string) (x : string) :
  preprocess (before ++ x :: after)
  = preprocess before ++ preprocess [x] ++ preprocess after.
Proof.
  change (x :: after) with ([x] ++ after). by rewrite !preprocess_app.
Qed.

Lemma truthy_false (s : string) : truthy s = false ↔ s = "".
Proof.
  unfold truthy, nonempty. rewrite negb_false_iff. apply String.eqb_eq.
Qed.

Lemma truthy_true (s : string) : truthy s = true ↔ s ≠ "".
Proof.
  unfold truthy, nonempty. rewrite negb_true_iff. apply String.eqb_neq.
Qed.

(** A line with the marker anywhere in it is dropped, whatever else the
    file holds. *)
Lemma preprocess_marker (x : string) :
  contains "#" x = true → preprocess [x] = [].
Proof.
  intros Hc. rewrite preprocess_one. unfold keep_raw. rewrite Hc.
  by rewrite andb_false_r.
Qed.

(** A line that is blank, a reset directive or holds the marker leaves no
    trace in the result. *)
Lemma preprocess_one_dropped (x : string) :
  (∃ a b, x = a +:+ "#" +:+ b) ∨ is_reset x = true ∨ strip_newlines x = "" →
  preprocess [x] = [].
Proof.
  intros [Hmark|[Hreset|Hblank]].
  - apply preprocess_marker, contains_spec, Hmark.
  - rewrite preprocess_one. unfold keep_raw. by rewrite Hreset.
  - rewrite preprocess_one.
    apply truthy_false in Hblank. rewrite Hblank. by rewrite andb_false_r.
Qed.

(** C5 (amended): input preprocessing drops exactly the lines that
    contain the comment marker [#] at any position, the lines
    [is_reset] recognises and the lines that are empty once their
    newline characters are stripped; a line with the marker after its
    first character is dropped like one that begins with it.  Every
    other line is kept in place, stripped of its newline characters. *)
Theorem comment_lines_stripped (before after : list string) (x : string) :
  ((∃ a b, x = a +:+ "#" +:+ b) ∨ is_reset x = true ∨ strip_newlines x = "" →
     preprocess (before ++ x :: after) = preprocess before ++ preprocess after)
  ∧ ((∀ a b, x ≠ a +:+ "#" +:+ b) → is_reset x = false →
     strip_newlines x ≠ "" →
     preprocess (before ++ x :: after)
     = preprocess before ++ strip_newlines x :: preprocess after).
Proof.
  split.
  - intros Hdrop. by rewrite preprocess_insert, preprocess_one_dropped.
  - intros Hmark Hreset Hblank. rewrite preprocess_insert.
    enough (preprocess [x] = [strip_newlines x]) as -> by done.
    rewrite preprocess_one.
    assert (contains "#" x = false) as Hc.
    { apply not_true_is_false. intros (a & b & ->)%contains_spec.
      by apply (Hmark a b). }
    assert (x ≠ "") as Hx by (by intros ->).
    unfold keep_raw.
    rewrite Hreset, Hc. apply truthy_true in Hx, Hblank.
    by rewrite Hx, Hblank.
Qed.

(** C4 (amended): in test mode, one line [exit] is appended exactly when
    the last resolved line does not hold the text [exit], wherever in
    the line and also inside a word: the test of line 194 is a substring
    test, and a last line that is no exit directive but holds the text
    is left without one.  Running the step again on its result appends
    nothing more.  Outside test mode the lines are left as they are. *)
Theorem exit_appended_once (lines : list string) (final : string) :
  last lines = Some final →
  (append_exit true lines = Ok (lines ++ ["exit"])
     ↔ contains "exit" final = false)
  ∧ (append_exit true lines = Ok lines ↔ contains "exit" final = true)
  ∧ (∃ lines', append_exit true lines = Ok lines'
               ∧ append_exit true lines' = Ok lines')
  ∧ append_exit false lines = Ok lines.
Proof.
  intros Hlast. unfold append_exit, index_last. rewrite Hlast.
  assert (∀ l : list string, Ok (l ++ ["exit"]) ≠ Ok l) as Hne.
  { intros l [=Hl]. apply (f_equal length) in Hl.
    rewrite length_app in Hl. simpl in Hl. lia. }
  destruct (contains "exit" final) eqn:Hc.
  - repeat split; try done.
    + intros Hl. symmetry in Hl. by apply Hne in Hl.
    + exists lines. by rewrite Hlast, Hc.
  - repeat split; try done.
    + intros Hl. by apply Hne in Hl.
    + exists (lines ++ ["exit"]). by rewrite last_snoc.
Qed.

End ResolverFacts.

(** ** Positional substitution *)

Module ArgvFacts.
Import PyStr PyStrFacts.

(** The decimal digits of a number hold neither a dollar sign nor a
    closing bracket. *)
Lemma of_nat_digits (i : nat) :
  contains "$" (of_nat i) = false ∧ contains "]" (of_nat i) = false.
Proof.
  unfold of_nat. generalize (Nat.to_uint i). intros d.
  induction d as [|d [IH1 IH2]|d [IH1 IH2]|d [IH1 IH2]|d [IH1 IH2]|d [IH1 IH2]
                  |d [IH1 IH2]|d [IH1 IH2]|d [IH1 IH2]|d [IH1 IH2]|d [IH1 IH2]];
    cbn [NilEmpty.string_of_uint]; [done|..];
    by rewrite !contains_char_cons, IH1, IH2.
Qed.

Lemma of_nat_inj (i j : nat) : of_nat i = of_nat j → i = j.
Proof.
  unfold of_nat. intros Heq.
  apply DecimalNat.Unsigned.to_uint_inj.
  apply (f_equal NilEmpty.uint_of_string) in Heq.
  rewrite !NilEmpty.usu in Heq. by injection Heq.
Qed.

(** Two texts free of [c], each followed by [c], that start the same
    string are the same text. *)
Lemma app_delim_inj (c : ascii) (s1 s2 r1 r2 : string) :
  contains (String c "") s1 = false →
  contains (String c "") s2 = false →
  s1 +:+ String c r1 = s2 +:+ String c r2 → s1 = s2.
Proof.
  revert s2. induction s1 as [|a s1 IH]; intros [|b s2] H1 H2 Heq.
  - done.
  - simpl in Heq. injection Heq as <- _.
    rewrite contains_char_cons, bool_decide_eq_true_2 in H2; done.
  - simpl in Heq. injection Heq as -> _.
    rewrite contains_char_cons, bool_decide_eq_true_2 in H1; done.
  - simpl in Heq. injection Heq as -> Heq.
    rewrite contains_char_cons in H1, H2.
    apply orb_false_iff in H1 as [_ H1], H2 as [_ H2].
    f_equal. by apply IH.
Qed.

(** A token is the prefix of no other token. *)
Lemma startswith_token (i j : nat) (rest : string) :
  startswith (argv_token i) (argv_token j +:+ rest) = true → i = j.
Proof.
  unfold argv_token. intros [t Ht]%startswith_spec.
  rewrite !app_assoc in Ht. simpl in Ht. injection Ht as Ht.
  apply of_nat_inj. symmetry.
  apply (app_delim_inj "]" _ _ rest t); [apply of_nat_digits..|done].
Qed.

(** Text without a dollar sign is copied by the scan for a text that
    begins with one. *)
Lemma scan_dollar_free (tok new s rest : string) :
  contains "$" s = false →
  replace_from (String "$" tok) new 0 (s +:+ rest)
  = s +:+ replace_from (String "$" tok) new 0 rest.
Proof.
  induction s as [|a s IH]; [done|]. rewrite contains_char_cons.
  intros [Ha Hs]%orb_false_iff. apply bool_decide_eq_false in Ha.
  change (String a s +:+ rest) with (String a (s +:+ rest)).
  rewrite replace_from_nomatch, IH; [done..|].
  rewrite startswith_cons. by rewrite bool_decide_eq_false_2.
Qed.

Lemma token_tail (j : nat) :
  ∃ u, argv_token j = String "$" u ∧ contains "$" u = false.
Proof.
  exists ("ARGV[" +:+ of_nat j +:+ "]"). split; [done|].
  rewrite !contains_char_app.
  by rewrite (proj1 (of_nat_digits j)).
Qed.

Lemma render_argv_cons (seg : ArgvSegment) (segs : list ArgvSegment) :
  render_argv (seg :: segs) = render_segment seg +:+ render_argv segs.
Proof. reflexivity. Qed.

(** One pass of [str.replace] over a line whose dollar signs all start
    tokens replaces the tokens of that index and nothing else. *)
Lemma replace_pass (i : nat) (arg : string) (segs : list ArgvSegment) :
  dollar_free segs →
  replace (argv_token i) arg (render_argv segs)
  = render_argv (substitute_one i arg <$> segs).
Proof.
  intros Hfree.
  assert (replace (argv_token i) arg = replace_from (argv_token i) arg 0)
    as -> by done.
  induction segs as [|seg segs IH]; [done|].
  assert (dollar_free segs) as Hfree' by (intros s Hs; apply Hfree; by right).
  specialize (IH Hfree'). rewrite fmap_cons, !render_argv_cons.
  destruct (token_tail i) as (ti & Hti & _).
  destruct seg as [s|j]; cbn [render_segment substitute_one].
  - rewrite Hti, scan_dollar_free, <- Hti; [by rewrite IH|]. apply Hfree. by left.
  - destruct (decide (j = i)) as [->|Hne]; cbn [render_segment].
    + rewrite replace_from_match; [by rewrite IH|done].
    + destruct (token_tail j) as (u & Hu & Hfreeu).
      assert (startswith (argv_token i) (argv_token j +:+ render_argv segs) = false)
        as Hstart.
      { apply not_true_is_false. intros Hs%startswith_token. by subst. }
      rewrite Hu in Hstart |- *.
      change (String "$" u +:+ ?r) with (String "$" (u +:+ r)) in *.
      rewrite replace_from_nomatch by done.
      rewrite Hti, scan_dollar_free, <- Hti by done.
      f_equal. f_equal. apply IH.
Qed.

Lemma dollar_free_fill (args : list string) (segs : list ArgvSegment) :
  (∀ a, a ∈ args → contains "$" a = false) →
  dollar_free segs → dollar_free (fill_segment args <$> segs).
Proof.
  intros Hargs Hfree s (seg & Hs & Hseg)%list_elem_of_fmap.
  destruct seg as [s'|j]; simpl in Hs.
  - injection Hs as ->. by apply Hfree.
  - destruct (args !! j) as [a|] eqn:Hj; [|done]. injection Hs as ->.
    apply Hargs. by eapply list_elem_of_lookup_2.
Qed.

Lemma fill_segment_snoc (args : list string) (arg : string) (seg : ArgvSegment) :
  substitute_one (length args) arg (fill_segment args seg)
  = fill_segment (args ++ [arg]) seg.
Proof.
  destruct seg as [s|j]; [done|]. cbn [fill_segment].
  destruct (decide (j < length args)) as [Hlt|Hge].
  - rewrite lookup_app_l by done.
    destruct (args !! j) eqn:Hj; [done|].
    apply lookup_ge_None in Hj. lia.
  - rewrite (proj2 (lookup_ge_None args j)) by lia.
    cbn [substitute_one]. rewrite lookup_app_r by lia.
    destruct (decide (j = length args)) as [->|Hne].
    + by rewrite Nat.sub_diag.
    + destruct (j - length args) as [|k] eqn:Hk; [lia|done].
Qed.

(** The passes of lines 176-178 over a line whose dollar signs all
    start tokens, for arguments that hold no dollar sign. *)
Lemma substitute_argv_fill (args : list string) (segs : list ArgvSegment) :
  (∀ a, a ∈ args → contains "$" a = false) →
  dollar_free segs →
  substitute_argv args (render_argv segs) = fill_argv args segs.
Proof.
  unfold substitute_argv, fill_argv, enumerate.
  induction args as [|arg args IH] using rev_ind; intros Hargs Hfree.
  - cbn [imap foldl]. f_equal. induction segs as [|[s|j] segs IHs]; [done|..].
    + cbn [fmap list_fmap fill_segment]. f_equal. apply IHs.
      intros s' Hs'. apply Hfree. by right.
    + cbn [fmap list_fmap fill_segment lookup list_lookup]. f_equal. apply IHs.
      intros s' Hs'. apply Hfree. by right.
  - rewrite imap_app, foldl_app. cbn [imap foldl].
    rewrite Nat.add_0_r, IH; [|intros a Ha; apply Hargs, elem_of_app; by left|done].
    rewrite replace_pass.
    + rewrite <- list_fmap_compose. f_equal. apply list_fmap_ext.
      intros _ seg _. apply fill_segment_snoc.
    + apply dollar_free_fill; [|done].
      intros a Ha. apply Hargs, elem_of_app. by left.
Qed.

(** C2 (amended): when [routines_args] is non-empty, the tokens are
    replaced one argument after the other, in index order, each pass
    replacing every occurrence of its token in the line as the previous
    passes left it.  For lines whose dollar signs all start tokens and
    arguments that hold no dollar sign, the resolved line is the line
    with every token [$ARGV[i]], [i] below the number of arguments,
    replaced by argument [i], and every other text, tokens of larger
    index included, left as it is; no step can raise. *)
Theorem positional_substitution (routines_args : list string)
        (special_arguments : option (gmap string string))
        (lines : list (list ArgvSegment)) :
  routines_args ≠ [] →
  (∀ a, a ∈ routines_args → contains "$" a = false) →
  (∀ segs, segs ∈ lines → dollar_free segs) →
  resolve (Some routines_args) special_arguments (render_argv <$> lines)
  = fill_argv routines_args <$> lines.
Proof.
  intros Hne Hargs Hlines. unfold resolve.
  destruct routines_args as [|a args]; [done|]. cbn [list_truthy default].
  rewrite <- list_fmap_compose. apply list_fmap_ext.
  intros i segs Hsegs. apply substitute_argv_fill; [done|].
  apply Hlines. by eapply list_elem_of_lookup_2.
Qed.

End ArgvFacts.

(** ** Named substitution *)

Module DynFacts.
Import PyStr PyStrFacts.

Local Abbreviation closing := [Re.Lit "}"%char].
Local Abbreviation after_key := [Re.Lit "="%char; Re.PlusNot "{"%char; Re.Lit "}"%char].

























End DynFacts.

(** ** Command translation *)

Section TranslatorFacts.
Context `{Host}.
Import PyStr PyStrFacts.

(** C6: when the first resolved line is an export directive naming a
    folder ([export] and a space, then the folder), the one invocation
    string [run_scripts] builds is the export directive, the folder
    (without trailing white space) and then the command path; the
    command path is built from the remaining lines alone, exactly as it
    is built for a script that consists of those lines and has no
    export line. *)
Theorem export_line_prefixes_invocation (folder : string) (rest : list string) :
  contains "export " folder = false →
  rstrip folder ≠ "" →
  translate (("export " +:+ folder) :: rest)
  = Ok ["export " +:+ rstrip folder +:+ join " " (command_tokens rest)]
  ∧ (∀ line rest', rest = line :: rest' → contains "export" line = false →
       translate rest = Ok [join " " (command_tokens rest)]).
Proof.
  intros Habsent Hfolder. split.
  - unfold translate, extract_export, index. cbn [lookup list_lookup].
    assert (contains "export" ("export " +:+ folder) = true) as ->.
    { apply contains_spec. by exists "", (" " +:+ folder). }
    rewrite (split_match "export " folder) by done.
    rewrite (split_absent "export " folder) by done.
    cbn [lookup list_lookup List.tl]. unfold to_file_cmds.
    apply truthy_true in Hfolder. by rewrite Hfolder.
  - intros line rest' -> Hline.
    unfold translate, extract_export, index. cbn [lookup list_lookup].
    by rewrite Hline.
Qed.

End TranslatorFacts.

(** ** The batch runner *)

Section BatchFacts.
Context `{Host}.
Import PyStr PyStrFacts.

(** One turn of the loop: the script is replayed, its outcome is
    recorded, the progress line is printed, the loop goes on with the
    rest whatever the outcome was. *)
Lemma batch_from_step (verbose : bool) (sa : gmap string string)
      (n i : nat) (file : PosixPath) (rest : list PosixPath)
      (t : Tally) (w : World) :
  batch_from verbose sa n i (file :: rest) t w =
  let r := replay verbose sa file w in
  let short := file_short_name file in
  let t' := record_outcome short (result r) t in
  prepend
    (printed r ++
     [mkPrint (progress_line short i n) nl
              (Some (if FAILURES t' =? 0 then "green" else "red"))])
    (batch_from verbose sa n (S i) rest t' (world_after r)).
Proof.
  cbn [batch_from]. rewrite bind_unfold. cbn [try result world_after printed].
  rewrite bind_unfold. cbn [console_print result world_after printed].
  by rewrite !prepend_prepend.
Qed.

Lemma preprocess_all_dropped (fp : list string) :
  (∀ x, x ∈ fp →
     strip_newlines x = "" ∨ is_reset x = true ∨ ∃ a b, x = a +:+ "#" +:+ b) →
  preprocess fp = [].
Proof.
  induction fp as [|x fp IH]; intros Hall; [done|].
  change (x :: fp) with ([x] ++ fp).
  rewrite preprocess_app, preprocess_one_dropped, IH; [done|..].
  - intros y Hy. apply Hall. by right.
  - destruct (Hall x) as [?|[?|?]]; [by left|auto..].
Qed.

Lemma resolve_nil (routines_args : option (list string))
      (special_arguments : option (gmap string string)) :
  resolve routines_args special_arguments [] = [].
Proof.
  unfold resolve.
  destruct (list_truthy routines_args); [done|].
  by destruct (dict_truthy special_arguments).
Qed.

(** C10: a script every line of which is removed by preprocessing (the
    line is blank, a reset directive, or contains the comment marker)
    makes [run_scripts], in test mode, raise [IndexError] at line 194,
    where it reads the last line of an empty list; the interpreter is
    never called.  In a batch the script is recorded as a failure under
    its short name and the loop goes on with the next script. *)
Theorem empty_script_is_a_failure
        (path : PosixPath) (fp : list string) (verbose output : bool)
        (routines_args : option (list string))
        (special_arguments : option (gmap string string)) (w : World) :
  path_exists w path = true →
  path_open w path = Ok fp →
  (∀ x, x ∈ fp →
     strip_newlines x = "" ∨ is_reset x = true ∨ ∃ a b, x = a +:+ "#" +:+ b) →
  run_scripts path true verbose routines_args special_arguments output w
  = mkRes (Raised IndexError [mkFrame module_file 194 "run_scripts"]) w []
  ∧ ∀ (sa : gmap string string) (n i : nat) (rest : list PosixPath) (t : Tally),
      batch_from verbose sa n i (path :: rest) t w =
      prepend
        [mkPrint (progress_line (file_short_name path) i n) nl (Some "red")]
        (batch_from verbose sa n (S i) rest
           (mkTally (SUCCESSES t) (FAILURES t + 1)
              (dict_set (file_short_name path)
                 (mkFailure IndexError
                    [mkFrame module_file 262 "run_test_files";
                     mkFrame module_file 194 "run_scripts"])
                 (fails t)))
           w).
Proof.
  intros Hexists Hopen Hall.
  assert (∀ ra sa out,
    run_scripts path true verbose ra sa out w
    = mkRes (Raised IndexError [mkFrame module_file 194 "run_scripts"]) w [])
    as Hrun.
  { intros ra sa out. unfold run_scripts.
    rewrite bind_unfold. cbn [gets result world_after printed].
    rewrite Hexists. cbn [negb].
    rewrite bind_unfold. cbn [mret Py_ret ret result world_after printed].
    rewrite !prepend_nil, bind_unfold.
    assert (at_line 167 "run_scripts" (open_lines path) w = mkRes (Ok fp) w [])
      as ->.
    { rewrite (at_line_ok _ _ _ _ fp); unfold open_lines; by rewrite Hopen. }
    cbn [result world_after printed]. rewrite prepend_nil, bind_unfold.
    rewrite (preprocess_all_dropped fp Hall), resolve_nil.
    by rewrite (at_line_raised _ _ _ _ IndexError []). }
  split; [apply Hrun|].
  intros sa n i rest t. rewrite batch_from_step.
  unfold replay, at_line. rewrite Hrun.
  cbn [result world_after printed record_outcome FAILURES app].
  replace (FAILURES t + 1 =? 0) with false
    by (symmetry; apply Nat.eqb_neq; lia).
  done.
Qed.

(** *** Every script is replayed once, in order *)

Lemma batch_from_replay_all (verbose : bool) (sa : gmap string string)
      (n : nat) (files : list PosixPath) :
  ∀ (i : nat) (t : Tally) (w : World),
    result (batch_from verbose sa n i files t w)
    = Ok (record_all files (replay_all verbose sa files w).1 t)
    ∧ world_after (batch_from verbose sa n i files t w)
      = (replay_all verbose sa files w).2.
Proof.
  induction files as [|file rest IH]; intros i t w; [done|].
  rewrite batch_from_step. cbn [replay_all].
  set (r := replay verbose sa file w).
  destruct (replay_all verbose sa rest (world_after r)) as [os w'] eqn:E.
  cbn zeta. cbn [prepend result world_after fst snd].
  set (t' := record_outcome (file_short_name file) (result r) t).
  destruct (IH (S i) t' (world_after r)) as [IH1 IH2].
  rewrite E in IH1, IH2. by rewrite IH1, IH2.
Qed.

Lemma replay_all_length (verbose : bool) (sa : gmap string string)
      (files : list PosixPath) :
  ∀ w, length (replay_all verbose sa files w).1 = length files.
Proof.
  induction files as [|file rest IH]; intros w; [done|].
  cbn [replay_all]. specialize (IH (world_after (replay verbose sa file w))).
  destruct (replay_all verbose sa rest _). simpl in *. by rewrite IH.
Qed.

Lemma count_total {A} (outcomes : list (PyResult A)) :
  count_ok outcomes + count_raised outcomes = length outcomes.
Proof.
  unfold count_ok, count_raised.
  induction outcomes as [|[a|e tb] os IH]; simpl in *; lia.
Qed.

Lemma record_all_counts (files : list PosixPath) (outcomes : list (PyResult unit)) :
  ∀ t, length files = length outcomes →
    SUCCESSES (record_all files outcomes t) = SUCCESSES t + count_ok outcomes
    ∧ FAILURES (record_all files outcomes t) = FAILURES t + count_raised outcomes.
Proof.
  revert outcomes. unfold record_all, count_ok, count_raised.
  induction files as [|f files IH]; intros [|o os] t Hlen; simplify_eq/=.
  - lia.
  - destruct (IH os (record_outcome (file_short_name f) o t)) as [-> ->]; [done|].
    destruct o; simpl; lia.
Qed.

Lemma dict_keys_set {V} (k k' : string) (v : V) (d : Dict V) :
  k' ∈ dict_keys (dict_set k v d) ↔ k' = k ∨ k' ∈ dict_keys d.
Proof.
  unfold dict_keys. induction d as [|[k0 v0] d IH]; simpl.
  - rewrite list_elem_of_singleton, elem_of_nil. tauto.
  - destruct (String.eqb_spec k0 k) as [->|Hne]; simpl.
    + rewrite !elem_of_cons. tauto.
    + rewrite !elem_of_cons, IH. tauto.
Qed.

Lemma record_all_keys (files : list PosixPath) (outcomes : list (PyResult unit)) :
  ∀ t k,
    k ∈ dict_keys (fails (record_all files outcomes t)) ↔
    k ∈ dict_keys (fails t)
    ∨ ∃ i file e tb, files !! i = Some file
                     ∧ outcomes !! i = Some (Raised e tb)
                     ∧ file_short_name file = k.
Proof.
  revert outcomes. unfold record_all.
  induction files as [|f files IH]; intros [|o os] t k; simpl.
  - split; [tauto|]. intros [?|(i & ? & ? & ? & ? & _)]; [done|]. by destruct i.
  - split; [tauto|]. intros [?|(i & ? & ? & ? & ? & _)]; [done|]. by destruct i.
  - split; [tauto|]. intros [?|(i & ? & ? & ? & _ & ? & _)]; [done|]. by destruct i.
  - rewrite IH. split.
    + intros [Hk|(i & file & e & tb & Hf & Ho & Hs)].
      * destruct o as [[]|e tb]; simpl in Hk; [by left|].
        apply dict_keys_set in Hk as [->|Hk]; [|by left].
        right. by exists 0, f, e, tb.
      * right. by exists (S i), file, e, tb.
    + intros [Hk|(i & file & e & tb & Hf & Ho & Hs)].
      * left. destruct o as [[]|e tb]; simpl; [done|].
        apply dict_keys_set. by right.
      * destruct i as [|i]; simplify_eq/=.
        -- left. apply dict_keys_set. by left.
        -- right. by exists i, file, e, tb.
Qed.

(** C1: whatever the scripts and whatever their outcomes,
    [run_test_files] replays every script of the list once and in order
    (its final world is the one [replay_all] reaches, and there is one
    outcome per script); a replay that raises is counted as a failure
    and recorded under the short name of its script, a replay that
    returns is counted as a success, and the counts add up to the number
    of scripts: no outcome stops the loop.  For three scripts of which
    only the second raises, the result is 2 successes, 1 failure and a
    [fails] dictionary whose single key is the short name of the second
    script. *)
Theorem failure_isolation (test_files : list PosixPath) (verbose : bool)
        (sa : gmap string string) (w : World) :
  let outcomes := (replay_all verbose sa test_files (set_debug_mode w)).1 in
  let w' := (replay_all verbose sa test_files (set_debug_mode w)).2 in
  ∃ fails_ : Dict Failure,
    result (run_test_files test_files verbose sa w)
    = Ok (count_ok outcomes, count_raised outcomes, fails_,
          float_sub (time_time w') (time_time w))
    ∧ world_after (run_test_files test_files verbose sa w) = w'
    ∧ length outcomes = length test_files
    ∧ count_ok outcomes + count_raised outcomes = length test_files
    ∧ (∀ k, k ∈ dict_keys fails_ ↔
            ∃ i file e tb, test_files !! i = Some file
                           ∧ outcomes !! i = Some (Raised e tb)
                           ∧ file_short_name file = k)
    ∧ (∀ f1 f2 f3 e tb,
         test_files = [f1; f2; f3] →
         outcomes = [Ok tt; Raised e tb; Ok tt] →
         count_ok outcomes = 2 ∧ count_raised outcomes = 1
         ∧ fails_ = [(file_short_name f2, mkFailure e tb)]).
Proof.
  intros outcomes w'.
  pose proof (replay_all_length verbose sa test_files (set_debug_mode w)) as Hlen.
  fold outcomes in Hlen.
  destruct (batch_from_replay_all verbose sa (length test_files) test_files
              0 (mkTally 0 0 []) (set_debug_mode w)) as [Hres Hw].
  fold outcomes in Hres. fold w' in Hw.
  destruct (record_all_counts test_files outcomes (mkTally 0 0 []))
    as [Hs Hf]; [done|]. simpl in Hs, Hf.
  exists (fails (record_all test_files outcomes (mkTally 0 0 []))).
  split; [|split; [|split; [done|split; [|split]]]].
  - unfold run_test_files.
    rewrite bind_unfold. cbn [gets result world_after printed].
    rewrite prepend_nil, bind_unfold. cbn [act result world_after printed].
    rewrite prepend_nil, bind_unfold, Hres, Hw.
    rewrite bind_unfold. cbn [gets result world_after printed prepend].
    by rewrite Hs, Hf.
  - unfold run_test_files.
    rewrite bind_unfold. cbn [gets result world_after printed].
    rewrite prepend_nil, bind_unfold. cbn [act result world_after printed].
    rewrite prepend_nil, bind_unfold, Hres, Hw.
    by rewrite bind_unfold.
  - rewrite count_total. done.
  - intros k. rewrite record_all_keys. simpl. rewrite elem_of_nil. tauto.
  - intros f1 f2 f3 e tb Hfiles Hout. rewrite Hfiles, Hout. done.
Qed.

(** *** The short name *)

(** C8 (amended): for a script whose path string is that of the
    miscellaneous directory followed by [/scripts/r], where the
    miscellaneous-directory string does not occur in [/scripts/r]
    (every occurrence is removed, not only the prefix), the short name,
    which is the key of the failure record and the head of the progress
    line, is [scripts/r]: the path relative to the miscellaneous
    directory, the parent of the scripts root, and not [r], the path
    relative to the scripts root. *)
Theorem short_name_keeps_scripts_component (file : PosixPath) (r : string) :
  Pathlib.str file
  = Pathlib.str MISCELLANEOUS_DIRECTORY +:+ "/scripts/" +:+ r →
  contains (Pathlib.str MISCELLANEOUS_DIRECTORY) ("/scripts/" +:+ r) = false →
  file_short_name file = "scripts/" +:+ r
  ∧ ∀ verbose sa n i rest t w,
      batch_from verbose sa n i (file :: rest) t w =
      let rp := replay verbose sa file w in
      let t' := record_outcome ("scripts/" +:+ r) (result rp) t in
      prepend
        (printed rp ++
         [mkPrint (progress_line ("scripts/" +:+ r) i n) nl
                  (Some (if FAILURES t' =? 0 then "green" else "red"))])
        (batch_from verbose sa n (S i) rest t' (world_after rp)).
Proof.
  intros Hstr Habsent.
  assert (file_short_name file = "scripts/" +:+ r) as Hshort.
  { unfold file_short_name. rewrite Hstr.
    destruct (Pathlib.str MISCELLANEOUS_DIRECTORY) as [|c m] eqn:Hm.
    { by rewrite (proj2 (contains_spec "" _)) in Habsent by (by exists "", ("/scripts/" +:+ r)). }
    unfold replace.
    rewrite (replace_from_match (String c m) "" ("/scripts/" +:+ r)) by done.
    by rewrite replace_from_absent. }
  split; [done|].
  intros. by rewrite batch_from_step, Hshort.
Qed.

End BatchFacts.

(** ** The harness on concrete scripts *)

Lemma comment_lines_stripped_witness :
  @preprocess Mem.demo
     ([Mem.line "stocks"] ++ Mem.line "load GME # note" :: [Mem.line "exit"])
  = ["stocks"; "exit"]
  ∧ @preprocess Mem.demo
      ([Mem.line "stocks"] ++ Mem.line "load GME" :: [Mem.line "exit"])
    = ["stocks"; "load GME"; "exit"].
Proof.
  split.
  - rewrite (proj1 (@comment_lines_stripped Mem.demo _ _ _)); [reflexivity|].
    left. exists "load GME ", (" note" +:+ nl). reflexivity.
  - rewrite (proj2 (@comment_lines_stripped Mem.demo _ _ _)); [reflexivity|..].
    + intros a b Hab.
      assert (PyStr.contains "#" (Mem.line "load GME") = true) as Hc
        by (apply PyStrFacts.contains_spec; eauto).
      vm_compute in Hc. discriminate.
    + reflexivity.
    + vm_compute. discriminate.
Defined.

(** The script line [load GME # note] does not begin with the comment
    marker, is neither blank nor a reset directive, and is dropped. *)
Lemma comment_marker_inside_dropped :
  PyStr.startswith "#" (Mem.line "load GME # note") = false
  ∧ TerminalHelper.is_reset (Mem.line "load GME # note") = false
  ∧ PyStr.strip_newlines (Mem.line "load GME # note") = "load GME # note"
  ∧ @preprocess Mem.demo [Mem.line "stocks"; Mem.line "load GME # note"]
    = ["stocks"].
Proof. repeat split. Qed.

Lemma exit_appended_once_witness :
  (append_exit true ["stocks"; "load GME"] = Ok (["stocks"; "load GME"] ++ ["exit"])
     ↔ PyStr.contains "exit" "load GME" = false)
  ∧ (append_exit true ["stocks"; "load GME"] = Ok ["stocks"; "load GME"]
     ↔ PyStr.contains "exit" "load GME" = true)
  ∧ (∃ lines', append_exit true ["stocks"; "load GME"] = Ok lines'
               ∧ append_exit true lines' = Ok lines')
  ∧ append_exit false ["stocks"; "load GME"] = Ok ["stocks"; "load GME"].
Proof. apply (exit_appended_once ["stocks"; "load GME"] "load GME"). reflexivity. Defined.

(** The last line [news -q brexit] is a [news] command with two
    arguments, not an exit directive, and no line of the script is one.
    The line holds the text [exit], so nothing is appended in test mode,
    and the command string handed to the interpreter ends with the
    [news] command. *)
Lemma exit_not_appended_after_brexit :
  PyStr.split_ws "news -q brexit" = ["news"; "-q"; "brexit"]
  ∧ ("exit" ∉ ["stocks"; "news -q brexit"])
  ∧ PyStr.contains "exit" "news -q brexit" = true
  ∧ append_exit true ["stocks"; "news -q brexit"] = Ok ["stocks"; "news -q brexit"]
  ∧ append_exit true ["stocks"; "news -q brexit"]
    ≠ Ok (["stocks"; "news -q brexit"] ++ ["exit"])
  ∧ @translate Mem.demo ["stocks"; "news -q brexit"]
    = Ok ["/stocks/news -q brexit"].
Proof.
  repeat split; try discriminate.
  intros Hin. repeat (apply elem_of_cons in Hin as [Hin|Hin]; [discriminate|]).
  by apply elem_of_nil in Hin.
Qed.

Lemma empty_script_is_a_failure_witness :
  @run_scripts Mem.demo (Pathlib.Path (Mem.scripts +:+ "/beta.openbb"))
     true false None None true []
  = mkRes (Raised IndexError
             [mkFrame "/repo/openbb_terminal/integration_testing.py" 194 "run_scripts"])
          [] [].
Proof.
  apply (@empty_script_is_a_failure Mem.demo
           (Pathlib.Path (Mem.scripts +:+ "/beta.openbb"))
           [Mem.line "# only a comment"; nl] false true None None []).
  - reflexivity.
  - reflexivity.
  - intros x Hx. apply elem_of_cons in Hx as [->|Hx].
    + right. right. exists "", (" only a comment" +:+ nl). reflexivity.
    + apply list_elem_of_singleton in Hx as ->. left. reflexivity.
Defined.

Lemma failure_isolation_witness :
  ∃ fails_,
    result (@run_test_files Mem.demo
              [Pathlib.Path (Mem.scripts +:+ "/alpha.openbb");
               Pathlib.Path (Mem.scripts +:+ "/beta.openbb");
               Pathlib.Path (Mem.scripts +:+ "/stocks/gamma.openbb")]
              false ∅ [])
    = Ok (2, 1, fails_, 2)
    ∧ dict_keys fails_ = ["scripts/beta.openbb"]
    ∧ world_after (@run_test_files Mem.demo
                     [Pathlib.Path (Mem.scripts +:+ "/alpha.openbb");
                      Pathlib.Path (Mem.scripts +:+ "/beta.openbb");
                      Pathlib.Path (Mem.scripts +:+ "/stocks/gamma.openbb")]
                     false ∅ [])
      = [["/stocks/load ${ticker=GME}/exit"];
         ["export reports//stocks/load $ARGV[0]/exit"]].
Proof.
  destruct (@failure_isolation Mem.demo
              [Pathlib.Path (Mem.scripts +:+ "/alpha.openbb");
               Pathlib.Path (Mem.scripts +:+ "/beta.openbb");
               Pathlib.Path (Mem.scripts +:+ "/stocks/gamma.openbb")]
              false ∅ []) as (fails_ & Hres & Hworld & _ & _ & _ & Hthree).
  exists fails_. split; [|split].
  - exact Hres.
  - destruct (Hthree _ _ _ IndexError
                [mkFrame "/repo/openbb_terminal/integration_testing.py" 262 "run_test_files";
                 mkFrame "/repo/openbb_terminal/integration_testing.py" 194 "run_scripts"]
                eq_refl eq_refl) as (_ & _ & ->).
    reflexivity.
  - exact Hworld.
Defined.

Lemma short_name_keeps_scripts_component_witness :
  @file_short_name Mem.demo (Pathlib.Path (Mem.scripts +:+ "/stocks/gamma.openbb"))
  = "scripts/" +:+ "stocks/gamma.openbb".
Proof.
  apply (@short_name_keeps_scripts_component Mem.demo
           (Pathlib.Path (Mem.scripts +:+ "/stocks/gamma.openbb"))
           "stocks/gamma.openbb"); reflexivity.
Defined.

(** The script [alpha.openbb] lies directly under the scripts root, so its
    path relative to that root is [alpha.openbb]; its short name is
    [scripts/alpha.openbb]. *)
Lemma short_name_not_relative_to_scripts_root :
  let scripts_root :=
    Pathlib.joinpath (@MISCELLANEOUS_DIRECTORY Mem.demo) "scripts" in
  let file := Pathlib.joinpath scripts_root "alpha.openbb" in
  Pathlib.str file = Pathlib.str scripts_root +:+ "/" +:+ "alpha.openbb"
  ∧ @file_short_name Mem.demo file = "scripts/alpha.openbb"
  ∧ @file_short_name Mem.demo file ≠ "alpha.openbb".
Proof. repeat split. discriminate. Qed.

Lemma export_line_prefixes_invocation_witness :
  @translate Mem.demo
     (("export " +:+ "reports/") :: ["stocks"; "load GME"; "exit"])
  = Ok ["export reports//stocks/load GME/exit"]
  ∧ @translate Mem.demo ["stocks"; "load GME"; "exit"]
    = Ok ["/stocks/load GME/exit"].
Proof.
  destruct (@export_line_prefixes_invocation Mem.demo "reports/"
              ["stocks"; "load GME"; "exit"]) as [Hexport Hrest];
    [reflexivity|discriminate|].
  split.
  - rewrite Hexport. reflexivity.
  - rewrite (Hrest "stocks" ["load GME"; "exit"] eq_refl eq_refl). reflexivity.
Defined.

Lemma positional_substitution_witness :
  resolve (Some ["AAPL"; "10"]) None
     (render_argv <$> [[Literal "BUY "; Argv 0; Literal " "; Argv 1];
                       [Literal "sell "; Argv 2]])
  = ["BUY AAPL 10"; "sell $ARGV[2]"].
Proof.
  rewrite (ArgvFacts.positional_substitution ["AAPL"; "10"] None).
  - reflexivity.
  - discriminate.
  - intros a Ha. apply elem_of_cons in Ha as [->|Ha]; [reflexivity|].
    apply list_elem_of_singleton in Ha as ->. reflexivity.
  - intros segs Hsegs s Hs.
    apply elem_of_cons in Hsegs as [->|Hsegs].
    + repeat (apply elem_of_cons in Hs as [Hs|Hs]; [by simplify_eq|]).
      by apply elem_of_nil in Hs.
    + apply list_elem_of_singleton in Hsegs as ->.
      repeat (apply elem_of_cons in Hs as [Hs|Hs]; [by simplify_eq|]).
      by apply elem_of_nil in Hs.
Defined.

(** With the arguments [$ARGV[1]] and [now], the one token of the line
    [buy $ARGV[0]] is not replaced by argument 0: the second pass rewrites
    what the first one put in. *)
Lemma positional_substitution_rescans :
  render_argv [Literal "buy "; Argv 0] = "buy $ARGV[0]"
  ∧ resolve (Some ["$ARGV[1]"; "now"]) None ["buy $ARGV[0]"] = ["buy now"]
  ∧ resolve (Some ["$ARGV[1]"; "now"]) None ["buy $ARGV[0]"]
    ≠ ["buy $ARGV[1]"].
Proof. repeat split. discriminate. Qed.



Lemma discovery_repeats_a_path_witness :
  result (@build_test_path_list Mem.at_root remove_dups ["//"; "/a.openbb"] [])
  = Ok [["/"; "a.openbb"]; ["/"; "a.openbb"]].
Proof.
  apply (discovery_repeats_a_path remove_dups).
  intros l. split; [apply NoDup_remove_dups|apply elem_of_remove_dups].
Defined.

(** * Further properties of the module *)

(** ** Titles and progress lines *)

Module LayoutFacts.
Import PyStr PyStrFacts.

Lemma len_repeat (s : string) (n : nat) : len (repeat s n) = n * len s.
Proof.
  induction n as [|n IH]; [done|]. cbn [repeat]. rewrite len_app, IH. lia.
Qed.

Lemma repeat_add (s : string) (a b : nat) :
  repeat s (a + b) = repeat s a +:+ repeat s b.
Proof.
  induction a as [|a IH]; [done|]. cbn [repeat Nat.add].
  by rewrite IH, app_assoc.
Qed.

Lemma to_title_unfold (title char : string) :
  let padded := " " +:+ title +:+ " " in
  let n := Z.to_nat (Z.quot (Z.of_nat LENGTH - Z.of_nat (len padded)
                             + Z.of_nat (len_styles padded)) 2) in
  let formatted := repeat char n +:+ padded +:+ repeat char n in
  to_title title char
  = formatted +:+
    repeat char (Z.to_nat (Z.of_nat LENGTH - Z.of_nat (len formatted)
                           + Z.of_nat (len_styles padded))).
Proof. reflexivity. Qed.

End LayoutFacts.

(** X1: a title is centred in a line of [LENGTH] columns, not counting
    the style tags it holds.  With a one-character filler, [to_title]
    puts [l] fillers before the padded title and [r] after it, where
    [r] is [l] or [l + 1]; the line is [LENGTH] characters long plus the
    length of the style tags found, unless the padded title alone is
    longer, in which case it is returned as it is, neither filled nor
    cut. *)
Theorem to_title_width (title char : string) :
  PyStr.len char = 1 →
  let padded := " " +:+ title +:+ " " in
  ∃ l r : nat,
    to_title title char = PyStr.repeat char l +:+ padded +:+ PyStr.repeat char r
    ∧ l ≤ r ≤ l + 1
    ∧ PyStr.len (to_title title char)
      = max (LENGTH + len_styles padded) (PyStr.len padded)
    ∧ (LENGTH + len_styles padded ≤ PyStr.len padded →
       to_title title char = padded).
Proof.
  intros Hchar padded.
  pose proof (LayoutFacts.to_title_unfold title char) as Hunfold.
  cbv zeta in Hunfold. fold padded in Hunfold.
  set (ls := len_styles padded) in *.
  set (d := (Z.of_nat LENGTH - Z.of_nat (PyStr.len padded) + Z.of_nat ls)%Z) in *.
  set (n := Z.to_nat (Z.quot d 2)) in *.
  rewrite !PyStrFacts.len_app, !LayoutFacts.len_repeat, Hchar in Hunfold.
  set (k := Z.to_nat (Z.of_nat LENGTH
                      - Z.of_nat (n * 1 + (PyStr.len padded + n * 1))
                      + Z.of_nat ls)) in *.
  assert (k ≤ 1 ∧ n + k + n + PyStr.len padded
                  = max (LENGTH + ls) (PyStr.len padded)
          ∧ (LENGTH + ls ≤ PyStr.len padded → n = 0 ∧ k = 0)) as (Hk & Hlen & Hlong).
  { destruct (Z.le_gt_cases 0 d) as [Hd|Hd].
    - assert (Z.quot d 2 = (d / 2)%Z) as Hq by (apply Z.quot_div_nonneg; lia).
      pose proof (Z.mul_div_le d 2 eq_refl).
      pose proof (Z.mul_succ_div_gt d 2 eq_refl).
      unfold k, n. rewrite Hq. unfold d in *. lia.
    - pose proof (Z.mul_quot_ge d 2) as Hq.
      unfold k, n, d in *. lia. }
  exists n, (n + k). split; [|split; [lia|split]].
  - rewrite Hunfold, LayoutFacts.repeat_add.
    by rewrite !PyStrFacts.app_assoc.
  - rewrite Hunfold.
    rewrite !PyStrFacts.len_app, !LayoutFacts.len_repeat, Hchar. lia.
  - intros Hle. destruct (Hlong Hle) as [Hn Hk0].
    rewrite Hunfold, Hn, Hk0. cbn [PyStr.repeat String.append].
    by rewrite !PyStrFacts.app_nil_r.
Qed.

Lemma to_title_width_witness :
  to_title "FAILURES" "="
  = PyStr.repeat "=" 40 +:+ " FAILURES " +:+ PyStr.repeat "=" 40
  ∧ PyStr.len (to_title "[bold red]scripts/a.openbb[/bold red]" "-") = 90 + 21.
Proof.
  destruct (to_title_width "FAILURES" "=" eq_refl) as (l & r & Heq & _ & Hlen & _).
  destruct (to_title_width "[bold red]scripts/a.openbb[/bold red]" "-" eq_refl)
    as (_ & _ & _ & _ & Hlen' & _).
  split; [reflexivity|exact Hlen'].
Defined.

Section ProgressFacts.
Context `{Host}.
Import PyStr PyStrFacts.

(** X2: the progress line of a script is exactly [LENGTH] columns wide
    whenever the short name and the bracketed percentage fit; the
    percentage is right-aligned in a field of at least four columns.  A
    longer short name is never cut: the line then is the name directly
    followed by the bracket. *)
Theorem progress_line_width (short : string) (i n_files : nat) :
  let bracket := max 4 (len (format_percent (i + 1) n_files)) + 2 in
  len (progress_line short i n_files) = max LENGTH (len short + bracket)
  ∧ endswith (format_percent (i + 1) n_files +:+ "]") (progress_line short i n_files)
    = true
  ∧ startswith short (progress_line short i n_files) = true.
Proof.
  intros bracket. unfold progress_line.
  set (pct := format_percent (i + 1) n_files). fold pct in bracket.
  split; [|split].
  - unfold repeatZ.
    rewrite !len_app, !LayoutFacts.len_repeat.
    change (len " ") with 1. change (len "[") with 1. change (len "]") with 1.
    unfold bracket, LENGTH. lia.
  - do 4 apply PathlibFacts.endswith_app.
    apply PathlibFacts.endswith_spec. by exists "".
  - apply startswith_app.
Qed.

End ProgressFacts.

(** ** The reporters never raise *)

Module SplitFacts.
Import PyStr PyStrFacts.

Lemma contains_trans (a b c : string) :
  contains a b = true → contains b c = true → contains a c = true.
Proof.
  rewrite !contains_spec. intros (x & y & ->) (u & v & ->).
  exists (u +:+ x), (y +:+ v). by rewrite !app_assoc.
Qed.

Lemma cons_head_length (c : ascii) (pieces : list string) :
  pieces ≠ [] → length (cons_head c pieces) = length pieces.
Proof. by destruct pieces. Qed.

Lemma split_from_nonempty (sep : string) (s : string) :
  ∀ skip, split_from sep skip s ≠ [].
Proof.
  induction s as [|c s IH]; intros skip; [done|]. cbn [split_from].
  destruct skip as [|k]; [|apply IH].
  destruct (startswith sep (String c s)); [done|].
  specialize (IH 0). by destruct (split_from sep 0 s).
Qed.

(** A string that holds the separator splits into two pieces at
    least. *)
Lemma split_contains_length (sep s : string) :
  sep ≠ "" → contains sep s = true → 2 ≤ length (split sep s).
Proof.
  intros Hsep. unfold split. induction s as [|c s IH]; cbn [contains split_from].
  - destruct sep; [done|]. done.
  - destruct (startswith sep (String c s)) eqn:Hp.
    + intros _. pose proof (split_from_nonempty sep s (len sep - 1)) as Hne.
      destruct (split_from sep (len sep - 1) s); [done|]. simpl. lia.
    + simpl. intros Hc. rewrite cons_head_length by apply split_from_nonempty.
      by apply IH.
Qed.

(** The text before the first separator character is the first piece. *)
Lemma split_char_first (c : ascii) (a b : string) :
  contains (String c "") a = false →
  split (String c "") (a +:+ String c b) = a :: split (String c "") b.
Proof.
  unfold split. induction a as [|x a IH].
  - intros _. exact (split_match (String c "") b ltac:(done)).
  - rewrite contains_char_cons. intros [Hx Ha]%orb_false_iff.
    change (String x a +:+ ?r) with (String x (a +:+ r)).
    cbn [split_from]. rewrite startswith_cons, startswith_nil, andb_true_r, Hx.
    by rewrite IH.
Qed.

End SplitFacts.

Section SummaryFacts.
Context `{Host}.
Import PyStr PyStrFacts.

Lemma find_none_all {A} (f : A → bool) (l : list A) :
  (∀ x, x ∈ l → f x = false) → List.find f l = None.
Proof.
  induction l as [|a l IH]; [done|]. intros Hall. cbn [List.find].
  rewrite (Hall a) by (by left). apply IH. intros x Hx. apply Hall. by right.
Qed.

Lemma elem_of_rev_1 {A} (l : list A) (x : A) : x ∈ rev l → x ∈ l.
Proof. rewrite !list_elem_of_In. apply List.in_rev. Qed.

Lemma find_first {A} (f : A → bool) (before after : list A) (x : A) :
  f x = true → (∀ y, y ∈ before → f y = false) →
  List.find f (before ++ x :: after) = Some x.
Proof.
  intros Hx. induction before as [|y l IH]; intros Hbefore; cbn [app List.find].
  - by rewrite Hx.
  - rewrite (Hbefore y) by (by left). apply IH. intros ??. apply Hbefore. by right.
Qed.

Lemma find_rev_innermost {A} (f : A → bool) (outer inner : list A) (x : A) :
  f x = true → (∀ y, y ∈ inner → f y = false) →
  List.find f (rev (outer ++ x :: inner)) = Some x.
Proof.
  intros Hx Hinner. rewrite rev_app_distr. cbn [rev].
  rewrite <- List.app_assoc. apply find_first; [done|].
  intros y Hy%elem_of_rev_1. by apply Hinner.
Qed.

Lemma broken_cmd_ok (tb : list FrameSummary) : ∃ cmd, broken_cmd tb = Ok cmd.
Proof.
  unfold broken_cmd. destruct (List.find _ _) as [frame|] eqn:Hfind; [|eauto].
  apply List.find_some in Hfind as [_ Hframe].
  apply andb_true_iff in Hframe as [_ Hname].
  assert (contains "_" (name frame) = true) as Hu.
  { by apply (SplitFacts.contains_trans "_" "call_"). }
  apply SplitFacts.split_contains_length in Hu; [|done].
  unfold index. destruct (split "_" (name frame)) as [|a [|b l]]; simpl in *;
    [lia..|eauto].
Qed.

(** X3: the command a failure is blamed on.  [broken_cmd] never raises:
    a frame name that holds [call_] holds an underscore, so its split
    has a second piece.  It answers [unknown] when no frame of the
    traceback is a dispatch frame (a method whose name holds [call_], in
    a file whose name holds [_controller.py]); otherwise it reads the
    innermost dispatch frame, and for a method [call_<cmd>] it answers
    [<cmd>] up to the next underscore. *)
Theorem broken_cmd_total (tb : list FrameSummary) :
  (∃ cmd, broken_cmd tb = Ok cmd)
  ∧ ((∀ frame, frame ∈ tb → is_dispatch_frame frame = false) →
     broken_cmd tb = Ok "unknown")
  ∧ (∀ outer frame inner cmd,
       tb = outer ++ frame :: inner →
       contains "_controller.py" (filename frame) = true →
       (∀ f, f ∈ inner → is_dispatch_frame f = false) →
       contains "_" cmd = false →
       (name frame = "call_" +:+ cmd → broken_cmd tb = Ok cmd)
       ∧ (∀ rest, name frame = "call_" +:+ cmd +:+ "_" +:+ rest →
                  broken_cmd tb = Ok cmd)).
Proof.
  split; [apply broken_cmd_ok|split].
  - intros Hnone. unfold broken_cmd. rewrite find_none_all; [done|].
    intros x Hx%elem_of_rev_1. by apply Hnone.
  - intros outer frame inner cmd -> Hfile Hinner Hcmd.
    assert (∀ rest, contains "call_" ("call_" +:+ rest) = true) as Hcall.
    { intros rest. apply contains_spec. by exists "", rest. }
    assert (∀ tail, name frame = "call_" +:+ tail →
              broken_cmd (outer ++ frame :: inner)
              = index (split "_" ("call_" +:+ tail)) 1) as Hpick.
    { intros tail Hname. unfold broken_cmd.
      rewrite (find_rev_innermost _ outer inner frame); [by rewrite Hname|..].
      - unfold is_dispatch_frame. by rewrite Hfile, Hname, Hcall.
      - done. }
    assert (∀ tail, split "_" ("call_" +:+ tail) = "call" :: split "_" tail)
      as Hsplit.
    { intros tail. exact (SplitFacts.split_char_first "_" "call" tail eq_refl). }
    split.
    + intros Hname. rewrite (Hpick _ Hname), Hsplit.
      by rewrite split_absent.
    + intros rest Hname. rewrite (Hpick _ Hname), Hsplit.
      change ("_" +:+ rest) with (String "_" rest).
      by rewrite SplitFacts.split_char_first.
Qed.

Lemma prints_ok_ret {A} (a : A) : prints_ok (mret a).
Proof. by exists a, []. Qed.

Lemma prints_ok_console_print (text end_ : string) (style : option string) :
  prints_ok (console_print text end_ style).
Proof. by exists tt, [mkPrint text end_ style]. Qed.

Lemma prints_ok_at_line {A} (n : nat) (fn : string) (m : Py A) :
  prints_ok m → prints_ok (at_line n fn m).
Proof.
  intros (a & out & Hm). exists a, out. intros w.
  by rewrite (at_line_ok _ _ _ _ a); rewrite Hm.
Qed.

Lemma prints_ok_bind {A B} (m : Py A) (k : A → Py B) :
  prints_ok m → (∀ a, prints_ok (k a)) → prints_ok (m ≫= k).
Proof.
  intros (a & out & Hm) Hk. destruct (Hk a) as (b & out' & Hka).
  exists b, (out ++ out'). intros w.
  rewrite bind_unfold, Hm. cbn [result world_after printed]. by rewrite Hka.
Qed.

Lemma prints_ok_print_traceback (formatted_tb : list string) :
  ∀ style, prints_ok (print_traceback style formatted_tb).
Proof.
  induction formatted_tb as [|line rest IH]; intros style; cbn [print_traceback].
  - apply prints_ok_ret.
  - apply prints_ok_bind; [apply prints_ok_console_print|]. intros _. apply IH.
Qed.

Lemma prints_ok_for_items {V} (d : Dict V) (body : string → V → Py unit) :
  (∀ k v, prints_ok (body k v)) → prints_ok (for_items d body).
Proof.
  intros Hbody. induction d as [|[k v] d IH]; cbn [for_items].
  - apply prints_ok_ret.
  - apply prints_ok_bind; [apply Hbody|]. by intros _.
Qed.

Lemma prints_ok_display_failures (fails : Dict Failure) :
  prints_ok (display_failures fails).
Proof.
  unfold display_failures. destruct fails as [|kv fails]; [apply prints_ok_ret|].
  apply prints_ok_bind; [apply prints_ok_console_print|]. intros _.
  apply prints_ok_for_items. intros k v. unfold display_failure.
  repeat (apply prints_ok_bind;
          [first [apply prints_ok_console_print
                 |apply prints_ok_print_traceback]|intros _]).
  apply prints_ok_console_print.
Qed.

Lemma prints_ok_broken_cmd (tb : list FrameSummary) :
  prints_ok (lift (broken_cmd tb)).
Proof. destruct (broken_cmd_ok tb) as [cmd Hcmd]. exists cmd, []. by rewrite Hcmd. Qed.

Lemma prints_ok_display_summary (fails : Dict Failure)
      (n_successes n_failures : Z) (seconds : float) :
  prints_ok (display_summary fails n_successes n_failures seconds).
Proof.
  unfold display_summary.
  apply prints_ok_bind; [|intros _; apply prints_ok_console_print].
  destruct fails as [|kv fails]; [apply prints_ok_ret|].
  apply prints_ok_bind; [apply prints_ok_console_print|]. intros _.
  apply prints_ok_for_items. intros k v. unfold summary_line.
  apply prints_ok_bind; [|intros cmd; apply prints_ok_console_print].
  apply prints_ok_at_line, prints_ok_broken_cmd.
Qed.




End SummaryFacts.

(** ** The styles of a printed traceback *)

Section TracebackFacts.
Context `{Host}.
Import PyStr PyStrFacts.




End TracebackFacts.


(** ** The command line *)

Module MainFacts.
Import PyStr PyStrFacts.

Lemma contains_dash (c : ascii) (s : string) :
  contains "-" (String c "") = startswith "-" (String c s).
Proof.
  rewrite contains_char_cons, startswith_cons, startswith_nil.
  cbn [contains startswith String.prefix]. by rewrite orb_false_r, andb_true_r.
Qed.

End MainFacts.

(** X6: what the module does to the command line before parsing it.
    With a first argument that does not begin with a dash, [-p] is put
    in front of it and nothing else changes, so that a bare fragment is
    read as the path option; a first argument that begins with a dash,
    or no argument at all, leaves the command line as it is.  After the
    step the first argument, if any, begins with a dash, and running
    the step again changes nothing.  A first argument that is the empty
    string makes the step raise [IndexError], and nothing else does. *)
Theorem main_argv_inserts_path_option (argv : list string) :
  (main_argv argv = Raised StringIndexError [] ↔ argv !! 1 = Some "")
  ∧ (∀ e tb, main_argv argv = Raised e tb → e = StringIndexError ∧ tb = [])
  ∧ (∀ argv', main_argv argv = Ok argv' →
       (∀ first, argv' !! 1 = Some first → PyStr.startswith "-" first = true)
       ∧ main_argv argv' = Ok argv'
       ∧ match argv with
         | prog :: first :: rest =>
             if PyStr.startswith "-" first then argv' = argv
             else argv' = prog :: "-p" :: first :: rest
         | _ => argv' = argv
         end).
Proof.
  unfold main_argv, index.
  destruct argv as [|prog [|first rest]]; cbn [length Nat.ltb Nat.leb lookup list_lookup].
  - split; [done|]. split; [done|]. intros argv' [= <-]. done.
  - split; [done|]. split; [done|]. intros argv' [= <-]. done.
  - destruct first as [|c first].
    + split; [done|]. split; [|done]. by intros e tb [= <- <-].
    + rewrite (MainFacts.contains_dash c first).
      destruct (PyStr.startswith "-" (String c first)) eqn:Hdash; cbn [negb].
      * split; [split; [done|by intros [=]]|]. split; [done|].
        intros argv' [= <-]. cbn [length Nat.ltb Nat.leb lookup list_lookup].
        rewrite (MainFacts.contains_dash c first), Hdash. cbn [negb].
        split; [|done]. by intros ? [= <-].
      * split; [split; [done|by intros [=]]|]. split; [done|].
        intros argv' [= <-]. cbn [take drop app length Nat.ltb Nat.leb lookup list_lookup].
        split; [|done]. by intros ? [= <-].
Qed.

(** ** The options handed to the session *)

Section OptionFacts.
Context `{Host}.
Import PyStr PyStrFacts.

Lemma special_args_dict_run (ns : Argparse.Namespace) :
  dict_comprehension ns special_arguments_values ∅
  = Ok (<["currency_vs" := Argparse.currency_vs ns]>
        (<["crypto_full" := Argparse.crypto_full ns]>
         (<["crypto_vs" := Argparse.crypto_vs ns]>
          (<["repo" := Argparse.repo ns]>
           (<["country" := Argparse.country ns]>
            (<["crypto" := Argparse.crypto ns]>
             (<["currency" := Argparse.currency ns]>
              (<["ticker" := Argparse.ticker ns]> ∅)))))))).
Proof. reflexivity. Qed.

(** X7: the dictionary [parse_args_and_run] builds from the parsed
    options.  Building it never raises; it holds exactly the eight
    names of [special_arguments_values], each with the value of its
    option, the empty string for an option that was not given.  It is
    therefore never empty: in a session started from the command line
    [run_scripts] always takes the placeholder branch of line 181,
    never the branch that leaves the lines as they are. *)
Theorem special_args_dict_has_every_option (ns : Argparse.Namespace) :
  ∃ special_args_dict : gmap string string,
    dict_comprehension ns special_arguments_values ∅ = Ok special_args_dict
    ∧ (∀ x v, special_args_dict !! x = Some v
              ↔ x ∈ special_arguments_values ∧ Argparse.getattr ns x = Ok v)
    ∧ size special_args_dict = 8
    ∧ (∀ raw_lines,
         resolve None (Some special_args_dict) raw_lines
         = substitute_dynamic special_args_dict <$> raw_lines)
    ∧ ∀ set_iter w,
        parse_args_and_run set_iter ns w
        = at_line 442 "parse_args_and_run"
            (run_test_list set_iter (Argparse.path ns) (Argparse.verbose ns)
                           special_args_dict) w.
Proof.
  eexists. split; [apply special_args_dict_run|].
  set (d := <["currency_vs" := _]> _).
  assert (∀ x v, d !! x = Some v
                 ↔ x ∈ special_arguments_values ∧ Argparse.getattr ns x = Ok v)
    as Hlookup.
  { intros x v. unfold Argparse.getattr.
    repeat match goal with
           | |- context [String.eqb x ?k] =>
               destruct (String.eqb_spec x k) as [->|?];
               [vm_compute (d !! _);
                split; [intros [= <-]; split; [repeat constructor|done]
                       |by intros [_ [= <-]]]|]
           end.
    unfold d. rewrite !lookup_insert_ne, lookup_empty by (by apply not_eq_sym).
    split; [done|]. by intros [_ ?]. }
  split; [exact Hlookup|]. split; [reflexivity|]. split.
  - intros raw_lines. unfold resolve. cbn [list_truthy dict_truthy default].
    rewrite bool_decide_eq_false_2; [done|].
    intros Hempty.
    assert (d !! "ticker" = Some (Argparse.ticker ns)) as Hticker
      by (apply Hlookup; split; [set_solver|done]).
    by rewrite Hempty, lookup_empty in Hticker.
  - intros set_iter w. unfold parse_args_and_run.
    rewrite bind_unfold, (at_line_ok _ _ _ _ d) by done.
    cbn [lift result world_after printed]. rewrite special_args_dict_run.
    cbn [result world_after printed]. by rewrite prepend_nil.
Qed.

End OptionFacts.

Lemma main_argv_inserts_path_option_witness :
  main_argv ["integration_testing.py"; "stocks"; "-v"]
  = Ok ["integration_testing.py"; "-p"; "stocks"; "-v"]
  ∧ main_argv ["integration_testing.py"; "-p"; "stocks"; "-v"]
    = Ok ["integration_testing.py"; "-p"; "stocks"; "-v"].
Proof.
  destruct (main_argv_inserts_path_option ["integration_testing.py"; "stocks"; "-v"])
    as (_ & _ & Hok).
  destruct (Hok _ eq_refl) as (_ & Hagain & _).
  split; [reflexivity|exact Hagain].
Defined.

(** ** Lines that survive preprocessing *)

Module StripFacts.
Import PyStr PyStrFacts.

Lemma lstrip_by_contains (p : ascii → bool) (c : ascii) (s : string) :
  contains (String c "") s = false →
  contains (String c "") (lstrip_by p s) = false.
Proof.
  induction s as [|a s IH]; [done|]. intros Hc. cbn [lstrip_by].
  destruct (p a); [|done]. apply IH.
  rewrite contains_char_cons in Hc. by apply orb_false_iff in Hc as [_ ?].
Qed.

Lemma rstrip_by_contains (p : ascii → bool) (c : ascii) (s : string) :
  contains (String c "") s = false →
  contains (String c "") (rstrip_by p s) = false.
Proof.
  induction s as [|a s IH]; [done|]. rewrite contains_char_cons.
  intros [Ha Hs]%orb_false_iff. cbn [rstrip_by].
  specialize (IH Hs). destruct (rstrip_by p s) as [|b r].
  - destruct (p a); [done|]. by rewrite contains_char_cons, Ha.
  - by rewrite contains_char_cons, Ha, IH.
Qed.

(** What is left of a left strip does not begin with a stripped
    character. *)
Lemma lstrip_by_head (p : ascii → bool) (s : string) :
  match lstrip_by p s with
  | EmptyString => True
  | String a _ => p a = false
  end.
Proof.
  induction s as [|a s IH]; [done|]. cbn [lstrip_by].
  destruct (p a) eqn:Ha; [done|]. done.
Qed.

Lemma rstrip_by_keeps_head (p : ascii → bool) (s : string) :
  match rstrip_by p s, s with
  | String a _, String b _ => a = b
  | String _ _, EmptyString => False
  | EmptyString, _ => True
  end.
Proof.
  destruct s as [|b s]; [done|]. cbn [rstrip_by].
  destruct (rstrip_by p s); [by destruct (p b)|done].
Qed.

(** What is left of a right strip does not end with a stripped
    character. *)
Lemma rstrip_by_last (p : ascii → bool) (c : ascii) (s : string) :
  p c = true → endswith (String c "") (rstrip_by p s) = false.
Proof.
  intros Hc. induction s as [|a s IH]; [done|]. cbn [rstrip_by].
  destruct (rstrip_by p s) as [|b r] eqn:Hr.
  - destruct (p a) eqn:Ha; [done|]. cbn [endswith]. rewrite !orb_false_r.
    apply String.eqb_neq. intros [= ->]. congruence.
  - cbn [endswith] in IH |- *. rewrite IH, orb_false_r.
    apply String.eqb_neq. by intros [=].
Qed.

End StripFacts.

Section PreprocessFacts.
Context `{Host}.
Import PyStr PyStrFacts.

(** X8: what is true of every line that survives preprocessing.  It is
    not empty, it holds no comment marker, it neither begins nor ends
    with a newline, and it is the stripped form of a line of the file
    that [is_reset] does not recognise.  Preprocessing never adds a
    line. *)
Theorem preprocess_invariant (fp : list string) (x : string) :
  x ∈ preprocess fp →
  x ≠ ""
  ∧ contains "#" x = false
  ∧ startswith nl x = false
  ∧ endswith nl x = false
  ∧ (∃ raw, raw ∈ fp ∧ x = strip_newlines raw ∧ is_reset raw = false)
  ∧ length (preprocess fp) ≤ length fp.
Proof.
  unfold preprocess. intros (raw & -> & Hraw)%list_elem_of_fmap.
  apply list_elem_of_In, List.filter_In in Hraw as [Hraw Hfull].
  apply List.filter_In in Hraw as [Hin Hkeep]. apply list_elem_of_In in Hin.
  unfold keep_raw in Hkeep.
  apply andb_true_iff in Hkeep as [[Hreset Hmark]%andb_true_iff _].
  apply negb_true_iff in Hreset, Hmark.
  split; [by apply truthy_true|]. split; [|split; [|split; [|split]]].
  - unfold strip_newlines.
    by apply StripFacts.rstrip_by_contains, StripFacts.lstrip_by_contains.
  - unfold strip_newlines.
    pose proof (StripFacts.lstrip_by_head is_newline raw) as Hhead.
    pose proof (StripFacts.rstrip_by_keeps_head is_newline
                  (lstrip_by is_newline raw)) as Hsame.
    destruct (rstrip_by is_newline (lstrip_by is_newline raw)) as [|a r]; [done|].
    destruct (lstrip_by is_newline raw) as [|b s]; [done|]. subst b.
    unfold nl. rewrite startswith_cons, startswith_nil, andb_true_r.
    apply bool_decide_eq_false. intros <-. done.
  - unfold strip_newlines. by apply StripFacts.rstrip_by_last.
  - by exists raw.
  - rewrite length_fmap.
    etransitivity; [apply List.filter_length_le|apply List.filter_length_le].
Qed.

(** ** Scripts without a dollar sign *)

Lemma contains_first_char (c : ascii) (t s : string) :
  contains (String c "") s = false → contains (String c t) s = false.
Proof.
  intros Hc. apply not_true_is_false. intros (a & b & ->)%contains_spec.
  rewrite (proj2 (contains_spec (String c "") _)) in Hc; [done|].
  exists a, (t +:+ b). done.
Qed.

Lemma substitute_argv_dollar_free (routines_args : list string) (line : string) :
  contains "$" line = false → substitute_argv routines_args line = line.
Proof.
  intros Hline. unfold substitute_argv.
  induction (enumerate routines_args) as [|[i arg] l IH] using rev_ind; [done|].
  rewrite foldl_app. cbn [foldl]. rewrite IH.
  unfold argv_token. cbn [String.append replace].
  apply replace_from_absent. by apply contains_first_char.
Qed.

Lemma sub_dollar_free (repl : string → string) (line : string) :
  contains "$" line = false → Re.sub Re.placeholder repl line = line.
Proof.
  unfold Re.sub. induction line as [|c line IH]; [done|].
  rewrite contains_char_cons. intros [Hc Hline]%orb_false_iff.
  apply bool_decide_eq_false in Hc.
  assert (Re.match_here Re.placeholder (String c line) = None) as Hm.
  { unfold Re.placeholder. cbn [Re.match_here].
    by rewrite (proj2 (Ascii.eqb_neq c "$")) by congruence. }
  cbn [Re.sub_from]. rewrite Hm. by rewrite IH.
Qed.

(** X9: a script line without a dollar sign is never rewritten.  When
    no line holds [$], template resolution returns the lines as they are,
    whatever positional arguments and whatever named options are
    given. *)
Theorem dollar_free_lines_unchanged
        (routines_args : option (list string))
        (special_arguments : option (gmap string string))
        (raw_lines : list string) :
  (∀ line, line ∈ raw_lines → contains "$" line = false) →
  resolve routines_args special_arguments raw_lines = raw_lines.
Proof.
  intros Hfree. unfold resolve.
  destruct (list_truthy routines_args); [|destruct (dict_truthy special_arguments)].
  - rewrite <- (list_fmap_id raw_lines) at 2.
    apply list_fmap_ext. intros i line Hline.
    apply substitute_argv_dollar_free, Hfree. by eapply list_elem_of_lookup_2.
  - rewrite <- (list_fmap_id raw_lines) at 2.
    apply list_fmap_ext. intros i line Hline.
    apply sub_dollar_free, Hfree. by eapply list_elem_of_lookup_2.
  - done.
Qed.

End PreprocessFacts.

Lemma preprocess_invariant_witness :
  "load GME" ∈ @preprocess Mem.demo [Mem.line "stocks"; Mem.line "load GME"]
  ∧ PyStr.endswith nl "load GME" = false.
Proof.
  assert ("load GME" ∈ @preprocess Mem.demo [Mem.line "stocks"; Mem.line "load GME"])
    as Hin by (right; left).
  split; [exact Hin|].
  exact (proj1 (proj2 (proj2 (proj2
           (@preprocess_invariant Mem.demo _ _ Hin))))).
Defined.

Lemma dollar_free_lines_unchanged_witness :
  resolve (Some ["AAPL"]) (Some {["ticker" := "TSLA"]}) ["stocks"; "load GME"]
  = ["stocks"; "load GME"].
Proof.
  apply dollar_free_lines_unchanged.
  intros line Hline. apply elem_of_cons in Hline as [->|Hline]; [reflexivity|].
  apply list_elem_of_singleton in Hline as ->. reflexivity.
Defined.

(** ** The command path and the export directive *)

Module TokenFacts.
Import PyStr PyStrFacts.

(** The replacement of [//] keeps a leading slash. *)
Lemma replace_keeps_slash (s : string) :
  ∃ u, replace "//" "/home/" (String "/" s) = String "/" u.
Proof.
  unfold replace. cbn [replace_from].
  destruct (startswith "//" (String "/" s)); eauto.
Qed.

(** The first token of a text that begins with a slash begins with that
    slash. *)
Lemma split_ws_slash (u : string) :
  ∃ t ts, split_ws (String "/" u) = String "/" t :: ts.
Proof.
  unfold split_ws. cbn [ws_pieces].
  change (isspace "/") with false. cbv iota.
  destruct (ws_pieces u) as [|h pieces]; cbn [cons_head List.filter]; eauto.
Qed.

End TokenFacts.

Section CommandFacts.
Context `{Host}.
Import PyStr PyStrFacts.

Lemma command_tokens_run (lines : list string) :
  ∃ t ts,
    split_ws (replace "//" "/home/" (simulate_argv lines)) = String "/" t :: ts
    ∧ command_tokens lines = insert_start_slash (String "/" t :: ts).
Proof.
  unfold command_tokens, simulate_argv.
  change ("/" +:+ ?s) with (String "/" s).
  destruct (TokenFacts.replace_keeps_slash (join "/" (rstrip <$> lines))) as [u ->].
  destruct (TokenFacts.split_ws_slash u) as (t & ts & ->). by exists t, ts.
Qed.

(** X10: the command path always has a first token, and that token
    begins with a slash.  The list handed to [insert_start_slash] at
    line 204 is therefore never empty, for any lines, the empty list
    included: the guard of that line never takes its second branch.
    One string is built from the tokens, so the interpreter is always
    given a list of exactly one command string. *)
Theorem command_path_starts_with_slash (lines : list string) :
  (∃ first others,
     split_ws (replace "//" "/home/" (simulate_argv lines)) = first :: others
     ∧ startswith "/" first = true
     ∧ command_tokens lines = insert_start_slash (first :: others))
  ∧ (∀ file_cmds, translate lines = Ok file_cmds → length file_cmds = 1).
Proof.
  split.
  - destruct (command_tokens_run lines) as (t & ts & Hsplit & Htokens).
    exists (String "/" t), ts. repeat split; [done| |done].
    apply startswith_spec. by exists t.
  - intros file_cmds. unfold translate.
    destruct (extract_export lines) as [[export_folder lines']|e tb]; [|done].
    intros [= <-]. unfold to_file_cmds. by destruct (truthy export_folder).
Qed.

(** The directive is the first occurrence of [export ] in the first
    line, wherever it stands. *)
Lemma export_not_straddling (before rest : string) :
  contains "export" before = false →
  before ≠ "" →
  startswith "export " (before +:+ "export " +:+ rest) = false.
Proof.
  intros Hfree Hne. apply not_true_is_false. intros Hstart.
  assert (∀ a b : ascii, bool_decide (a = b) = true → a = b) as Hdec
    by (intros a b; apply bool_decide_eq_true).
  destruct before as [|c0 before]; [done|].
  change (String c0 before +:+ ?r) with (String c0 (before +:+ r)) in Hstart.
  rewrite startswith_cons in Hstart.
  apply andb_true_iff in Hstart as [<-%Hdec Hstart].
  destruct before as [|c1 before]; [done|].
  change (String c1 before +:+ ?r) with (String c1 (before +:+ r)) in Hstart.
  rewrite startswith_cons in Hstart.
  apply andb_true_iff in Hstart as [<-%Hdec Hstart].
  destruct before as [|c2 before]; [done|].
  change (String c2 before +:+ ?r) with (String c2 (before +:+ r)) in Hstart.
  rewrite startswith_cons in Hstart.
  apply andb_true_iff in Hstart as [<-%Hdec Hstart].
  destruct before as [|c3 before]; [done|].
  change (String c3 before +:+ ?r) with (String c3 (before +:+ r)) in Hstart.
  rewrite startswith_cons in Hstart.
  apply andb_true_iff in Hstart as [<-%Hdec Hstart].
  destruct before as [|c4 before]; [done|].
  change (String c4 before +:+ ?r) with (String c4 (before +:+ r)) in Hstart.
  rewrite startswith_cons in Hstart.
  apply andb_true_iff in Hstart as [<-%Hdec Hstart].
  destruct before as [|c5 before]; [done|].
  change (String c5 before +:+ ?r) with (String c5 (before +:+ r)) in Hstart.
  rewrite startswith_cons in Hstart.
  apply andb_true_iff in Hstart as [<-%Hdec Hstart].
  rewrite (proj2 (contains_spec "export" _)) in Hfree; [done|].
  by exists "", before.
Qed.

Lemma split_export_first (before rest : string) :
  contains "export" before = false →
  split "export " (before +:+ "export " +:+ rest) = before :: split "export " rest.
Proof.
  induction before as [|c before IH]; intros Hfree.
  - exact (split_match "export " rest ltac:(done)).
  - pose proof (export_not_straddling (String c before) rest Hfree ltac:(done))
      as Hstart.
    change (String c before +:+ ?r) with (String c (before +:+ r)) in Hstart |- *.
    unfold split in *. cbn [split_from]. rewrite Hstart, IH; [done|].
    apply not_true_is_false. intros (a & b & ->)%contains_spec.
    rewrite (proj2 (contains_spec "export" _)) in Hfree; [done|].
    by exists (String c a), b.
Qed.

(** X11: edge cases of the export directive (lines 197-200).
    - With no line at all, reading the first line raises [IndexError].
    - A first line that holds [export] but nowhere [export] followed by
      a space raises [IndexError]: the line splits into one piece.
    - A directive is recognised wherever it stands in the first line:
      what precedes it is discarded with the line, and the folder is
      what follows it, without trailing white space.
    - A directive whose folder is blank removes the line and adds no
      export prefix to the command string. *)
Theorem export_directive_edge_cases :
  translate [] = Raised IndexError []
  ∧ (∀ first rest,
       contains "export" first = true → contains "export " first = false →
       translate (first :: rest) = Raised IndexError [])
  ∧ (∀ before folder rest,
       contains "export" before = false → contains "export " folder = false →
       translate ((before +:+ "export " +:+ folder) :: rest)
       = Ok [(if truthy (rstrip folder) then "export " +:+ rstrip folder else "")
             +:+ join " " (command_tokens rest)]).
Proof.
  split; [done|]. split.
  - intros first rest Hexport Hspace.
    unfold translate, extract_export, index. cbn [lookup list_lookup].
    rewrite Hexport, (split_absent "export " first Hspace). done.
  - intros before folder rest Hbefore Hfolder.
    unfold translate, extract_export, index. cbn [lookup list_lookup].
    assert (contains "export" (before +:+ "export " +:+ folder) = true) as ->.
    { apply contains_spec. by exists before, (" " +:+ folder). }
    rewrite (split_export_first before folder Hbefore).
    rewrite (split_absent "export " folder Hfolder).
    cbn [lookup list_lookup List.tl]. unfold to_file_cmds.
    destruct (truthy (rstrip folder)); [|done].
    by rewrite app_assoc.
Qed.

End CommandFacts.

Lemma export_directive_edge_cases_witness :
  @translate Mem.demo ["stocks/load GME --export csv"; "candle"]
  = Ok ["export csv/candle"]
  ∧ @translate Mem.demo ["exports"; "stocks"] = Raised IndexError [].
Proof.
  destruct (@export_directive_edge_cases Mem.demo) as (_ & Hbad & Hany).
  split.
  - exact (Hany "stocks/load GME --" "csv" ["candle"] eq_refl eq_refl).
  - exact (Hbad "exports" ["stocks"] eq_refl eq_refl).
Defined.

(** ** The failure records *)

Section RecordFacts.
Context `{Host}.
Import PyStr PyStrFacts.

Lemma dict_get_set_eq {V} (k : string) (v : V) (d : Dict V) :
  dict_get k (dict_set k v d) = Some v.
Proof.
  induction d as [|[k0 v0] d IH]; simpl.
  - by rewrite String.eqb_refl.
  - destruct (String.eqb_spec k0 k) as [->|Hne]; simpl.
    + by rewrite String.eqb_refl.
    + by rewrite (proj2 (String.eqb_neq k0 k)).
Qed.

Lemma dict_get_set_ne {V} (k k' : string) (v : V) (d : Dict V) :
  k ≠ k' → dict_get k' (dict_set k v d) = dict_get k' d.
Proof.
  intros Hne. induction d as [|[k0 v0] d IH]; simpl.
  - by rewrite (proj2 (String.eqb_neq k k')).
  - destruct (String.eqb_spec k0 k) as [->|Hne0]; simpl.
    + by rewrite (proj2 (String.eqb_neq k k')).
    + by rewrite IH.
Qed.

Lemma dict_set_length {V} (k : string) (v : V) (d : Dict V) :
  length (dict_set k v d)
  = if bool_decide (k ∈ dict_keys d) then length d else S (length d).
Proof.
  induction d as [|[k0 v0] d IH]; [done|]. simpl.
  destruct (String.eqb_spec k0 k) as [->|Hne]; simpl.
  - rewrite bool_decide_eq_true_2; [done|by left].
  - rewrite IH. destruct (decide (k ∈ dict_keys d)) as [Hin|Hnotin].
    + rewrite !bool_decide_eq_true_2; [done|by right|done].
    + rewrite !bool_decide_eq_false_2; [done| |done].
      intros [?|?]%elem_of_cons; [congruence|done].
Qed.

Lemma dict_set_NoDup {V} (k : string) (v : V) (d : Dict V) :
  NoDup (dict_keys d) → NoDup (dict_keys (dict_set k v d)).
Proof.
  unfold dict_keys. induction d as [|[k0 v0] d IH]; simpl.
  - intros _. apply NoDup_singleton.
  - intros [Hnotin Hnd]%NoDup_cons.
    destruct (String.eqb_spec k0 k) as [->|Hne]; simpl.
    + by apply NoDup_cons.
    + apply NoDup_cons. split; [|by apply IH].
      intros [->|Hin]%(dict_keys_set k k0 v d); done.
Qed.

Lemma record_all_cons (file : PosixPath) (files : list PosixPath)
      (o : PyResult unit) (os : list (PyResult unit)) (t : Tally) :
  record_all (file :: files) (o :: os) t
  = record_all files os (record_outcome (file_short_name file) o t).
Proof. reflexivity. Qed.

Lemma record_all_NoDup (files : list PosixPath) (outcomes : list (PyResult unit)) :
  ∀ t, NoDup (dict_keys (fails t)) →
       NoDup (dict_keys (fails (record_all files outcomes t))).
Proof.
  revert outcomes. induction files as [|f files IH]; intros [|o os] t Hnd;
    try done.
  rewrite record_all_cons. apply IH.
  destruct o as [a|e tb]; [done|]. by apply dict_set_NoDup.
Qed.

Lemma record_all_length (files : list PosixPath) (outcomes : list (PyResult unit)) :
  ∀ t, length (fails t) ≤ FAILURES t →
       length (fails (record_all files outcomes t))
       ≤ FAILURES (record_all files outcomes t).
Proof.
  revert outcomes. induction files as [|f files IH]; intros [|o os] t Hle;
    try done.
  rewrite record_all_cons. apply IH.
  destruct o as [a|e tb]; [done|]. cbn [record_outcome fails FAILURES].
  rewrite dict_set_length. case_bool_decide; lia.
Qed.

Lemma record_all_length_distinct (files : list PosixPath)
      (outcomes : list (PyResult unit)) :
  ∀ t, NoDup (file_short_name <$> files) →
       (∀ f, f ∈ files → file_short_name f ∉ dict_keys (fails t)) →
       length (fails t) = FAILURES t →
       length (fails (record_all files outcomes t))
       = FAILURES (record_all files outcomes t).
Proof.
  revert outcomes. induction files as [|f files IH]; intros [|o os] t Hnd Hfresh Heq;
    try done.
  rewrite record_all_cons. rewrite fmap_cons in Hnd.
  apply NoDup_cons in Hnd as [Hf Hnd]. apply IH; [done|..].
  - intros g Hg. destruct o as [a|e tb]; cbn [record_outcome fails].
    + apply Hfresh. by right.
    + intros [Hsame|Hin]%dict_keys_set.
      * apply Hf. rewrite <- Hsame. by apply list_elem_of_fmap_2.
      * revert Hin. apply Hfresh. by right.
  - destruct o as [a|e tb]; [done|]. cbn [record_outcome fails FAILURES].
    rewrite dict_set_length, bool_decide_eq_false_2; [lia|].
    apply Hfresh. by left.
Qed.

(** Scripts that do not fail under the name [k] leave its record as it
    is. *)
Lemma record_all_untouched (k : string) (files : list PosixPath)
      (outcomes : list (PyResult unit)) :
  ∀ t, (∀ j file e tb, files !! j = Some file →
                       outcomes !! j = Some (Raised e tb) →
                       file_short_name file ≠ k) →
       dict_get k (fails (record_all files outcomes t)) = dict_get k (fails t).
Proof.
  revert outcomes. induction files as [|f files IH]; intros [|o os] t Hother;
    try done.
  rewrite record_all_cons, IH.
  - destruct o as [a|e tb]; [done|]. cbn [record_outcome fails].
    apply dict_get_set_ne. by apply (Hother 0 f e tb).
  - intros j file e tb Hfile Hout. by apply (Hother (S j) file e tb).
Qed.

Lemma record_all_last_wins (files : list PosixPath)
      (outcomes : list (PyResult unit)) :
  ∀ t i file e tb,
    files !! i = Some file →
    outcomes !! i = Some (Raised e tb) →
    (∀ j file' e' tb', i < j → files !! j = Some file' →
                       outcomes !! j = Some (Raised e' tb') →
                       file_short_name file' ≠ file_short_name file) →
    dict_get (file_short_name file) (fails (record_all files outcomes t))
    = Some (mkFailure e tb).
Proof.
  revert outcomes. induction files as [|f files IH];
    intros [|o os] t i file e tb Hfile Hout Hlater; try done.
  rewrite record_all_cons. destruct i as [|i].
  - cbn in Hfile, Hout. injection Hfile as ->. injection Hout as ->.
    rewrite record_all_untouched.
    + cbn [record_outcome fails]. apply dict_get_set_eq.
    + intros j file' e' tb' Hf Ho.
      apply (Hlater (S j) file' e' tb'); [lia|done..].
  - apply (IH os _ i file e tb); [done..|].
    intros j file' e' tb' Hij Hf Ho.
    apply (Hlater (S j) file' e' tb'); [lia|done..].
Qed.

Lemma run_test_files_run (test_files : list PosixPath) (verbose : bool)
      (sa : gmap string string) (w : World) :
  let outcomes := (replay_all verbose sa test_files (set_debug_mode w)).1 in
  let w' := (replay_all verbose sa test_files (set_debug_mode w)).2 in
  let t := record_all test_files outcomes (mkTally 0 0 []) in
  result (run_test_files test_files verbose sa w)
  = Ok (SUCCESSES t, FAILURES t, fails t, float_sub (time_time w') (time_time w))
  ∧ world_after (run_test_files test_files verbose sa w) = w'.
Proof.
  intros outcomes w' t.
  destruct (batch_from_replay_all verbose sa (length test_files) test_files
              0 (mkTally 0 0 []) (set_debug_mode w)) as [Hres Hw].
  fold outcomes in Hres. fold w' in Hw. fold t in Hres.
  unfold run_test_files.
  rewrite bind_unfold. cbn [gets result world_after printed].
  rewrite prepend_nil, bind_unfold. cbn [act result world_after printed].
  rewrite prepend_nil, bind_unfold, Hres, Hw.
  by rewrite bind_unfold.
Qed.

(** X12: the [fails] dictionary [run_test_files] returns.  Its keys are
    pairwise distinct and it never holds more records than the failure
    count says; it holds exactly that many when the scripts have
    pairwise distinct short names.  Two failing scripts with one short
    name share a record: looking a name up gives the exception and the
    traceback of the last failing script of that name. *)
Theorem failure_records_last_wins (test_files : list PosixPath) (verbose : bool)
        (sa : gmap string string) (w : World) :
  let outcomes := (replay_all verbose sa test_files (set_debug_mode w)).1 in
  ∃ (n_successes n_failures : nat) (fails_ : Dict Failure) (seconds : float),
    result (run_test_files test_files verbose sa w)
    = Ok (n_successes, n_failures, fails_, seconds)
    ∧ NoDup (dict_keys fails_)
    ∧ length fails_ ≤ n_failures
    ∧ (NoDup (file_short_name <$> test_files) → length fails_ = n_failures)
    ∧ ∀ i file e tb,
        test_files !! i = Some file →
        outcomes !! i = Some (Raised e tb) →
        (∀ j file' e' tb', i < j → test_files !! j = Some file' →
                           outcomes !! j = Some (Raised e' tb') →
                           file_short_name file' ≠ file_short_name file) →
        dict_get (file_short_name file) fails_ = Some (mkFailure e tb).
Proof.
  intros outcomes.
  destruct (run_test_files_run test_files verbose sa w) as [Hres _].
  cbv zeta in Hres. fold outcomes in Hres.
  set (t := record_all test_files outcomes (mkTally 0 0 [])) in *.
  eexists (SUCCESSES t), (FAILURES t), (fails t), _.
  split; [exact Hres|]. split; [|split; [|split]].
  - apply record_all_NoDup, NoDup_nil_2.
  - by apply record_all_length.
  - intros Hnd. apply record_all_length_distinct; [done| |done].
    intros f _ ?%elem_of_nil. done.
  - intros i file e tb. apply record_all_last_wins.
Qed.

End RecordFacts.

(** ** The colour of the progress lines *)

Section StyleFacts.
Context `{Host}.
Import PyStr PyStrFacts.

Lemma styled_app (ps qs : list Print) : styled (ps ++ qs) = styled ps ++ styled qs.
Proof. apply List.filter_app. Qed.

Lemma unstyled_ret {A} (a : A) : unstyled (mret a).
Proof. by intros w. Qed.

Lemma unstyled_lift {A} (r : PyResult A) : unstyled (lift r).
Proof. by intros w. Qed.

Lemma unstyled_gets {A} (f : World → A) : unstyled (gets f).
Proof. by intros w. Qed.

Lemma unstyled_act {A} (f : World → PyResult A * World) : unstyled (act f).
Proof. intros w. unfold act. by destruct (f w). Qed.

Lemma unstyled_open_lines (path : PosixPath) : unstyled (open_lines path).
Proof. by intros w. Qed.

Lemma unstyled_console_print (text end_ : string) :
  unstyled (console_print text end_ None).
Proof. by intros w. Qed.

Lemma unstyled_at_line {A} (n : nat) (fn : string) (m : Py A) :
  unstyled m → unstyled (at_line n fn m).
Proof.
  intros Hm w. specialize (Hm w). unfold at_line.
  by destruct (result (m w)).
Qed.

Lemma unstyled_bind {A B} (m : Py A) (k : A → Py B) :
  unstyled m → (∀ a, unstyled (k a)) → unstyled (m ≫= k).
Proof.
  intros Hm Hk w. rewrite bind_unfold. specialize (Hm w).
  destruct (result (m w)) as [a|e tb]; [|done].
  unfold prepend. cbn [printed]. by rewrite styled_app, Hm, Hk.
Qed.

(** What [run_scripts] prints on the console carries no style. *)
Lemma unstyled_run_scripts (path : PosixPath) (test_mode verbose : bool)
      (routines_args : option (list string))
      (special_arguments : option (gmap string string)) (output : bool) :
  unstyled (run_scripts path test_mode verbose routines_args special_arguments output).
Proof.
  unfold run_scripts.
  repeat first
    [ apply unstyled_ret | apply unstyled_lift | apply unstyled_gets
    | apply unstyled_act | apply unstyled_open_lines
    | apply unstyled_console_print
    | apply unstyled_at_line
    | apply unstyled_bind; [|intros ?]
    | match goal with
      | |- unstyled (if ?b then _ else _) => destruct b
      end ].
Qed.

Lemma count_raised_cons {A} (o : PyResult A) (os : list (PyResult A)) :
  count_raised (o :: os) = (if raised o then 1 else 0) + count_raised os.
Proof. unfold count_raised. cbn [List.filter]. by destruct (raised o). Qed.

Lemma count_raised_take {A} (os : list (PyResult A)) :
  ∀ i j, i ≤ j → count_raised (take i os) ≤ count_raised (take j os).
Proof.
  induction os as [|o os IH]; intros i j Hij.
  - by rewrite !take_nil.
  - destruct i as [|i]; [cbn; lia|]. destruct j as [|j]; [lia|].
    cbn [take]. rewrite !count_raised_cons.
    specialize (IH i j ltac:(lia)). lia.
Qed.

Lemma batch_from_styled (verbose : bool) (sa : gmap string string) (n : nat)
      (files : list PosixPath) :
  ∀ (i : nat) (t : Tally) (w : World),
    styled (printed (batch_from verbose sa n i files t w))
    = imap (λ j file,
              mkPrint (progress_line (file_short_name file) (i + j) n) nl
                (Some (if FAILURES t
                          + count_raised
                              (take (S j) (replay_all verbose sa files w).1) =? 0
                       then "green" else "red")))
           files.
Proof.
  induction files as [|file rest IH]; intros i t w; [done|].
  rewrite batch_from_step. cbv zeta. cbn [replay_all].
  set (r := replay verbose sa file w).
  destruct (replay_all verbose sa rest (world_after r)) as [os w'] eqn:Hrest.
  unfold prepend. cbn [printed fst]. rewrite !styled_app.
  assert (styled (printed r) = []) as ->.
  { apply unstyled_at_line, unstyled_run_scripts. }
  cbn [app styled List.filter]. rewrite bool_decide_eq_true_2 by (by eexists).
  rewrite imap_cons. cbn [app]. f_equal.
  - rewrite Nat.add_0_r. do 3 f_equal. cbn [take]. rewrite count_raised_cons.
    rewrite take_0. unfold count_raised at 1. cbn [List.filter length].
    destruct (result r); cbn [record_outcome FAILURES raised];
      by rewrite ?Nat.add_0_r, ?Nat.add_0_l, ?Nat.add_assoc.
  - rewrite IH, Hrest. cbn [fst]. apply imap_ext. intros j file' _.
    cbn [compose]. rewrite Nat.add_succ_r. do 3 f_equal.
    cbn [take]. rewrite (count_raised_cons (result r)).
    destruct (result r); cbn [record_outcome FAILURES raised];
      by rewrite ?Nat.add_0_r, ?Nat.add_0_l, ?Nat.add_assoc.
Qed.

(** X13: the colour of the progress lines.  [run_test_files] prints one
    styled line per script, in order, and nothing else with a style
    (what [run_scripts] itself prints is plain).  The line of script
    number [i] is green when none of the scripts up to and including it
    has failed and red otherwise; once a line is red, every later line
    is red, also those of scripts that pass. *)
Theorem progress_turns_red (test_files : list PosixPath) (verbose : bool)
        (sa : gmap string string) (w : World) :
  let outcomes := (replay_all verbose sa test_files (set_debug_mode w)).1 in
  let lines := styled (printed (run_test_files test_files verbose sa w)) in
  lines
  = imap (λ i file,
            mkPrint (progress_line (file_short_name file) i (length test_files)) nl
              (Some (if count_raised (take (S i) outcomes) =? 0
                     then "green" else "red")))
         test_files
  ∧ ∀ i j p q, i ≤ j → lines !! i = Some p → lines !! j = Some q →
               p_style p = Some "red" → p_style q = Some "red".
Proof.
  intros outcomes lines.
  assert (lines
          = imap (λ i file,
                    mkPrint (progress_line (file_short_name file) i (length test_files)) nl
                      (Some (if count_raised (take (S i) outcomes) =? 0
                             then "green" else "red")))
                 test_files) as Hlines.
  { unfold lines, run_test_files.
    rewrite bind_unfold. cbn [gets result world_after printed].
    rewrite prepend_nil, bind_unfold. cbn [act result world_after printed].
    rewrite prepend_nil, bind_unfold.
    destruct (batch_from_replay_all verbose sa (length test_files) test_files
                0 (mkTally 0 0 []) (set_debug_mode w)) as [Hres _].
    rewrite Hres. unfold prepend. cbn [printed result].
    rewrite bind_unfold. cbn [gets result world_after printed prepend mret Py_ret ret].
    rewrite !List.app_nil_r. by rewrite batch_from_styled. }
  split; [exact Hlines|].
  intros i j p q Hij. rewrite Hlines, !list_lookup_imap.
  intros (fi & _ & ->)%fmap_Some (fj & _ & ->)%fmap_Some.
  cbn [p_style]. pose proof (count_raised_take outcomes (S i) (S j) ltac:(lia)).
  destruct (Nat.eqb_spec (count_raised (take (S i) outcomes)) 0); [done|].
  intros _. destruct (Nat.eqb_spec (count_raised (take (S j) outcomes)) 0); [lia|done].
Qed.

End StyleFacts.

(** ** Fragments that name no script *)

Section DiscoveryFacts.
Context `{Host}.
Import PyStr PyStrFacts PathlibFacts.

Lemma build_test_path_list_run (set_iter : list string → list string)
      (path_list : list string) (w : World) :
  ∃ test_files prints,
    collect path_list [] w = mkRes (Ok test_files) w prints
    ∧ build_test_path_list set_iter path_list w
      = mkRes (Ok (Pathlib.sorted (Pathlib.Path <$> set_iter test_files))) w prints.
Proof.
  destruct (collect_run path_list [] w) as (test_files & prints & Hcollect & _).
  cbn [app] in Hcollect. exists test_files, prints. split; [done|].
  unfold build_test_path_list. rewrite bind_unfold, Hcollect.
  unfold prepend. cbn [result world_after printed mret Py_ret ret].
  by rewrite List.app_nil_r.
Qed.

(** A fragment that adds nothing leaves the result to the other
    fragments. *)
Lemma build_test_path_list_skip (set_iter : list string → list string)
      (path : string) (rest : list string) (w : World) (prints : list Print) :
  collect_fragment path w = mkRes (Ok []) w prints →
  build_test_path_list set_iter (path :: rest) w
  = prepend prints (build_test_path_list set_iter rest w).
Proof.
  intros Hfragment.
  destruct (build_test_path_list_run set_iter rest w)
    as (test_files & prints' & Hcollect & ->).
  unfold build_test_path_list. rewrite bind_unfold. cbn [collect].
  rewrite bind_unfold, Hfragment. cbn [result world_after printed app].
  rewrite Hcollect. unfold prepend.
  cbn [result world_after printed mret Py_ret ret].
  by rewrite List.app_nil_r.
Qed.

(** X14: fragments that name no script.  A fragment that does not exist
    under the scripts root is reported on the console and skipped; a
    fragment that exists but is neither a directory nor a file with the
    script extension is skipped without a word.  In both cases the list
    returned is the one the remaining fragments give: discovery goes on
    and raises nothing. *)
Theorem unknown_fragment_is_skipped (set_iter : list string → list string)
        (path : string) (rest : list string) (w : World) :
  let script_path :=
    Pathlib.joinpath (Pathlib.joinpath MISCELLANEOUS_DIRECTORY "scripts") path in
  (path_exists w script_path = false →
   build_test_path_list set_iter (path :: rest) w
   = prepend [mkPrint (nl +:+ "[red]Can't find the file: "
                       +:+ Pathlib.str script_path +:+ "[/red]" +:+ nl) nl None]
             (build_test_path_list set_iter rest w))
  ∧ (path_exists w script_path = true →
     path_is_dir w script_path = false →
     path_is_file w script_path = false
     ∨ endswith ".openbb" (Pathlib.str script_path) = false →
     build_test_path_list set_iter (path :: rest) w
     = build_test_path_list set_iter rest w).
Proof.
  intros script_path. split.
  - intros Hmissing. apply build_test_path_list_skip.
    unfold collect_fragment. fold script_path.
    rewrite bind_unfold. cbn [gets result world_after printed].
    rewrite Hmissing. by rewrite bind_unfold.
  - intros Hexists Hdir Hfile.
    rewrite <- (prepend_nil (build_test_path_list set_iter rest w)).
    apply build_test_path_list_skip.
    unfold collect_fragment. fold script_path.
    rewrite bind_unfold. cbn [gets result world_after printed].
    rewrite Hexists, bind_unfold. cbn [gets result world_after printed].
    assert (path_is_file w script_path
            && endswith ".openbb" (Pathlib.str script_path) = false) as ->.
    { destruct Hfile as [-> | ->]; [done|apply andb_false_r]. }
    rewrite bind_unfold. cbn [gets result world_after printed].
    by rewrite Hdir.
Qed.

Lemma joinpath_empty (p : PosixPath) : Pathlib.joinpath p "" = p.
Proof. unfold Pathlib.joinpath. cbn. apply List.app_nil_r. Qed.

Lemma collect_test_files_run (set_iter : list string → list string)
      (path_list : list string) (w : World) :
  ∃ test_files prints,
    build_test_path_list set_iter
      (match path_list with [] => [""] | _ :: _ => path_list end) w
    = mkRes (Ok test_files) w prints
    ∧ collect_test_files set_iter path_list w
      = mkRes (Ok test_files) w
          (prints ++
           [mkPrint ("Collecting scripts from: "
                     +:+ Pathlib.str (Pathlib.joinpath MISCELLANEOUS_DIRECTORY "scripts")
                     +:+ nl) nl None;
            mkPrint ("collected " +:+ of_nat (length test_files) +:+ " scripts" +:+ nl)
                    nl (Some "bold")]).
Proof.
  set (path_list' := match path_list with [] => [""] | _ :: _ => path_list end).
  destruct (build_test_path_list_run set_iter path_list' w)
    as (strings & prints & _ & Hbuild).
  eexists _, prints. split; [exact Hbuild|].
  unfold collect_test_files. fold path_list'. rewrite bind_unfold.
  rewrite (at_line_ok _ _ _ _ _ ltac:(by rewrite Hbuild)), Hbuild.
  cbn [result world_after printed].
  rewrite bind_unfold. cbn [console_print result world_after printed].
  rewrite bind_unfold. cbn [console_print result world_after printed].
  unfold prepend. cbn [result world_after printed mret Py_ret ret app].
  done.
Qed.

(** X15: what [collect_test_files] returns and prints.  When
    [build_test_path_list] returns a list for the selector,
    [collect_test_files] returns that list, prints two more lines and
    leaves the world as discovery left it; the number in
    [collected N scripts] is the length of the list.  An empty selector
    stands for the scripts root itself: when the root is found to be a
    directory, the result is every script [os.walk] finds under it,
    sorted. *)
Theorem empty_selector_is_the_scripts_root (set_iter : list string → list string)
        (w : World) :
  let root := Pathlib.joinpath MISCELLANEOUS_DIRECTORY "scripts" in
  (∀ path_list test_files,
     let discovery :=
       build_test_path_list set_iter
         (match path_list with [] => [""] | _ :: _ => path_list end) w in
     result discovery = Ok test_files →
     collect_test_files set_iter path_list w
     = mkRes (Ok test_files) (world_after discovery)
         (printed discovery ++
          [mkPrint ("Collecting scripts from: " +:+ Pathlib.str root +:+ nl) nl None;
           mkPrint ("collected " +:+ of_nat (length test_files) +:+ " scripts" +:+ nl)
                   nl (Some "bold")]))
  ∧ (path_exists w root = true →
     path_is_dir w root = true →
     path_is_file w root = false ∨ endswith ".openbb" (Pathlib.str root) = false →
     result (collect_test_files set_iter [] w)
     = Ok (Pathlib.sorted
             (Pathlib.Path <$> set_iter (walk_scripts w (Pathlib.str root))))).
Proof.
  intros root. split.
  - intros path_list test_files discovery Hdiscovery.
    destruct (collect_test_files_run set_iter path_list w)
      as (test_files' & prints & Hbuild & Hrun).
    unfold discovery in *. rewrite Hbuild in Hdiscovery |- *.
    injection Hdiscovery as <-. exact Hrun.
  - intros Hexists Hdir Hfile.
    destruct (collect_test_files_run set_iter [] w)
      as (test_files & prints & Hbuild & ->).
    cbn [result].
    destruct (build_test_path_list_run set_iter [""] w)
      as (strings & prints' & Hcollect & Hbuild').
    rewrite Hbuild' in Hbuild. injection Hbuild as <- _. do 3 f_equal.
    revert Hcollect. cbn [collect]. rewrite bind_unfold.
    unfold collect_fragment. rewrite joinpath_empty. fold root.
    rewrite bind_unfold. cbn [gets result world_after printed].
    rewrite Hexists, bind_unfold. cbn [gets result world_after printed].
    assert (path_is_file w root && endswith ".openbb" (Pathlib.str root) = false)
      as ->.
    { destruct Hfile as [-> | ->]; [done|apply andb_false_r]. }
    rewrite bind_unfold. cbn [gets result world_after printed].
    rewrite Hdir. cbn [gets result world_after printed prepend app].
    by intros [= <- _].
Qed.

End DiscoveryFacts.

(** ** A session from start to end *)

Section SessionFacts.
Context `{Host}.
Import PyStr PyStrFacts.

(** X16: a session whose discovery has returned runs to its end.  Once
    [collect_test_files] has returned its list, which comes in sorted
    order, [run_test_list] returns without raising, whatever the scripts
    of the list are and whatever exception their replays raise: a script
    that fails is recorded, and the two reports cannot fail.  The
    exceptions are the instances of [Exception], which the handler of
    line 270 catches; what ends the process instead ([SystemExit],
    [KeyboardInterrupt]) has no value here.  The world the session
    leaves is the one reached by replaying, once and in order, exactly
    the scripts [collect_test_files] returned. *)
Theorem session_runs_to_its_end (set_iter : list string → list string)
        (path_list : list string) (verbose : bool)
        (special_arguments : gmap string string) (w : World)
        (test_files : list PosixPath) :
  result (collect_test_files set_iter path_list w) = Ok test_files →
  Sorted Pathlib.le test_files
  ∧ result (run_test_list set_iter path_list verbose special_arguments w) = Ok tt
  ∧ world_after (run_test_list set_iter path_list verbose special_arguments w)
    = (replay_all verbose special_arguments test_files (set_debug_mode w)).2.
Proof.
  intros Hreturned.
  destruct (collect_test_files_run set_iter path_list w)
    as (test_files' & prints & Hbuild & Hcollect).
  rewrite Hcollect in Hreturned. injection Hreturned as ->.
  split.
  { destruct (build_test_path_list_run set_iter
                (match path_list with [] => [""] | _ :: _ => path_list end) w)
      as (strings & prints' & _ & Hsorted).
    rewrite Hsorted in Hbuild. injection Hbuild as <- _.
    apply PathlibFacts.sorted_Sorted. }
  destruct (run_test_files_run test_files verbose special_arguments w)
    as [Hres Hworld].
  cbv zeta in Hres, Hworld.
  set (outcomes := (replay_all verbose special_arguments test_files
                      (set_debug_mode w)).1) in *.
  set (t := record_all test_files outcomes (mkTally 0 0 [])) in *.
  set (w' := (replay_all verbose special_arguments test_files
                (set_debug_mode w)).2) in *.
  unfold run_test_list.
  rewrite bind_unfold. cbn [console_print result world_after printed].
  rewrite bind_unfold.
  rewrite (at_line_ok _ _ _ _ _ ltac:(by rewrite Hcollect)), Hcollect.
  cbn [result world_after printed].
  rewrite bind_unfold, (at_line_ok _ _ _ _ _ Hres), Hres, Hworld.
  destruct (prints_ok_display_failures (fails t)) as ([] & out1 & Hfailures).
  destruct (prints_ok_display_summary (fails t) (Z.of_nat (SUCCESSES t))
              (Z.of_nat (FAILURES t))
              (float_sub (time_time w') (time_time w)))
    as ([] & out2 & Hsummary).
  rewrite bind_unfold.
  rewrite (at_line_ok _ _ _ _ tt ltac:(by rewrite Hfailures)), Hfailures.
  cbn [result world_after printed].
  rewrite (at_line_ok _ _ _ _ tt ltac:(by rewrite Hsummary)), Hsummary.
  done.
Qed.

End SessionFacts.

Lemma unknown_fragment_is_skipped_witness :
  @build_test_path_list Mem.demo remove_dups ["nowhere"; "alpha.openbb"] []
  = prepend
      [mkPrint (nl +:+ "[red]Can't find the file: " +:+ Mem.scripts
                +:+ "/nowhere[/red]" +:+ nl) nl None]
      (@build_test_path_list Mem.demo remove_dups ["alpha.openbb"] [])
  ∧ @build_test_path_list Mem.demo remove_dups ["stocks/notes.txt"; "alpha.openbb"] []
    = @build_test_path_list Mem.demo remove_dups ["alpha.openbb"] [].
Proof.
  split.
  - exact (proj1 (@unknown_fragment_is_skipped Mem.demo remove_dups
                    "nowhere" ["alpha.openbb"] []) eq_refl).
  - exact (proj2 (@unknown_fragment_is_skipped Mem.demo remove_dups
                    "stocks/notes.txt" ["alpha.openbb"] [])
             eq_refl eq_refl (or_intror eq_refl)).
Defined.

Lemma session_runs_to_its_end_witness :
  Sorted Pathlib.le [Pathlib.Path (Mem.scripts +:+ "/stocks/gamma.openbb")]
  ∧ result (@run_test_list Mem.demo remove_dups ["stocks"] false ∅ []) = Ok tt
  ∧ world_after (@run_test_list Mem.demo remove_dups ["stocks"] false ∅ [])
    = [["export reports//stocks/load $ARGV[0]/exit"]].
Proof.
  pose proof (@session_runs_to_its_end Mem.demo remove_dups ["stocks"] false ∅ []
                [Pathlib.Path (Mem.scripts +:+ "/stocks/gamma.openbb")] eq_refl)
    as Hthm.
  vm_compute in Hthm. vm_compute. exact Hthm.
Defined.

Lemma empty_selector_is_the_scripts_root_witness :
  result (@collect_test_files Mem.demo remove_dups [] [])
  = Ok (Pathlib.sorted
          (Pathlib.Path <$>
             remove_dups (@walk_scripts Mem.demo [] Mem.scripts))).
Proof.
  exact (proj2 (@empty_selector_is_the_scripts_root Mem.demo remove_dups [])
           eq_refl eq_refl (or_introl eq_refl)).
Defined.

(** ** A script that is not there *)

Section MissingFacts.
Context `{Host}.
Import PyStr PyStrFacts.

(** X17: a script that does not exist.  In test mode [run_scripts]
    prints that the file does not exist and that it launches the base
    terminal, launches nothing, and fails where it opens the file, at
    line 167, with the error of the open; the world is left as it was.
    Outside test mode the base terminal is launched first; when it
    returns, the open fails in the same way, in the world the terminal
    left, and when it raises, that exception leaves from line 165. *)
Theorem missing_script_fails_at_open
        (path : PosixPath) (verbose output : bool)
        (routines_args : option (list string))
        (special_arguments : option (gmap string string)) (w : World) :
  path_exists w path = false →
  let notice :=
    mkPrint ("File '" +:+ Pathlib.str path
             +:+ "' doesn't exist. Launching base terminal." +:+ nl) nl None in
  (∀ e tb, path_open w path = Raised e tb →
     run_scripts path true verbose routines_args special_arguments output w
     = mkRes (Raised e (mkFrame module_file 167 "run_scripts" :: tb)) w [notice])
  ∧ (∀ w1 e tb, terminal None false Visible w = (Ok tt, w1) →
       path_open w1 path = Raised e tb →
       run_scripts path false verbose routines_args special_arguments output w
       = mkRes (Raised e (mkFrame module_file 167 "run_scripts" :: tb)) w1 [notice])
  ∧ (∀ w1 e tb, terminal None false Visible w = (Raised e tb, w1) →
       run_scripts path false verbose routines_args special_arguments output w
       = mkRes (Raised e (mkFrame module_file 165 "run_scripts" :: tb)) w1 [notice]).
Proof.
  intros Hmissing notice. split; [|split].
  - intros e tb Hopen. unfold run_scripts.
    rewrite bind_unfold. cbn [gets result world_after printed].
    rewrite Hmissing. cbn [negb].
    rewrite prepend_nil, bind_unfold.
    rewrite bind_unfold. cbn [console_print result world_after printed].
    cbn [mret Py_ret ret prepend result world_after printed app].
    rewrite bind_unfold.
    rewrite (at_line_raised _ _ _ _ e tb) by (unfold open_lines; by rewrite Hopen).
    done.
  - intros w1 e tb Hterminal Hopen. unfold run_scripts.
    rewrite bind_unfold. cbn [gets result world_after printed].
    rewrite Hmissing. cbn [negb].
    rewrite prepend_nil, bind_unfold.
    rewrite bind_unfold. cbn [console_print result world_after printed].
    assert (at_line 165 "run_scripts" (act (terminal None false Visible)) w
            = mkRes (Ok tt) w1 []) as ->.
    { rewrite (at_line_ok _ _ _ _ tt); unfold act; by rewrite Hterminal. }
    cbn [prepend result world_after printed app].
    rewrite bind_unfold.
    rewrite (at_line_raised _ _ _ _ e tb) by (unfold open_lines; by rewrite Hopen).
    done.
  - intros w1 e tb Hterminal. unfold run_scripts.
    rewrite bind_unfold. cbn [gets result world_after printed].
    rewrite Hmissing. cbn [negb].
    rewrite prepend_nil, bind_unfold.
    rewrite bind_unfold. cbn [console_print result world_after printed].
    rewrite (at_line_raised _ _ _ _ e tb) by (unfold act; by rewrite Hterminal).
    unfold act. rewrite Hterminal. done.
Qed.

(** ** The name of the output file *)

Lemma join_slash_head (t : string) (ts : list string) :
  ∃ u, join " " (String "/" t :: ts) = String "/" u.
Proof. destruct ts as [|t' ts]; cbn [join String.append]; eauto. Qed.

(** X18: the output file of a quiet replay always has a name.  Provided
    [insert_start_slash] leaves a slash at the head of a command path
    that begins with one, the one command string [run_scripts] builds
    holds a slash, so that line 220, which names the output file after
    the piece that follows the first slash, never raises. *)
Theorem output_file_name_is_defined (lines file_cmds : list string) :
  (∀ t ts, ∃ t' ts',
     insert_start_slash (String "/" t :: ts) = String "/" t' :: ts') →
  translate lines = Ok file_cmds →
  ∃ first first_cmd,
    index file_cmds 0 = Ok first
    ∧ contains "/" first = true
    ∧ index (split "/" first) 1 = Ok first_cmd.
Proof.
  intros Hslash. unfold translate.
  destruct (extract_export lines) as [[export_folder lines']|e tb]; [|done].
  intros [= <-].
  destruct (command_tokens_run lines') as (t & ts & _ & Htokens).
  destruct (Hslash t ts) as (t' & ts' & Hkept).
  destruct (join_slash_head t' ts') as [u Hjoin].
  assert (∃ prefix, to_file_cmds export_folder lines' = [prefix +:+ String "/" u])
    as [prefix ->].
  { unfold to_file_cmds. rewrite Htokens, Hkept, Hjoin.
    destruct (truthy export_folder).
    - exists ("export " +:+ export_folder). by rewrite app_assoc.
    - by exists "". }
  assert (contains "/" (prefix +:+ String "/" u) = true) as Hhas.
  { apply contains_spec. by exists prefix, u. }
  exists (prefix +:+ String "/" u).
  pose proof (SplitFacts.split_contains_length "/" _ ltac:(done) Hhas) as Hlen.
  unfold index at 2.
  destruct (split "/" (prefix +:+ String "/" u)) as [|a [|b l]];
    simpl in Hlen; [lia..|].
  by exists b.
Qed.

End MissingFacts.

Lemma missing_script_fails_at_open_witness :
  @run_scripts Mem.demo (Pathlib.Path (Mem.scripts +:+ "/nowhere.openbb"))
     true false None None true []
  = mkRes (Raised Mem.FileNotFoundError
             [mkFrame "/repo/openbb_terminal/integration_testing.py" 167 "run_scripts"])
          []
          [mkPrint ("File '" +:+ Mem.scripts +:+ "/nowhere.openbb"
                    +:+ "' doesn't exist. Launching base terminal." +:+ nl) nl None].
Proof.
  exact (proj1 (@missing_script_fails_at_open Mem.demo
                  (Pathlib.Path (Mem.scripts +:+ "/nowhere.openbb"))
                  false true None None [] eq_refl)
           Mem.FileNotFoundError [] eq_refl).
Defined.

Lemma output_file_name_is_defined_witness :
  ∃ first first_cmd,
    index ["/stocks/load GME/exit"] 0 = Ok first
    ∧ PyStr.contains "/" first = true
    ∧ index (PyStr.split "/" first) 1 = Ok first_cmd.
Proof.
  apply (@output_file_name_is_defined Mem.demo ["stocks"; "load GME"; "exit"]).
  - intros t ts. exists t, ts. by destruct t.
  - reflexivity.
Defined.

Lemma discovery_postcondition_witness :
  ∃ test_files,
    result (@collect Mem.demo ["stocks"; "alpha.openbb"] [] []) = Ok test_files
    ∧ [Pathlib.Path (Mem.scripts +:+ "/alpha.openbb");
       Pathlib.Path (Mem.scripts +:+ "/stocks/gamma.openbb")]
      = Pathlib.sorted (Pathlib.Path <$> remove_dups test_files)
    ∧ @build_test_path_list Mem.demo (λ l, reverse (remove_dups l))
        ["stocks"; "alpha.openbb"] []
      = @build_test_path_list Mem.demo remove_dups ["stocks"; "alpha.openbb"] []
    ∧ world_after
        (@build_test_path_list Mem.demo remove_dups ["stocks"; "alpha.openbb"] [])
      = []
    ∧ Sorted Pathlib.le
        [Pathlib.Path (Mem.scripts +:+ "/alpha.openbb");
         Pathlib.Path (Mem.scripts +:+ "/stocks/gamma.openbb")]
    ∧ (∀ p, p ∈ [Pathlib.Path (Mem.scripts +:+ "/alpha.openbb");
                 Pathlib.Path (Mem.scripts +:+ "/stocks/gamma.openbb")] →
            PyStr.endswith ".openbb" (Pathlib.str p) = true)
    ∧ ((∀ x, x ∈ test_files → Pathlib.str (Pathlib.Path x) = x) →
       NoDup [Pathlib.Path (Mem.scripts +:+ "/alpha.openbb");
              Pathlib.Path (Mem.scripts +:+ "/stocks/gamma.openbb")]).
Proof.
  apply (@discovery_postcondition Mem.demo remove_dups (λ l, reverse (remove_dups l))
           ["stocks"; "alpha.openbb"] []).
  - intros l. split; [apply NoDup_remove_dups|apply elem_of_remove_dups].
  - intros l. split; [rewrite reverse_Permutation; apply NoDup_remove_dups|].
    intros x. rewrite elem_of_reverse. apply elem_of_remove_dups.
  - reflexivity.
Defined.

(** ** The command string of an ordinary script *)

Module WordFacts.
Import PyStr PyStrFacts.

Lemma ws_pieces_nonempty (s : string) : ws_pieces s ≠ [].
Proof.
  induction s as [|c s IH]; [done|]. cbn [ws_pieces].
  destruct (isspace c); [done|]. by destruct (ws_pieces s).
Qed.

(** A text without white space stays in front of the first piece. *)
Lemma ws_pieces_word (word s : string) :
  no_space word = true →
  ∃ h t, ws_pieces s = h :: t ∧ ws_pieces (word +:+ s) = (word +:+ h) :: t.
Proof.
  intros Hword. induction word as [|c word IH].
  - pose proof (ws_pieces_nonempty s). cbn [String.append].
    destruct (ws_pieces s) as [|h t]; [done|]. by exists h, t.
  - cbn [no_space] in Hword. apply andb_true_iff in Hword as [Hc Hword].
    apply negb_true_iff in Hc.
    destruct (IH Hword) as (h & t & Hs & Hws). exists h, t. split; [done|].
    change (String c word +:+ s) with (String c (word +:+ s)).
    cbn [ws_pieces]. by rewrite Hc, Hws.
Qed.

Lemma is_word_spec (s : string) :
  is_word s = true ↔ s ≠ "" ∧ no_space s = true.
Proof.
  unfold is_word, nonempty. rewrite andb_true_iff, negb_true_iff.
  by rewrite String.eqb_neq.
Qed.

(** Splitting at white space undoes joining words with single spaces. *)
Lemma split_ws_join (words : list string) :
  Forall (λ word, is_word word = true) words →
  split_ws (join " " words) = words.
Proof.
  unfold split_ws. induction 1 as [|word words Hword _ IH]; [done|].
  apply is_word_spec in Hword as [Hne Hns].
  assert (nonempty word = true) as Hkeep.
  { unfold nonempty. by rewrite (proj2 (String.eqb_neq word "")). }
  destruct words as [|word' words].
  - cbn [join].
    destruct (ws_pieces_word word "" Hns) as (h & t & Hs & Hws).
    rewrite app_nil_r in Hws. rewrite Hws.
    cbn [ws_pieces] in Hs. injection Hs as <- <-.
    rewrite app_nil_r. cbn [List.filter]. by rewrite Hkeep.
  - change (join " " (word :: word' :: words))
      with (word +:+ String " " (join " " (word' :: words))).
    destruct (ws_pieces_word word (String " " (join " " (word' :: words))) Hns)
      as (h & t & Hs & ->).
    cbn [ws_pieces] in Hs. change (isspace " ") with true in Hs. cbv iota in Hs.
    injection Hs as <- <-. rewrite app_nil_r.
    cbn [List.filter]. rewrite Hkeep. f_equal. exact IH.
Qed.

End WordFacts.

Section OrdinaryFacts.
Context `{Host}.
Import PyStr PyStrFacts.

(** X20: the command string of an ordinary script.  When the command
    path, a slash followed by the lines joined by slashes, holds no
    double slash and reads as words separated by single spaces, and
    [insert_start_slash] leaves a path that begins with a slash as it
    is, the translation changes nothing: the interpreter is handed that
    very path, after the export prefix when a folder is set.  Splitting
    at white space and joining with spaces is then a round trip. *)
Theorem ordinary_script_command (lines words : list string) :
  (∀ t ts, insert_start_slash (String "/" t :: ts) = String "/" t :: ts) →
  contains "//" (simulate_argv lines) = false →
  simulate_argv lines = join " " words →
  Forall (λ word, is_word word = true) words →
  command_tokens lines = words
  ∧ to_file_cmds "" lines = ["/" +:+ join "/" (rstrip <$> lines)]
  ∧ (∀ export_folder, export_folder ≠ "" →
       to_file_cmds export_folder lines
       = ["export " +:+ export_folder +:+ "/" +:+ join "/" (rstrip <$> lines)])
  ∧ (∀ first rest, lines = first :: rest → contains "export" first = false →
       translate lines = Ok ["/" +:+ join "/" (rstrip <$> lines)]).
Proof.
  intros Hslash Hdouble Hwords Hall.
  assert (command_tokens lines = words) as Htokens.
  { destruct (command_tokens_run lines) as (t & ts & Hsplit & ->).
    revert Hsplit. unfold replace. rewrite replace_from_absent by done.
    rewrite Hwords, WordFacts.split_ws_join by done. intros ->. apply Hslash. }
  assert (join " " (command_tokens lines) = "/" +:+ join "/" (rstrip <$> lines))
    as Hjoin by (by rewrite Htokens, <- Hwords).
  split; [done|]. split; [|split].
  - unfold to_file_cmds. cbn [truthy nonempty String.eqb negb]. by rewrite Hjoin.
  - intros export_folder Hfolder. unfold to_file_cmds.
    apply truthy_true in Hfolder. by rewrite Hfolder, Hjoin.
  - intros first rest -> Hfirst.
    unfold translate, extract_export, index. cbn [lookup list_lookup].
    rewrite Hfirst. unfold to_file_cmds.
    cbn [truthy nonempty String.eqb negb]. by rewrite Hjoin.
Qed.

(** ** Discovery depends on the set of fragments only *)



End OrdinaryFacts.

Lemma ordinary_script_command_witness :
  @translate Mem.demo ["stocks"; "load GME"; "exit"]
  = Ok ["/" +:+ PyStr.join "/" (PyStr.rstrip <$> ["stocks"; "load GME"; "exit"])].
Proof.
  refine (proj2 (proj2 (proj2
            (@ordinary_script_command Mem.demo ["stocks"; "load GME"; "exit"]
               ["/stocks/load"; "GME/exit"] _ eq_refl eq_refl _)))
            "stocks" ["load GME"; "exit"] eq_refl eq_refl).
  - intros t ts. by destruct t.
  - repeat constructor.
Defined.


(** ** The harness is never blamed *)

Section BlameFacts.
Context `{Host}.
Import PyStr PyStrFacts.

Lemma raises_in_ret {A} (fn : string) (a : A) : raises_in fn (mret a).
Proof. by intros w e tb. Qed.

Lemma raises_in_gets {A} (fn : string) (f : World → A) : raises_in fn (gets f).
Proof. by intros w e tb. Qed.

Lemma raises_in_console_print (fn text end_ : string) (style : option string) :
  raises_in fn (console_print text end_ style).
Proof. by intros w e tb. Qed.

Lemma raises_in_at_line {A} (n : nat) (fn : string) (m : Py A) :
  raises_in fn (at_line n fn m).
Proof.
  intros w e tb. unfold at_line.
  destruct (result (m w)) as [a|e' tb'] eqn:Hm; [by rewrite Hm|].
  cbn [result]. intros [= <- <-]. eauto.
Qed.

Lemma raises_in_bind {A B} (fn : string) (m : Py A) (k : A → Py B) :
  raises_in fn m → (∀ a, raises_in fn (k a)) → raises_in fn (m ≫= k).
Proof.
  intros Hm Hk w e tb. rewrite bind_unfold.
  destruct (result (m w)) as [a|e' tb'] eqn:Hres.
  - unfold prepend. cbn [result]. apply Hk.
  - cbn [result]. intros [= <- <-]. by eapply Hm.
Qed.

(** Every exception that leaves [run_scripts] leaves it from one of its
    own lines. *)
Lemma raises_in_run_scripts (path : PosixPath) (test_mode verbose : bool)
      (routines_args : option (list string))
      (special_arguments : option (gmap string string)) (output : bool) :
  raises_in "run_scripts"
    (run_scripts path test_mode verbose routines_args special_arguments output).
Proof.
  unfold run_scripts.
  repeat first
    [ apply raises_in_ret | apply raises_in_gets
    | apply raises_in_console_print
    | apply raises_in_at_line
    | apply raises_in_bind; [|intros ?]
    | match goal with
      | |- raises_in _ (if ?b then _ else _) => destruct b
      end ].
Qed.

Lemma not_dispatch_without_call (frame : FrameSummary) :
  contains "call_" (name frame) = false → is_dispatch_frame frame = false.
Proof. intros Hname. unfold is_dispatch_frame. by rewrite Hname, andb_false_r. Qed.

Lemma find_app_none {A} (f : A → bool) (l k : list A) :
  (∀ x, x ∈ k → f x = false) →
  List.find f (l ++ k) = List.find f l.
Proof.
  intros Hk. induction l as [|a l IH]; cbn [app List.find].
  - by apply find_none_all.
  - by rewrite IH.
Qed.

(** Frames that are no dispatch frames, put in front of a traceback, do
    not change the command it is blamed on. *)
Lemma broken_cmd_outer (outer tb : list FrameSummary) :
  (∀ frame, frame ∈ outer → is_dispatch_frame frame = false) →
  broken_cmd (outer ++ tb) = broken_cmd tb.
Proof.
  intros Houter. unfold broken_cmd. rewrite rev_app_distr.
  rewrite find_app_none; [done|].
  intros x Hx%elem_of_rev_1. by apply Houter.
Qed.

(** X22: the harness is never blamed for a failure.  The traceback
    recorded for a script that fails begins with the frame of line 262
    of [run_test_files] and a frame of [run_scripts]; neither is a
    dispatch frame, so the command named in the summary is the one the
    rest of the traceback gives, and it is [unknown] when the exception
    was raised by [run_scripts] itself. *)
Theorem harness_frames_are_not_blamed (verbose : bool)
        (special_arguments : gmap string string) (file : PosixPath)
        (w : World) (e : PyException) (tb : list FrameSummary) :
  result (replay verbose special_arguments file w) = Raised e tb →
  ∃ n inner,
    tb = mkFrame module_file 262 "run_test_files"
         :: mkFrame module_file n "run_scripts" :: inner
    ∧ broken_cmd tb = broken_cmd inner
    ∧ (inner = [] → broken_cmd tb = Ok "unknown").
Proof.
  unfold replay, at_line.
  destruct (result (run_scripts file true verbose None (Some special_arguments) true w))
    as [a|e' tb'] eqn:Hrun; [by rewrite Hrun|].
  cbn [result]. intros [= <- <-].
  destruct (raises_in_run_scripts file true verbose None (Some special_arguments)
              true w e' tb' Hrun) as (n & inner & ->).
  exists n, inner. split; [done|].
  assert (broken_cmd (mkFrame module_file 262 "run_test_files"
                      :: mkFrame module_file n "run_scripts" :: inner)
          = broken_cmd inner) as Hblame.
  { apply (broken_cmd_outer [_; _]).
    intros frame [->|[->|[]%elem_of_nil]%elem_of_cons]%elem_of_cons;
      by apply not_dispatch_without_call. }
  split; [done|]. intros ->. by rewrite Hblame.
Qed.

End BlameFacts.

Lemma harness_frames_are_not_blamed_witness :
  ∃ n inner,
    [mkFrame "/repo/openbb_terminal/integration_testing.py" 262 "run_test_files";
     mkFrame "/repo/openbb_terminal/integration_testing.py" 194 "run_scripts"]
    = mkFrame "/repo/openbb_terminal/integration_testing.py" 262 "run_test_files"
      :: mkFrame "/repo/openbb_terminal/integration_testing.py" n "run_scripts"
      :: inner
    ∧ broken_cmd
        [mkFrame "/repo/openbb_terminal/integration_testing.py" 262 "run_test_files";
         mkFrame "/repo/openbb_terminal/integration_testing.py" 194 "run_scripts"]
      = broken_cmd inner
    ∧ (inner = [] →
       broken_cmd
         [mkFrame "/repo/openbb_terminal/integration_testing.py" 262 "run_test_files";
          mkFrame "/repo/openbb_terminal/integration_testing.py" 194 "run_scripts"]
       = Ok "unknown").
Proof.
  exact (@harness_frames_are_not_blamed Mem.demo false ∅
           (Pathlib.Path (Mem.scripts +:+ "/beta.openbb")) [] IndexError _ eq_refl).
Defined.

(** ** The output file stays in its directory *)

Module OutputFacts.
Import PyStr PyStrFacts.




End OutputFacts.

Section OutputFileFacts.
Context `{Host}.
Import PyStr PyStrFacts.


End OutputFileFacts.


(** ** A test command ends the session *)

Module KeepFacts.
Import PyStr PyStrFacts.

(** A right strip ends at the last character it does not strip. *)
Lemma rstrip_by_keep (p : ascii → bool) (a : string) (c : ascii) (b : string) :
  p c = false →
  rstrip_by p (a +:+ String c b) = a +:+ String c (rstrip_by p b).
Proof.
  intros Hc. induction a as [|x a IH].
  - cbn [String.append rstrip_by]. destruct (rstrip_by p b); [by rewrite Hc|done].
  - change (String x a +:+ ?r) with (String x (a +:+ r)).
    cbn [rstrip_by]. rewrite IH. by destruct a.
Qed.

(** A text without white space survives a right strip. *)
Lemma rstrip_keeps (m line : string) :
  m ≠ "" → no_space m = true →
  contains m line = true → contains m (rstrip line) = true.
Proof.
  intros Hne Hm (a & b & ->)%contains_spec. apply contains_spec.
  assert (∀ m b, no_space m = true →
            ∃ b', rstrip_by isspace (m +:+ b) = m +:+ b'
                  ∨ m = "") as Hword.
  { clear. intros m. induction m as [|c m IH]; intros b Hm; [exists ""; by right|].
    cbn [no_space] in Hm. apply andb_true_iff in Hm as [Hc Hm].
    apply negb_true_iff in Hc.
    change (String c m +:+ b) with ("" +:+ String c (m +:+ b)).
    rewrite (rstrip_by_keep isspace "" c (m +:+ b) Hc). cbn [String.append].
    destruct (IH b Hm) as [b' [->| ->]].
    - exists b'. by left.
    - exists (rstrip_by isspace b). by left. }
  destruct m as [|c m]; [done|].
  cbn [no_space] in Hm. apply andb_true_iff in Hm as [Hc Hm].
  apply negb_true_iff in Hc.
  unfold rstrip. change (String c m +:+ b) with (String c (m +:+ b)).
  rewrite (rstrip_by_keep isspace a c (m +:+ b) Hc).
  destruct (Hword m b Hm) as [b' [->| ->]].
  - exists a, b'. done.
  - exists a, (rstrip_by isspace b). done.
Qed.

(** What an element of a list holds, the joined text holds. *)
Lemma join_keeps (sep m x : string) (l : list string) :
  x ∈ l → contains m x = true → contains m (join sep l) = true.
Proof.
  intros Hin Hx. induction l as [|y l IH]; [by apply elem_of_nil in Hin|].
  destruct l as [|z l].
  - apply list_elem_of_singleton in Hin as ->. done.
  - change (join sep (y :: z :: l)) with (y +:+ sep +:+ join sep (z :: l)).
    apply elem_of_cons in Hin as [->|Hin].
    + apply contains_spec in Hx as (a & b & ->). apply contains_spec.
      exists a, (b +:+ sep +:+ join sep (z :: l)). by rewrite !app_assoc.
    + by apply contains_app_r, contains_app_r, IH.
Qed.

(** The scan of [str.replace] copies a text that cannot take part in a
    match of [//]. *)
Lemma replace_slashes_copy (new m rest : string) :
  contains "/" m = false →
  replace_from "//" new 0 (m +:+ rest) = m +:+ replace_from "//" new 0 rest.
Proof.
  induction m as [|c m IH]; [done|]. rewrite contains_char_cons.
  intros [Hc Hm]%orb_false_iff.
  change (String c m +:+ rest) with (String c (m +:+ rest)).
  rewrite replace_from_nomatch; [by rewrite IH|].
  rewrite startswith_cons, Hc. done.
Qed.

Lemma replace_slashes_keeps_from (new m : string) (a b : string) :
  m ≠ "" → contains "/" m = false →
  ∀ skip, skip ≤ 1 → skip ≤ len a →
    ∃ a' b', replace_from "//" new skip (a +:+ m +:+ b) = a' +:+ m +:+ b'.
Proof.
  intros Hne Hm. induction a as [|x a IH]; intros skip Hskip Hlen.
  - cbn [len String.length] in Hlen. assert (skip = 0) as -> by lia.
    cbn [String.append]. rewrite replace_slashes_copy by done.
    by exists "", (replace_from "//" new 0 b).
  - change (String x a +:+ ?r) with (String x (a +:+ r)).
    cbn [replace_from]. change (len "//" - 1) with 1. destruct skip as [|k].
    + destruct (startswith "//" (String x (a +:+ m +:+ b))) eqn:Hstart.
      * assert (a ≠ "") as Ha.
        { intros ->. cbn [String.append] in Hstart.
          destruct m as [|c m]; [done|].
          rewrite contains_char_cons in Hm. apply orb_false_iff in Hm as [Hc _].
          change (String c m +:+ b) with (String c (m +:+ b)) in Hstart.
          rewrite !startswith_cons, Hc in Hstart.
          by rewrite andb_false_r in Hstart. }
        destruct (IH 1) as (a' & b' & ->); [done| |].
        { destruct a; [done|]. cbn [len String.length]. lia. }
        exists (new +:+ a'), b'. by rewrite !app_assoc.
      * destruct (IH 0) as (a' & b' & ->); [lia..|].
        by exists (String x a'), b'.
    + assert (k = 0) as -> by lia.
      destruct (IH 0) as (a' & b' & ->); [lia..|]. by exists a', b'.
Qed.

(** A text without a slash survives the replacement of [//]. *)
Lemma replace_slashes_keeps (new m s : string) :
  m ≠ "" → contains "/" m = false →
  contains m s = true → contains m (replace "//" new s) = true.
Proof.
  intros Hne Hm (a & b & ->)%contains_spec. unfold replace.
  destruct (replace_slashes_keeps_from new m a b Hne Hm 0) as (a' & b' & ->);
    [lia..|].
  apply contains_spec. by exists a', b'.
Qed.

Lemma cons_head_elem (c : ascii) (pieces : list string) (piece : string) :
  piece ∈ pieces →
  (∃ h t, pieces = h :: t ∧ piece = h ∧ String c h ∈ cons_head c pieces)
  ∨ piece ∈ cons_head c pieces.
Proof.
  destruct pieces as [|h t]; [by intros ?%elem_of_nil|].
  intros [->|Hin]%elem_of_cons.
  - left. exists h, t. repeat split. by left.
  - right. by right.
Qed.

(** A text without white space lies within one piece. *)
Lemma ws_pieces_keeps (m a b : string) :
  no_space m = true →
  ∃ piece, piece ∈ ws_pieces (a +:+ m +:+ b) ∧ contains m piece = true.
Proof.
  intros Hm. induction a as [|x a (piece & Hin & Hpiece)].
  - cbn [String.append].
    destruct (WordFacts.ws_pieces_word m b Hm) as (h & t & _ & ->).
    exists (m +:+ h). split; [by left|].
    apply contains_spec. by exists "", h.
  - change (String x a +:+ ?r) with (String x (a +:+ r)).
    cbn [ws_pieces]. destruct (isspace x).
    + exists piece. split; [by right|done].
    + destruct (cons_head_elem x _ _ Hin) as [(h & t & _ & -> & Hhead)|Hin'].
      * exists (String x h). split; [done|].
        by apply (contains_app_r m (String x "") h).
      * by exists piece.
Qed.

(** A non-empty text without white space survives splitting at white
    space and joining with spaces. *)
Lemma split_join_keeps (m s : string) :
  m ≠ "" → no_space m = true →
  contains m s = true → contains m (join " " (split_ws s)) = true.
Proof.
  intros Hne Hm (a & b & ->)%contains_spec.
  destruct (ws_pieces_keeps m a b Hm) as (piece & Hin & Hpiece).
  apply (join_keeps " " m piece); [|done].
  unfold split_ws. apply list_elem_of_In, List.filter_In.
  split; [by apply list_elem_of_In|].
  unfold nonempty. apply negb_true_iff, String.eqb_neq. intros ->.
  apply contains_spec in Hpiece as (a' & b' & Heq).
  destruct a'; [|done]. by destruct m.
Qed.

End KeepFacts.

Section ExitFacts.
Context `{Host}.
Import PyStr PyStrFacts.

(** X24: a test command ends the session.  In test mode the one command
    string handed to the interpreter holds [exit]: the last line holds
    it, as it was or appended, and right-stripping the lines, joining
    them, replacing [//], splitting at white space and joining again
    all keep it.  This holds when [insert_start_slash] leaves a path
    that begins with a slash as it is, and when the last line is not
    itself consumed as the export directive: there are two lines or
    more, or the first line holds no [export]. *)
Theorem test_command_holds_exit (lines0 lines file_cmds : list string) :
  (∀ t ts, insert_start_slash (String "/" t :: ts) = String "/" t :: ts) →
  append_exit true lines0 = Ok lines →
  translate lines = Ok file_cmds →
  2 ≤ length lines
  ∨ (∃ first, lines !! 0 = Some first ∧ contains "export" first = false) →
  ∃ cmd, file_cmds = [cmd] ∧ contains "exit" cmd = true.
Proof.
  intros Hslash Happend Htranslate Hshape.
  assert (∃ final, last lines = Some final ∧ contains "exit" final = true)
    as (final & Hlast & Hexit).
  { revert Happend. unfold append_exit, index_last.
    destruct (last lines0) as [final|] eqn:Hlast0; [|done].
    destruct (contains "exit" final) eqn:Hfinal; intros [= <-].
    - by exists final.
    - exists "exit". by rewrite last_snoc. }
  assert (∀ rest, last rest = Some final →
            contains "exit" (join " " (command_tokens rest)) = true) as Hkept.
  { intros rest Hrest.
    destruct (command_tokens_run rest) as (t & ts & Hsplit & ->).
    rewrite Hslash, <- Hsplit.
    apply KeepFacts.split_join_keeps; [done..|].
    apply KeepFacts.replace_slashes_keeps; [done..|].
    unfold simulate_argv. apply contains_app_r.
    apply (KeepFacts.join_keeps "/" "exit" (rstrip final)).
    - apply list_elem_of_fmap_2. apply last_Some in Hrest as [l' ->].
      apply elem_of_app. right. by left.
    - by apply KeepFacts.rstrip_keeps. }
  assert (∀ folder rest, last rest = Some final →
            ∃ cmd, to_file_cmds folder rest = [cmd] ∧ contains "exit" cmd = true)
    as Hcmd.
  { intros folder rest Hrest. unfold to_file_cmds.
    destruct (truthy folder); eexists; (split; [reflexivity|]).
    - rewrite <- app_assoc. by apply contains_app_r, Hkept.
    - by apply Hkept. }
  revert Htranslate. unfold translate, extract_export, index.
  destruct lines as [|first rest]; [done|]. cbn [lookup list_lookup].
  destruct (contains "export" first) eqn:Hexport.
  - destruct (split "export " first !! 1) as [folder|]; [|done].
    intros [= <-]. cbn [List.tl]. apply Hcmd.
    destruct Hshape as [Hlen|(first' & [= <-] & Hfirst)]; [|congruence].
    destruct rest as [|second rest]; [simpl in Hlen; lia|].
    by rewrite last_cons_cons in Hlast.
  - intros [= <-]. by apply Hcmd.
Qed.

End ExitFacts.

Lemma test_command_holds_exit_witness :
  ∃ cmd, ["export reports//stocks/load GME/exit"] = [cmd]
         ∧ PyStr.contains "exit" cmd = true.
Proof.
  apply (@test_command_holds_exit Mem.demo
           ["export reports/"; "stocks"; "load GME"]
           ["export reports/"; "stocks"; "load GME"; "exit"]).
  - intros t ts. by destruct t.
  - reflexivity.
  - reflexivity.
  - left. simpl. lia.
Defined.

(** ** The order of the failure records *)

Section OrderFacts.
Context `{Host}.
Import PyStr PyStrFacts.

(** A key that is not there is added at the end. *)
Lemma dict_set_fresh {V} (k : string) (v : V) (d : Dict V) :
  k ∉ dict_keys d → dict_set k v d = d ++ [(k, v)].
Proof.
  unfold dict_keys. induction d as [|[k0 v0] d IH]; [done|]. simpl.
  intros [Hne Hnotin]%not_elem_of_cons.
  rewrite (proj2 (String.eqb_neq k0 k)) by congruence. by rewrite IH.
Qed.

Lemma failure_records_cons (file : PosixPath) (files : list PosixPath)
      (o : PyResult unit) (os : list (PyResult unit)) :
  failure_records (file :: files) (o :: os)
  = match o with
    | Raised e tb => [(file_short_name file, mkFailure e tb)]
    | Ok _ => []
    end ++ failure_records files os.
Proof. unfold failure_records. cbn [zip zip_with omap]. cbn. by destruct o. Qed.

Lemma record_all_fresh (files : list PosixPath) (outcomes : list (PyResult unit)) :
  ∀ t, NoDup (file_short_name <$> files) →
       (∀ f, f ∈ files → file_short_name f ∉ dict_keys (fails t)) →
       fails (record_all files outcomes t) = fails t ++ failure_records files outcomes.
Proof.
  revert outcomes. induction files as [|f files IH]; intros [|o os] t Hnd Hfresh;
    try (unfold record_all, failure_records; cbn; by rewrite List.app_nil_r).
  rewrite record_all_cons, failure_records_cons. rewrite fmap_cons in Hnd.
  apply NoDup_cons in Hnd as [Hf Hnd].
  destruct o as [a|e tb]; cbn [record_outcome].
  - rewrite IH; [done..|]. intros g Hg. cbn [fails]. apply Hfresh. by right.
  - rewrite IH; [|done|].
    + cbn [fails]. rewrite dict_set_fresh by (apply Hfresh; by left).
      by rewrite <- List.app_assoc.
    + intros g Hg. cbn [fails]. intros [Hsame|Hin]%dict_keys_set.
      * apply Hf. rewrite <- Hsame. by apply list_elem_of_fmap_2.
      * revert Hin. apply Hfresh. by right.
Qed.

(** X25: the failure records keep the order of the scripts.  When the
    scripts have pairwise distinct short names, the [fails] dictionary
    [run_test_files] returns holds one record for each script that
    failed, under its short name, with its exception and traceback, in
    the order in which the scripts were replayed; this is the order in
    which the two reporters list the failures. *)
Theorem failure_records_keep_order (test_files : list PosixPath) (verbose : bool)
        (sa : gmap string string) (w : World) :
  NoDup (file_short_name <$> test_files) →
  let outcomes := (replay_all verbose sa test_files (set_debug_mode w)).1 in
  ∃ (n_successes n_failures : nat) (seconds : float),
    result (run_test_files test_files verbose sa w)
    = Ok (n_successes, n_failures, failure_records test_files outcomes, seconds)
    ∧ length (failure_records test_files outcomes) = n_failures.
Proof.
  intros Hnd outcomes.
  destruct (run_test_files_run test_files verbose sa w) as [Hres _].
  cbv zeta in Hres. fold outcomes in Hres.
  set (t := record_all test_files outcomes (mkTally 0 0 [])) in *.
  assert (fails t = failure_records test_files outcomes) as Hfails.
  { unfold t. rewrite record_all_fresh; [done..|].
    intros f _ ?%elem_of_nil. done. }
  eexists (SUCCESSES t), (FAILURES t), _. split.
  - rewrite Hres. by rewrite Hfails.
  - rewrite <- Hfails. apply record_all_length_distinct; [done| |done].
    intros f _ ?%elem_of_nil. done.
Qed.

End OrderFacts.

Lemma failure_records_keep_order_witness :
  ∃ (n_successes n_failures seconds : nat),
    result (@run_test_files Mem.demo
              [Pathlib.Path (Mem.scripts +:+ "/alpha.openbb");
               Pathlib.Path (Mem.scripts +:+ "/beta.openbb")]
              false ∅ [])
    = Ok (n_successes, n_failures,
          [("scripts/beta.openbb",
            mkFailure IndexError
              [mkFrame "/repo/openbb_terminal/integration_testing.py" 262 "run_test_files";
               mkFrame "/repo/openbb_terminal/integration_testing.py" 194 "run_scripts"])],
          seconds)
    ∧ 1 = n_failures.
Proof.
  assert (NoDup (@file_short_name Mem.demo <$>
                   [Pathlib.Path (Mem.scripts +:+ "/alpha.openbb");
                    Pathlib.Path (Mem.scripts +:+ "/beta.openbb")])) as Hnd.
  { apply NoDup_cons. split; [|apply NoDup_singleton].
    by intros ?%list_elem_of_singleton. }
  pose proof (@failure_records_keep_order Mem.demo _ false ∅ [] Hnd) as Hthm.
  vm_compute in Hthm. exact Hthm.
Defined.
